(** * Ingestion pipeline of the SAP vector uploader backend

    A shallow embedding of [app/utils/vector_search.py] (the embedding
    provider) and [app/utils/file_processing.py] (text extraction and the
    ingestion pipeline), with the schema of [app/models/models.py] as the data
    model, and the properties of the pipeline proved over it.

    Conventions.
    - A Python [str] is a [string]; each [ascii] stands for one code point
      below 256.
    - A Python [float] is a real number: rounding is not tracked, so a
      statement "up to floating-point tolerance" is proved as an exact
      equation over the reals.
    - Code that raises returns [Raise e]; code that keeps state (the random
      generator, the database session) passes it explicitly. *)

From Stdlib Require Import String Ascii List Bool Arith ZArith Lia.
From Stdlib Require Import Reals Lra.
From Stdlib Require Import Sorted Permutation.

#[local] Set Warnings "-abstract-large-number,-notation-for-abbreviation".
Import ListNotations.

Local Open Scope string_scope.
Local Open Scope list_scope.

(** ** Python strings *)

(** [str.isspace] on one character, for code points below 256: the ASCII
    controls 9-13 and 28-31, the space, NEL (0x85) and NBSP (0xA0). *)
Definition is_space (c : ascii) : bool :=
  let n := nat_of_ascii c in
  (((9 <=? n) && (n <=? 13)) || ((28 <=? n) && (n <=? 32))
   || (n =? 133) || (n =? 160))%nat.

(** [s.lstrip()] *)
Fixpoint lstrip (s : string) : string :=
  match s with
  | EmptyString => EmptyString
  | String c s' => if is_space c then lstrip s' else s
  end.

(** [s.rstrip()] *)
Fixpoint rstrip (s : string) : string :=
  match s with
  | EmptyString => EmptyString
  | String c s' =>
      match rstrip s' with
      | EmptyString => if is_space c then EmptyString else String c EmptyString
      | r => String c r
      end
  end.

(** [s.strip()] *)
Definition strip (s : string) : string := rstrip (lstrip s).

(** Python truthiness of a [str]: the empty string is falsy. *)
Definition truthy_str (s : string) : bool :=
  match s with EmptyString => false | String _ _ => true end.

(** Every character of [s] is whitespace (so is the empty string). *)
Fixpoint whitespace_only (s : string) : bool :=
  match s with
  | EmptyString => true
  | String c s' => is_space c && whitespace_only s'
  end.

(** [s[:n]] for [n >= 0]. *)
Fixpoint str_take (n : nat) (s : string) : string :=
  match n, s with
  | O, _ => EmptyString
  | S _, EmptyString => EmptyString
  | S n', String c s' => String c (str_take n' s')
  end.

(** [s[n:]] for [n >= 0]. *)
Fixpoint str_drop (n : nat) (s : string) : string :=
  match n, s with
  | O, _ => s
  | S _, EmptyString => EmptyString
  | S n', String _ s' => str_drop n' s'
  end.

(** [s.startswith(p)] *)
Fixpoint startswith (p s : string) : bool :=
  match p, s with
  | EmptyString, _ => true
  | String _ _, EmptyString => false
  | String a p', String b s' => Ascii.eqb a b && startswith p' s'
  end.

(** [c.lower()] for a code point below 256: the ASCII capitals and the
    Latin-1 capitals 0xC0-0xDE (0xD7, the multiplication sign, is not one). *)
Definition lower_char (c : ascii) : ascii :=
  let n := nat_of_ascii c in
  if (((65 <=? n) && (n <=? 90))
      || ((192 <=? n) && (n <=? 222) && negb (n =? 215)))%nat
  then ascii_of_nat (n + 32) else c.

Fixpoint lower (s : string) : string :=
  match s with
  | EmptyString => EmptyString
  | String c s' => String (lower_char c) (lower s')
  end.

(** [s.rfind(c)]: the last index of [c] in [s], [-1] when it is absent. *)
Fixpoint rfind_from (c : ascii) (s : string) (i : Z) : Z :=
  match s with
  | EmptyString => (-1)%Z
  | String a s' =>
      let r := rfind_from c s' (i + 1)%Z in
      if (0 <=? r)%Z then r else if Ascii.eqb a c then i else (-1)%Z
  end.

Definition rfind (c : ascii) (s : string) : Z := rfind_from c s 0%Z.

(** [p[i:i+1] != extsep] for some [i] of [lo <= i < lo + n]: the loop of
    [genericpath._splitext] that skips the leading dots of a file name. *)
Fixpoint has_non_dot (p : string) (lo n : nat) : bool :=
  match n with
  | O => false
  | S n' =>
      match get lo p with
      | Some c => if Ascii.eqb c "."%char then has_non_dot p (S lo) n' else true
      | None => true
      end
  end.

(** [os.path.splitext(p)] of POSIX paths ([sep = "/"], no [altsep]). *)
Definition splitext (p : string) : string * string :=
  let sepIndex := rfind "/"%char p in
  let dotIndex := rfind "."%char p in
  if (sepIndex <? dotIndex)%Z
     && has_non_dot p (Z.to_nat (sepIndex + 1)) (Z.to_nat (dotIndex - (sepIndex + 1)))
  then (str_take (Z.to_nat dotIndex) p, str_drop (Z.to_nat dotIndex) p)
  else (p, EmptyString).

(** [sep.join(parts)] *)
Fixpoint join (sep : string) (parts : list string) : string :=
  match parts with
  | [] => EmptyString
  | [x] => x
  | x :: rest => x ++ sep ++ join sep rest
  end.

(** ** Exceptions and results *)

(** The exceptions the modelled code can meet. All of them derive from
    Python's [Exception]. *)
Inductive exn : Type :=
| ZeroDivisionError
| AttributeError
| OSError
| DatabaseError
| IntegrityError
| ProviderError
| ValueError.

Inductive result (A : Type) : Type :=
| Ok (a : A)
| Raise (e : exn).
Arguments Ok {A} a.
Arguments Raise {A} e.

(** ** The embedding provider ([vector_search.py]) *)

Local Open Scope R_scope.

(** [sum(x**2 for x in v)]: Python's [sum] adds from the left, starting at 0. *)
Definition sum_squares (v : list R) : R :=
  fold_left Rplus (map (fun x => x ^ 2) v) 0.

Inductive api_result : Type :=
| ApiEmbedding (v : list R)     (* [response.data[0].embedding] *)
| ApiAttributeError             (* logged and re-raised by the inner handler *)
| ApiFailure.                   (* any other exception of the client *)

Section EmbeddingProvider.

(** The state of the module-level generator of Python's [random]. *)
Variable rng : Type.
(** [random.seed(text)]: the state a text seeds, whatever the state before. *)
Variable seed : string -> rng.
(** [random.uniform(-1, 1)]: one draw and the state after it. *)
Variable uniform : rng -> R * rng.
(** The module constant decided at import time from [OPENAI_API_KEY]. *)
Variable USE_MOCK_EMBEDDINGS : bool.
(** [openai.embeddings.create(model="text-embedding-ada-002", input=text)],
    the remote service, as the outcome it has for a submitted text. *)
Variable openai_embeddings_create : string -> api_result.

(** [[random.uniform(-1, 1) for _ in range(n)]] *)
Fixpoint draws (n : nat) (g : rng) : list R * rng :=
  match n with
  | O => ([], g)
  | S n' =>
      let (x, g1) := uniform g in
      let (xs, g2) := draws n' g1 in
      (x :: xs, g2)
  end.

(** [get_mock_embedding(text, vector_size)]. The division raises
    [ZeroDivisionError] at the first element when the magnitude is zero. *)
Definition get_mock_embedding (text : string) (vector_size : nat) (g : rng)
  : result (list R) * rng :=
  let g0 := seed text in
  let (mock_embedding, g1) := draws vector_size g0 in
  let magnitude := sqrt (sum_squares mock_embedding) in
  match mock_embedding with
  | [] => (Ok [], g1)
  | _ :: _ =>
      if Req_dec_T magnitude 0 then (Raise ZeroDivisionError, g1)
      else (Ok (map (fun x => x / magnitude) mock_embedding), g1)
  end.

(** The dimensionality [get_embedding] asks of the mock (the default of
    [vector_size]). *)
Definition EMBEDDING_DIM : nat := 1536.

(** The text the provider computes on: [text[:8000]] when
    [len(text) > 8000]. *)
Definition truncate (text : string) : string :=
  if (8000 <? String.length text)%nat then str_take 8000 text else text.

(** The outer handler of [get_embedding]: fall back to the mock. An
    exception of the fallback itself leaves the function. *)
Definition fallback (text : string) (g : rng) : result (option (list R)) * rng :=
  match get_mock_embedding text EMBEDDING_DIM g with
  | (Ok v, g') => (Ok (Some v), g')
  | (Raise e, g') => (Raise e, g')
  end.

(** [get_embedding(text)] *)
Definition get_embedding (text : string) (g : rng)
  : result (option (list R)) * rng :=
  if negb (truthy_str text) || negb (truthy_str (strip text)) then (Ok None, g)
  else
    let text := truncate text in
    if USE_MOCK_EMBEDDINGS then
      match get_mock_embedding text EMBEDDING_DIM g with
      | (Ok mock_result, g') => (Ok (Some mock_result), g')
      | (Raise _, g') => fallback text g'
      end
    else
      match openai_embeddings_create text with
      | ApiEmbedding embedding => (Ok (Some embedding), g)
      | ApiAttributeError | ApiFailure => fallback text g
      end.

End EmbeddingProvider.

Arguments get_mock_embedding {rng} seed uniform text vector_size g.
Arguments get_embedding {rng} seed uniform USE_MOCK_EMBEDDINGS
  openai_embeddings_create text g.
Arguments fallback {rng} seed uniform text g.
Arguments draws {rng} uniform n g.

Local Close Scope R_scope.

(** ** The data model ([models.py]) *)

(** A primary key: [UUID(as_uuid=True)]. *)
Definition UUID : Type := N.

(** A row of [files]. *)
Record File : Type := mkFile {
  f_id : UUID;
  f_filename : string;
  f_file_path : string;
  f_file_type : string;
  f_file_size : N;
  f_status : string;
  f_user_id : UUID
}.

(** A row of [chunks]; [c_file_id] is the foreign key to [files.id]. *)
Record Chunk : Type := mkChunk {
  c_id : UUID;
  c_chunk_number : nat;
  c_text : string;
  c_token_count : nat;
  c_file_id : UUID
}.

(** How a parser library answers for a file: it is not installed, it raises
    on the file (with the text of the exception), or it yields the texts of
    the pages or paragraphs. *)
Inductive parsed : Type :=
| NotInstalled
| ParseFailure (message : string)
| Parsed (parts : list string).

Definition newline : string := String (ascii_of_nat 10) EmptyString.

(** [x in xs] on keys. *)
Definition uuid_in (x : UUID) (xs : list UUID) : bool := existsb (N.eqb x) xs.

(** The value of [embedding_model] the pipeline writes. *)
Definition ADA_002 : string := "text-embedding-ada-002".

(** The elements of [l] at the positions where [flags] is [true]. *)
Fixpoint select {A : Type} (flags : list bool) (l : list A) : list A :=
  match flags, l with
  | true :: flags', x :: l' => x :: select flags' l'
  | false :: flags', _ :: l' => select flags' l'
  | _, _ => []
  end.

Section Pipeline.

(** The entries of a vector (a [float] in the code). *)
Variable num : Type.
(** The state the embedding provider keeps between calls, and the provider
    ([get_embedding] as [file_processing] imports it). *)
Variable G : Type.
Variable embed : string -> G -> result (option (list num)) * G.
(** [open(file_path, 'r', encoding='utf-8', errors='replace').read()] *)
Variable open_read : string -> result string.
(** [PdfReader(file_path).pages], each page through [extract_text()]. *)
Variable pdf_pages : string -> parsed.
(** [Document(file_path).paragraphs], each through [.text]. *)
Variable docx_paragraphs : string -> parsed.
(** [RecursiveCharacterTextSplitter(chunk_size=512, chunk_overlap=50,
    length_function=count_tokens).split_text]: it measures pieces of the text
    with [count_tokens], and raises what that raises. *)
Variable split_text : string -> result (list string).
(** [len(tiktoken.get_encoding("cl100k_base").encode(text))]: [encode] raises
    [ValueError] on a text that contains the name of a special token, such as
    [<|endoftext|>]. *)
Variable count_tokens : string -> result nat.
(** The values [uuid.uuid4()] returns, in the order of the calls. *)
Variable uuid_source : nat -> UUID.

(** A row of [embeddings]; [e_chunk_id] is the foreign key to [chunks.id]. *)
Record Embedding : Type := mkEmbedding {
  e_id : UUID;
  e_chunk_id : UUID;
  e_embedding_vector : list num;
  e_embedding_model : string
}.

Record Tables : Type := mkTables {
  files : list File;
  chunks : list Chunk;
  embeddings : list Embedding
}.

(** The SQLAlchemy session [db] and what surrounds a run.
    - [view]: the tables as the session sees them (its pending changes
      included); [committed]: the tables as of the last commit.
    - [faults]: the database failures to come, each as the number of database
      calls that succeed before it; [[]] when the database never fails.
    - [uuids_drawn]: how many times [uuid4] was called.
    - [provider]: the state of the embedding provider. *)
Record Session : Type := mkSession {
  view : Tables;
  committed : Tables;
  faults : list nat;
  uuids_drawn : nat;
  provider : G
}.

Definition set_view (t : Tables) (s : Session) : Session :=
  mkSession t (committed s) (faults s) (uuids_drawn s) (provider s).
Definition set_committed (t : Tables) (s : Session) : Session :=
  mkSession (view s) t (faults s) (uuids_drawn s) (provider s).
Definition set_faults (fs : list nat) (s : Session) : Session :=
  mkSession (view s) (committed s) fs (uuids_drawn s) (provider s).
Definition set_uuids_drawn (n : nat) (s : Session) : Session :=
  mkSession (view s) (committed s) (faults s) n (provider s).
Definition set_provider (g : G) (s : Session) : Session :=
  mkSession (view s) (committed s) (faults s) (uuids_drawn s) g.

(** *** Code that raises and keeps state *)

Definition M (A : Type) : Type := Session -> result A * Session.

Definition ret {A : Type} (a : A) : M A := fun s => (Ok a, s).

Definition bind {A B : Type} (m : M A) (k : A -> M B) : M B :=
  fun s =>
    match m s with
    | (Ok a, s') => k a s'
    | (Raise e, s') => (Raise e, s')
    end.

Definition raise {A : Type} (e : exn) : M A := fun s => (Raise e, s).

(** [try: m  except Exception as e: h] *)
Definition try_except {A : Type} (m : M A) (h : exn -> M A) : M A :=
  fun s =>
    match m s with
    | (Ok a, s') => (Ok a, s')
    | (Raise e, s') => h e s'
    end.

Local Notation "x <- m ;; k" := (bind m (fun x => k))
  (at level 61, m at next level, right associativity).
Local Notation "m ;;; k" := (bind m (fun _ => k))
  (at level 61, right associativity).

(** *** The session's operations *)

(** One round trip to the database: it fails when the next fault is due. *)
Definition db_call : M unit :=
  fun s =>
    match faults s with
    | [] => (Ok tt, s)
    | O :: fs => (Raise DatabaseError, set_faults fs s)
    | S n :: fs => (Ok tt, set_faults (n :: fs) s)
    end.

Definition find_file (file_id : UUID) (t : Tables) : option File :=
  find (fun f => N.eqb (f_id f) file_id) (files t).

Definition chunks_of (file_id : UUID) (t : Tables) : list Chunk :=
  filter (fun c => N.eqb (c_file_id c) file_id) (chunks t).

(** The [status] column of the row of a file, when there is one. *)
Definition status_of (file_id : UUID) (t : Tables) : option string :=
  option_map f_status (find_file file_id t).

(** No embedding refers to a chunk that is not there: the foreign key
    [embeddings.chunk_id -> chunks.id] holds. *)
Definition orphan_free (t : Tables) : bool :=
  forallb (fun e => uuid_in (e_chunk_id e) (map c_id (chunks t))) (embeddings t).

(** The tables without the chunks of a file and without the embeddings of
    those chunks. *)
Definition purge (file_id : UUID) (t : Tables) : Tables :=
  mkTables (files t)
    (filter (fun c => negb (N.eqb (c_file_id c) file_id)) (chunks t))
    (filter (fun e => negb (uuid_in (e_chunk_id e) (map c_id (chunks_of file_id t))))
       (embeddings t)).

(** [db.query(File).filter(File.id == file_id).first()] *)
Definition query_file (file_id : UUID) : M (option File) :=
  db_call ;;; fun s => (Ok (find_file file_id (view s)), s).

(** [[chunk_id for (chunk_id,) in
      db.query(Chunk.id).filter(Chunk.file_id == file_id).all()]] *)
Definition query_chunk_ids (file_id : UUID) : M (list UUID) :=
  db_call ;;; fun s => (Ok (map c_id (chunks_of file_id (view s))), s).

(** [db.query(Chunk).filter(Chunk.file_id == file_id).count()] *)
Definition count_chunks (file_id : UUID) : M nat :=
  db_call ;;; fun s => (Ok (length (chunks_of file_id (view s))), s).

(** [db.query(Embedding).filter(Embedding.chunk_id.in_(chunk_ids))
      .delete(synchronize_session=False)]: the number of rows deleted. *)
Definition delete_embeddings_in (chunk_ids : list UUID) : M nat :=
  db_call ;;; fun s =>
    let t := view s in
    let doomed e := uuid_in (e_chunk_id e) chunk_ids in
    (Ok (length (filter doomed (embeddings t))),
     set_view (mkTables (files t) (chunks t)
                 (filter (fun e => negb (doomed e)) (embeddings t))) s).

(** [db.query(Chunk).filter(Chunk.file_id == file_id).delete()]. The foreign
    key [embeddings.chunk_id -> chunks.id] has no [ON DELETE] action: the
    database refuses the statement while an embedding refers to a row it
    would delete. *)
Definition delete_chunks (file_id : UUID) : M nat :=
  db_call ;;; fun s =>
    let t := view s in
    let doomed := map c_id (chunks_of file_id t) in
    if existsb (fun e => uuid_in (e_chunk_id e) doomed) (embeddings t)
    then (Raise IntegrityError, s)
    else
      (Ok (length doomed),
       set_view (mkTables (files t)
                   (filter (fun c => negb (N.eqb (c_file_id c) file_id)) (chunks t))
                   (embeddings t)) s).

(** [db_file.status = status] on one row. *)
Definition with_status (file_id : UUID) (status : string) (f : File) : File :=
  if N.eqb (f_id f) file_id
  then mkFile (f_id f) (f_filename f) (f_file_path f) (f_file_type f)
         (f_file_size f) status (f_user_id f)
  else f.

(** The tables with the [status] of one file changed. *)
Definition mark (file_id : UUID) (status : string) (t : Tables) : Tables :=
  mkTables (map (with_status file_id status) (files t)) (chunks t) (embeddings t).

(** [db_file.status = status], on the row [db_file] that [query_file] gave:
    an attribute of an object the session tracks, no round trip. *)
Definition set_status (file_id : UUID) (status : string) : M unit :=
  fun s => (Ok tt, set_view (mark file_id status (view s)) s).

(** [db.add(chunk)] *)
Definition add_chunk (c : Chunk) : M unit :=
  fun s =>
    let t := view s in
    (Ok tt, set_view (mkTables (files t) (chunks t ++ [c]) (embeddings t)) s).

(** [db.add(embedding)] *)
Definition add_embedding (e : Embedding) : M unit :=
  fun s =>
    let t := view s in
    (Ok tt, set_view (mkTables (files t) (chunks t) (embeddings t ++ [e])) s).

(** [db.flush()] *)
Definition flush : M unit := db_call.

(** [db.commit()] *)
Definition commit : M unit :=
  db_call ;;; fun s => (Ok tt, set_committed (view s) s).

(** [uuid.uuid4()] *)
Definition uuid4 : M UUID :=
  fun s => (Ok (uuid_source (uuids_drawn s)), set_uuids_drawn (S (uuids_drawn s)) s).

(** [await get_embedding(chunk_content)] *)
Definition call_provider (text : string) : M (option (list num)) :=
  fun s => let (r, g) := embed text (provider s) in (r, set_provider g s).

(** *** [extract_text_from_file] *)

Definition extract_text_from_file (file_path : string) : result string :=
  let file_extension := lower (snd (splitext file_path)) in
  if String.eqb file_extension ".txt" then open_read file_path
  else if String.eqb file_extension ".pdf" then
    match pdf_pages file_path with
    | Parsed pages => Ok (String.concat "" pages)
    | NotInstalled =>
        Ok "Error: PDF processing requires PyPDF2. Please install it with 'pip install PyPDF2'."
    | ParseFailure e => Ok ("Error extracting text from PDF: " ++ e)%string
    end
  else if String.eqb file_extension ".docx" || String.eqb file_extension ".doc" then
    match docx_paragraphs file_path with
    | Parsed paragraphs => Ok (join newline paragraphs)
    | NotInstalled =>
        Ok "Error: DOCX processing requires python-docx. Please install it with 'pip install python-docx'."
    | ParseFailure e => Ok ("Error extracting text from DOCX: " ++ e)%string
    end
  else Ok ("Error: Unsupported file type " ++ file_extension)%string.

(** [chunk_text(text)] with its default sizes. *)
Definition chunk_text (text : string) : result (list string) := split_text text.

(** [count_tokens] returns on every one of the texts. *)
Definition all_counted (texts : list string) : bool :=
  forallb (fun text => match count_tokens text with Ok _ => true | Raise _ => false end)
    texts.

(** *** [process_file] *)

(** Python truthiness of what the provider returned: [None] and the empty
    list are falsy. *)
Definition truthy_vector (v : option (list num)) : option (list num) :=
  match v with
  | Some (x :: xs) => Some (x :: xs)
  | Some [] | None => None
  end.

(** The provider did not give a vector: it raised, or what it returned is
    falsy. *)
Definition provider_failed (r : result (option (list num))) : bool :=
  match r with
  | Raise _ => true
  | Ok v => match truthy_vector v with Some _ => false | None => true end
  end.

(** What the provider does over the texts of a loop, called on one after the
    other from the state [g]: [true] where it gives a vector. *)
Fixpoint provider_outcomes (texts : list string) (g : G) : list bool :=
  match texts with
  | [] => []
  | text :: rest =>
      negb (provider_failed (fst (embed text g)))
      :: provider_outcomes rest (snd (embed text g))
  end.

(** The body of the loop over [enumerate(chunks)], for the pair
    [(i, chunk_content)]; the two counters are [successful_embeddings] and
    [failed_embeddings]. *)
Definition embed_chunk (file_id : UUID) (i : nat) (chunk_content : string)
    (counters : nat * nat) : M (nat * nat) :=
  let (successful_embeddings, failed_embeddings) := counters in
  token_count <- (fun s => (count_tokens chunk_content, s)) ;;
  id <- uuid4 ;;
  let chunk := mkChunk id (i + 1) chunk_content token_count file_id in
  add_chunk chunk ;;;
  flush ;;;
  try_except
    (embedding_vector <- call_provider chunk_content ;;
     match truthy_vector embedding_vector with
     | Some v =>
         eid <- uuid4 ;;
         add_embedding (mkEmbedding eid (c_id chunk) v ADA_002) ;;;
         ret (successful_embeddings + 1, failed_embeddings)
     | None => ret (successful_embeddings, failed_embeddings + 1)
     end)
    (fun _ => ret (successful_embeddings, failed_embeddings + 1)).

(** [for i, chunk_content in enumerate(chunks): ...], from index [i] on. *)
Fixpoint embed_chunks (file_id : UUID) (i : nat) (chunks : list string)
    (counters : nat * nat) : M (nat * nat) :=
  match chunks with
  | [] => ret counters
  | chunk_content :: rest =>
      counters' <- embed_chunk file_id i chunk_content counters ;;
      embed_chunks file_id (S i) rest counters'
  end.

(** Lines 97-109 of [process_file], repeated as lines 208-219 of
    [re_process_file]: the embeddings of the file's chunks, then the chunks. *)
Definition delete_existing (file_id : UUID) : M unit :=
  chunk_ids <- query_chunk_ids file_id ;;
  (match chunk_ids with
   | _ :: _ => delete_embeddings_in chunk_ids ;;; ret tt
   | [] => ret tt
   end) ;;;
  delete_chunks file_id ;;;
  ret tt.

(** The handler both functions end with: [except Exception as e: ...]. *)
Definition on_exception (file_id : UUID) : M unit :=
  db_file <- query_file file_id ;;
  match db_file with
  | Some _ => set_status file_id "Error" ;;; commit
  | None => ret tt
  end.

(** The [try] block of [process_file]. *)
Definition process_file_try (file_id : UUID) (file_path : string) : M unit :=
  db_file <- query_file file_id ;;
  match db_file with
  | None => ret tt
  | Some _ =>
      set_status file_id "Processing" ;;;
      commit ;;;
      delete_existing file_id ;;;
      text <- (fun s => (extract_text_from_file file_path, s)) ;;
      if startswith "Error:" text then
        set_status file_id "Error" ;;;
        commit
      else
        chunks <- (fun s => (chunk_text text, s)) ;;
        chunk_count <- count_chunks file_id ;;
        (if (0 <? chunk_count)%nat then delete_chunks file_id ;;; commit else ret tt) ;;;
        embed_chunks file_id 0 chunks (0, 0) ;;;
        commit ;;;
        set_status file_id "Embedded" ;;;
        commit
  end.

Definition process_file (file_id : UUID) (file_path : string) : M unit :=
  try_except (process_file_try file_id file_path) (fun _ => on_exception file_id).

(** *** [re_process_file] *)

Definition re_process_file_try (file_id : UUID) (file_path : string) : M unit :=
  db_file <- query_file file_id ;;
  match db_file with
  | None => ret tt
  | Some _ =>
      delete_existing file_id ;;;
      commit ;;;
      process_file file_id file_path
  end.

Definition re_process_file (file_id : UUID) (file_path : string) : M unit :=
  try_except (re_process_file_try file_id file_path) (fun _ => on_exception file_id).

(** *** States of a run, for the statements below *)

(** The session once [process_file] has written [Processing], committed, and
    deleted the rows of the file (its first commit is before the deletion). *)
Definition after_deletion (file_id : UUID) (s : Session) : Session :=
  mkSession (purge file_id (mark file_id "Processing" (view s)))
    (mark file_id "Processing" (view s))
    (faults s) (uuids_drawn s) (provider s).

(** The session a run ends in when it gives up after the deletion: the status
    is [Error], committed. *)
Definition failed_run (file_id : UUID) (s : Session) : Session :=
  let t := mark file_id "Error" (view (after_deletion file_id s)) in
  mkSession t t (faults s) (uuids_drawn s) (provider s).

(** The rows a run of the loop over [texts] added, from the index [i], the
    provider state [g] and [d] identifiers drawn: the chunk rows are those of
    the first texts, numbered from [i + 1], with the token count of their
    text and the draws [chunk_draws] of [uuid4], in increasing order, as
    identifiers; the embedding rows refer to the chunks on which the provider
    gave a vector, in their order. *)
Definition loop_rows (file_id : UUID) (i : nat) (texts : list string) (g : G) (d : nat)
    (new_chunks : list Chunk) (new_embeddings : list Embedding)
    (chunk_draws : list nat) : Prop :=
  map c_chunk_number new_chunks = seq (i + 1) (length new_chunks)
  /\ map c_text new_chunks = firstn (length new_chunks) texts
  /\ Forall (fun c => c_file_id c = file_id
                      /\ count_tokens (c_text c) = Ok (c_token_count c)) new_chunks
  /\ Forall (fun e => e_embedding_model e = ADA_002) new_embeddings
  /\ map c_id new_chunks = map uuid_source chunk_draws
  /\ map e_chunk_id new_embeddings
     = map uuid_source
         (select (provider_outcomes (map c_text new_chunks) g) chunk_draws)
  /\ StronglySorted lt chunk_draws
  /\ Forall (fun k => d <= k) chunk_draws.

(** Every run of [m] from a session where [P] holds ends in one where it
    holds, whether the run returns or raises. *)
Definition preserves {A : Type} (P : Session -> Prop) (m : M A) : Prop :=
  forall s (r : result A) s', m s = (r, s') -> P s -> P s'.

(** Every embedding row of the session, pending or committed, is one of
    [old] or carries the model name the pipeline writes. *)
Definition only_ada (old : Embedding -> Prop) (s : Session) : Prop :=
  forall e,
    In e (embeddings (view s)) \/ In e (embeddings (committed s)) ->
    old e \/ e_embedding_model e = ADA_002.

End Pipeline.

Arguments mkEmbedding {num} e_id e_chunk_id e_embedding_vector e_embedding_model.
Arguments e_id {num} e.
Arguments e_chunk_id {num} e.
Arguments e_embedding_vector {num} e.
Arguments e_embedding_model {num} e.
Arguments mkTables {num} files chunks embeddings.
Arguments files {num} t.
Arguments chunks {num} t.
Arguments embeddings {num} t.
Arguments mkSession {num G} view committed faults uuids_drawn provider.
Arguments view {num G} s.
Arguments committed {num G} s.
Arguments faults {num G} s.
Arguments uuids_drawn {num G} s.
Arguments provider {num G} s.
Arguments set_view {num G} t s.
Arguments set_committed {num G} t s.
Arguments set_faults {num G} fs s.
Arguments set_uuids_drawn {num G} n s.
Arguments set_provider {num G} g s.
Arguments ret {num G A} a _.
Arguments bind {num G A B} m k _.
Arguments raise {num G A} e _.
Arguments try_except {num G A} m h _.
Arguments db_call {num G} _.
Arguments find_file {num} file_id t.
Arguments chunks_of {num} file_id t.
Arguments status_of {num} file_id t.
Arguments orphan_free {num} t.
Arguments purge {num} file_id t.
Arguments mark {num} file_id status t.
Arguments after_deletion {num G} file_id s.
Arguments failed_run {num G} file_id s.
Arguments preserves {num G A} P m.
Arguments only_ada {num G} old s.
Arguments query_file {num G} file_id _.
Arguments query_chunk_ids {num G} file_id _.
Arguments count_chunks {num G} file_id _.
Arguments delete_embeddings_in {num G} chunk_ids _.
Arguments delete_chunks {num G} file_id _.
Arguments set_status {num G} file_id status _.
Arguments add_chunk {num G} c _.
Arguments add_embedding {num G} e _.
Arguments flush {num G} _.
Arguments commit {num G} _.
Arguments uuid4 {num G} uuid_source _.
Arguments call_provider {num G} embed text _.
Arguments truthy_vector {num} v.
Arguments provider_failed {num} r.
Arguments provider_outcomes {num G} embed texts g.
Arguments loop_rows {num G} embed count_tokens uuid_source file_id i texts g d
  new_chunks new_embeddings chunk_draws.
Arguments embed_chunk {num G} embed count_tokens uuid_source file_id i chunk_content
  counters _.
Arguments embed_chunks {num G} embed count_tokens uuid_source file_id i chunks
  counters _.
Arguments delete_existing {num G} file_id _.
Arguments on_exception {num G} file_id _.
Arguments process_file_try {num G} embed open_read pdf_pages docx_paragraphs
  split_text count_tokens uuid_source file_id file_path _.
Arguments process_file {num G} embed open_read pdf_pages docx_paragraphs
  split_text count_tokens uuid_source file_id file_path _.
Arguments re_process_file_try {num G} embed open_read pdf_pages docx_paragraphs
  split_text count_tokens uuid_source file_id file_path _.
Arguments re_process_file {num G} embed open_read pdf_pages docx_paragraphs
  split_text count_tokens uuid_source file_id file_path _.

(** ** Concrete environments

    Small stand-ins for what the code takes from outside (the generator, the
    remote service, the parsers, the splitter), to run the definitions on. *)

(** A generator whose state counts the draws and whose every draw is [1/2]. *)
Definition toy_seed (text : string) : nat := String.length text.
Definition toy_uniform (g : nat) : R * nat := ((1 / 2)%R, S g).
(** A remote service that is never reached. *)
Definition toy_api (_ : string) : api_result := ApiFailure.
(** A remote service that answers every call with the same vector. *)
Definition toy_live_api (_ : string) : api_result := ApiEmbedding [1; 0]%R.

Fixpoint repeat_char (c : ascii) (n : nat) : string :=
  match n with
  | O => EmptyString
  | S n' => String c (repeat_char c n')
  end.

(** Two texts of 8001 characters with the same first 8000, all spaces. *)
Definition long_blank : string := (repeat_char " " 8000 ++ " ")%string.
Definition long_nonblank : string := (repeat_char " " 8000 ++ "a")%string.
(** Two texts of 8001 characters that differ in the last one only. *)
Definition long_text_b : string := (repeat_char "a" 8000 ++ "b")%string.
Definition long_text_c : string := (repeat_char "a" 8000 ++ "c")%string.

(** A provider that counts its calls and raises on the call number
    [fail_at] (from 0); every other call returns a vector. *)
Definition scripted_provider (fail_at : nat) (text : string) (calls : nat)
  : result (option (list Z)) * nat :=
  (if (calls =? fail_at)%nat then Raise ProviderError else Ok (Some [1; 2; 3]%Z),
   S calls).

(** A provider that returns [None] on every call. *)
Definition none_provider (text : string) (calls : nat)
  : result (option (list Z)) * nat := (Ok None, S calls).

(** The uploaded files: two text files, nothing else. *)
Definition toy_open_read (path : string) : result string :=
  if String.eqb path "uploads/a.txt" then Ok "hello world"
  else if String.eqb path "uploads/three.txt" then Ok "one;two;three"
  else if String.eqb path "uploads/special.txt" then Ok "one;<|endoftext|>;three"
  else Raise OSError.

(** A PDF library that raises on every file, and no DOCX library. *)
Definition toy_pdf_pages (path : string) : parsed := ParseFailure "EOF marker not found".
Definition toy_docx_paragraphs (path : string) : parsed := NotInstalled.

(** A splitter that cuts at every semicolon and drops the empty pieces. *)
Fixpoint split_semicolon (acc s : string) : list string :=
  match s with
  | EmptyString => if truthy_str acc then [acc] else []
  | String c s' =>
      if Ascii.eqb c ";"%char
      then (if truthy_str acc then [acc] else []) ++ split_semicolon EmptyString s'
      else split_semicolon (acc ++ String c EmptyString)%string s'
  end.

(** A tokenizer that counts the characters and, as [encode] does, refuses a
    text with a special token in it: here, at its start. *)
Definition toy_count_tokens (text : string) : result nat :=
  if startswith "<|endoftext|>" text then Raise ValueError
  else Ok (String.length text).
(** The splitter measures each of its pieces. *)
Definition toy_split_text (text : string) : result (list string) :=
  let pieces := split_semicolon EmptyString text in
  if all_counted toy_count_tokens pieces then Ok pieces else Raise ValueError.
(** A splitter that returns its pieces without measuring them: the token
    counter then meets them in the loop first. *)
Definition unmeasured_split_text (text : string) : result (list string) :=
  Ok (split_semicolon EmptyString text).
Definition toy_uuid_source (n : nat) : UUID := N.of_nat (100 + n).

Definition toy_file (id : UUID) (name : string) (status : string) : File :=
  mkFile id name ("uploads/" ++ name)%string "text/plain" 42%N status 7%N.

(** A session over four uploaded files and no chunk yet. *)
Definition toy_tables : Tables Z :=
  mkTables
    [toy_file 1%N "three.txt" "Pending";
     toy_file 2%N "report.pdf" "Pending";
     toy_file 3%N "notes.xyz" "Pending";
     toy_file 4%N "special.txt" "Pending"]
    [] [].

Definition toy_session (faults : list nat) : Session Z nat :=
  mkSession toy_tables toy_tables faults 0 0.

(** A session in which file 1 was processed before: two chunks, one of them
    with an embedding, and a chunk of file 2 with its embedding. *)
Definition used_tables : Tables Z :=
  mkTables
    [toy_file 1%N "three.txt" "Embedded"; toy_file 2%N "report.pdf" "Embedded"]
    [mkChunk 10%N 1 "old one" 7 1%N; mkChunk 11%N 2 "old two" 7 1%N;
     mkChunk 20%N 1 "other" 5 2%N]
    [mkEmbedding 30%N 10%N [9]%Z ADA_002; mkEmbedding 31%N 20%N [8]%Z ADA_002].

Definition used_session : Session Z nat := mkSession used_tables used_tables [] 0 0.

(** [process_file] and [re_process_file] over the concrete environment. *)
Definition toy_process_file (provider : string -> nat -> result (option (list Z)) * nat) :=
  process_file provider toy_open_read toy_pdf_pages toy_docx_paragraphs
    toy_split_text toy_count_tokens toy_uuid_source.
Definition toy_re_process_file (provider : string -> nat -> result (option (list Z)) * nat) :=
  re_process_file provider toy_open_read toy_pdf_pages toy_docx_paragraphs
    toy_split_text toy_count_tokens toy_uuid_source.
Definition toy_process_file_try (provider : string -> nat -> result (option (list Z)) * nat) :=
  process_file_try provider toy_open_read toy_pdf_pages toy_docx_paragraphs
    toy_split_text toy_count_tokens toy_uuid_source.
Definition toy_extract : string -> result string :=
  extract_text_from_file toy_open_read toy_pdf_pages toy_docx_paragraphs.
Definition toy_embed_chunk (provider : string -> nat -> result (option (list Z)) * nat) :=
  embed_chunk provider toy_count_tokens toy_uuid_source.

(** Which of the rows [cs] have an embedding among [es]. *)
Definition embedded {num : Type} (es : list (Embedding num)) (cs : list Chunk) : list bool :=
  map (fun c => existsb (fun e => N.eqb (e_chunk_id e) (c_id c)) es) cs.

(** ** Invariants of the tables *)

(** [Q] holds of the tables the session sees and [Qc] of the committed ones. *)
Definition on_tables {num G : Type} (Q Qc : Tables num -> Prop) (s : Session num G)
  : Prop :=
  Q (view s) /\ Qc (committed s).

(** A row of [files] with its [status] blanked: what [process_file] leaves
    alone in the row. *)
Definition blank_status (f : File) : File :=
  mkFile (f_id f) (f_filename f) (f_file_path f) (f_file_type f) (f_file_size f)
    EmptyString (f_user_id f).

(** The statuses [process_file] and [re_process_file] write. *)
Definition written_statuses : list string := ["Processing"; "Error"; "Embedded"].

(** The rows of another file in [t] are those in [t0]: its row of [files]
    and its rows of [chunks]. *)
Definition untouched {num : Type} (other : UUID) (t0 t : Tables num) : Prop :=
  chunks_of other t = chunks_of other t0 /\ find_file other t = find_file other t0.

(** [files] in [t] is [files] in [t0] up to the statuses, and the status of
    the file is the one in [t0] or one of [written_statuses]. *)
Definition rows_kept {num : Type} (file_id : UUID) (t0 t : Tables num) : Prop :=
  map blank_status (files t) = map blank_status (files t0)
  /\ (status_of file_id t = status_of file_id t0
      \/ exists status, In status written_statuses /\ status_of file_id t = Some status).

(** ** The routers that read and start the pipeline

    [routers/chunks.py], [routers/files.py] and the background endpoint of
    [routers/process.py]. The user of a request, [current_user], is what
    [get_current_active_user] gave; the columns of time ([created_at],
    [upload_date]) are left out of the rows and of the responses, as they are
    from the tables. *)

(** A row of [users]. *)
Record User : Type := mkUser {
  u_id : UUID;
  u_email : string;
  u_full_name : string;
  u_is_active : bool;
  u_is_admin : bool
}.

(** What an endpoint gives back: its return value, or the [HTTPException] it
    raised. An exception of the database leaves the endpoint as it is
    ([Raise]). *)
Inductive http (A : Type) : Type :=
| Respond (a : A)
| HTTPException (status_code : nat) (detail : string).
Arguments Respond {A} a.
Arguments HTTPException {A} status_code detail.

(** [schemas.FileResponse] *)
Record FileResponse : Type := mkFileResponse {
  fr_id : UUID;
  fr_filename : string;
  fr_file_type : string;
  fr_file_size : N;
  fr_status : string;
  fr_total_chunks : nat
}.

(** [schemas.FileDetailResponse] *)
Record FileDetailResponse : Type := mkFileDetailResponse {
  fd_file : FileResponse;
  fd_chunks : list Chunk
}.

(** [schemas.ChunkWithEmbedding] *)
Record ChunkWithEmbedding : Type := mkChunkWithEmbedding {
  cwe_chunk : Chunk;
  cwe_embedding_id : option UUID;
  cwe_embedding_model : option string
}.

(** [schemas.ProcessingResponse] *)
Record ProcessingResponse : Type := mkProcessingResponse {
  pr_id : UUID;
  pr_filename : string;
  pr_status : string;
  pr_message : string
}.

(** A call recorded by [background_tasks.add_task]. *)
Inductive task : Type :=
| ProcessFile (file_id : UUID) (file_path : string)
| ReProcessFile (file_id : UUID) (file_path : string).

(** [ORDER BY chunk_number]: insertion into a sorted list, and the sort. *)
Fixpoint insert_by_number (c : Chunk) (l : list Chunk) : list Chunk :=
  match l with
  | [] => [c]
  | x :: rest =>
      if (c_chunk_number c <=? c_chunk_number x)%nat then c :: l
      else x :: insert_by_number c rest
  end.

Definition order_by_chunk_number (l : list Chunk) : list Chunk :=
  fold_right insert_by_number [] l.

Section Routers.

Variable num : Type.
Variable G : Type.
Variable embed : string -> G -> result (option (list num)) * G.
Variable open_read : string -> result string.
Variable pdf_pages : string -> parsed.
Variable docx_paragraphs : string -> parsed.
Variable split_text : string -> result (list string).
Variable count_tokens : string -> result nat.
Variable uuid_source : nat -> UUID.
(** [os.path.exists] *)
Variable path_exists : string -> bool.

Local Notation "x <- m ;; k" := (bind m (fun x => k))
  (at level 61, m at next level, right associativity).
Local Notation "m ;;; k" := (bind m (fun _ => k))
  (at level 61, right associativity).

(** [db.query(File).filter(File.id == file_id,
      File.user_id == current_user.id).first()] *)
Definition query_user_file (file_id user_id : UUID) : M num G (option File) :=
  db_call ;;; fun s =>
    (Ok (find (fun f => N.eqb (f_id f) file_id && N.eqb (f_user_id f) user_id)
           (files (view s))), s).

(** [db.query(Chunk).filter(Chunk.file_id == file_id)
      .order_by(Chunk.chunk_number).all()] *)
Definition query_chunks_ordered (file_id : UUID) : M num G (list Chunk) :=
  db_call ;;; fun s => (Ok (order_by_chunk_number (chunks_of file_id (view s))), s).

(** [db.query(Chunk).filter(Chunk.id == chunk_id).first()] *)
Definition query_chunk (chunk_id : UUID) : M num G (option Chunk) :=
  db_call ;;; fun s =>
    (Ok (find (fun c => N.eqb (c_id c) chunk_id) (chunks (view s))), s).

(** [db.query(Embedding).filter(Embedding.chunk_id == chunk.id).first()] *)
Definition query_embedding_of (chunk_id : UUID) : M num G (option (Embedding num)) :=
  db_call ;;; fun s =>
    (Ok (find (fun e => N.eqb (e_chunk_id e) chunk_id) (embeddings (view s))), s).

(** [db.delete(file)] *)
Definition delete_file_row (file : File) : M num G unit :=
  fun s =>
    let t := view s in
    (Ok tt,
     set_view (mkTables (filter (fun f => negb (N.eqb (f_id f) (f_id file))) (files t))
                 (chunks t) (embeddings t)) s).

(** [not current_user.is_admin and file.user_id != current_user.id] *)
Definition not_authorized (current_user : User) (file : File) : bool :=
  negb (u_is_admin current_user) && negb (N.eqb (f_user_id file) (u_id current_user)).

Definition file_response (file : File) (total_chunks : nat) : FileResponse :=
  mkFileResponse (f_id file) (f_filename file) (f_file_type file)
    (f_file_size file) (f_status file) total_chunks.

(** *** [routers/chunks.py] *)

(** [get_file_chunks] *)
Definition get_file_chunks (file_id : UUID) (current_user : User)
  : M num G (http (list Chunk)) :=
  file <- query_file file_id ;;
  match file with
  | None => ret (HTTPException 404 "File not found")
  | Some file =>
      if not_authorized current_user file
      then ret (HTTPException 403 "Not authorized to access this file")
      else
        chunks <- query_chunks_ordered file_id ;;
        ret (Respond chunks)
  end.

(** [get_chunk] *)
Definition get_chunk (chunk_id : UUID) (current_user : User)
  : M num G (http ChunkWithEmbedding) :=
  chunk <- query_chunk chunk_id ;;
  match chunk with
  | None => ret (HTTPException 404 "Chunk not found")
  | Some chunk =>
      file <- query_file (c_file_id chunk) ;;
      if match file with
         | None => true
         | Some file => not_authorized current_user file
         end
      then ret (HTTPException 403 "Not authorized to access this chunk")
      else
        embedding <- query_embedding_of (c_id chunk) ;;
        ret (Respond
               (mkChunkWithEmbedding chunk
                  (option_map (@e_id num) embedding)
                  (option_map (@e_embedding_model num) embedding)))
  end.

(** *** [routers/files.py] *)

(** [db.query(File).filter(File.user_id == current_user.id).all()] *)
Definition query_files_of (user_id : UUID) : M num G (list File) :=
  db_call ;;; fun s =>
    (Ok (filter (fun f => N.eqb (f_user_id f) user_id) (files (view s))), s).

(** The loop of [get_all_files]: one count per file, appended to [response]. *)
Fixpoint file_responses (files : list File) (response : list FileResponse)
  : M num G (list FileResponse) :=
  match files with
  | [] => ret response
  | file :: rest =>
      chunk_count <- count_chunks (f_id file) ;;
      file_responses rest (response ++ [file_response file chunk_count])
  end.

(** [get_all_files] *)
Definition get_all_files (current_user : User) : M num G (list FileResponse) :=
  files <- query_files_of (u_id current_user) ;;
  file_responses files [].

(** [get_file_details] *)
Definition get_file_details (file_id : UUID) (current_user : User)
  : M num G (http FileDetailResponse) :=
  file <- query_user_file file_id (u_id current_user) ;;
  match file with
  | None => ret (HTTPException 404 "File not found")
  | Some file =>
      db_chunks <- query_chunks_ordered (f_id file) ;;
      ret (Respond
             (mkFileDetailResponse (file_response file (length db_chunks)) db_chunks))
  end.

(** [delete_file]. The removal of the stored file (lines 110-117) acts on the
    file system only and what it raises is caught: it changes neither the
    session nor the response, and is not part of the model. *)
Definition delete_file (file_id : UUID) (current_user : User)
  : M num G (http string) :=
  file <- query_user_file file_id (u_id current_user) ;;
  match file with
  | None => ret (HTTPException 404 "File not found")
  | Some file =>
      delete_chunks (f_id file) ;;;
      delete_file_row file ;;;
      commit ;;;
      ret (Respond "File deleted successfully")
  end.

(** [reprocess_file]: the response and the task it leaves for after the
    response. The row [file] is the one the session tracks, so the response
    carries the status just written. *)
Definition reprocess_file (file_id : UUID) (current_user : User)
  : M num G (http (FileResponse * list task)) :=
  file <- query_user_file file_id (u_id current_user) ;;
  match file with
  | None => ret (HTTPException 404 "File not found")
  | Some file =>
      set_status (f_id file) "Pending" ;;;
      commit ;;;
      let background_tasks := [ReProcessFile (f_id file) (f_file_path file)] in
      chunk_count <- count_chunks (f_id file) ;;
      ret (Respond
             (file_response (with_status (f_id file) "Pending" file) chunk_count,
              background_tasks))
  end.

(** *** [routers/process.py] *)

(** [process_file_endpoint] *)
Definition process_file_endpoint (file_id : UUID) (current_user : User)
  : M num G (http (ProcessingResponse * list task)) :=
  file <- query_user_file file_id (u_id current_user) ;;
  match file with
  | None => ret (HTTPException 404 "File not found")
  | Some file =>
      if negb (path_exists (f_file_path file))
      then ret (HTTPException 404 "File not found on disk")
      else
        set_status (f_id file) "Processing" ;;;
        commit ;;;
        let background_tasks := [ProcessFile (f_id file) (f_file_path file)] in
        ret (Respond
               (mkProcessingResponse (f_id file) (f_filename file) "Processing"
                  "File processing started in the background",
                background_tasks))
  end.

(** *** Background tasks *)

(** The call a task stands for. *)
Definition run_task (t : task) : M num G unit :=
  match t with
  | ProcessFile file_id file_path =>
      process_file embed open_read pdf_pages docx_paragraphs split_text
        count_tokens uuid_source file_id file_path
  | ReProcessFile file_id file_path =>
      re_process_file embed open_read pdf_pages docx_paragraphs split_text
        count_tokens uuid_source file_id file_path
  end.

(** Starlette runs the tasks in order once the response is sent, and stops at
    the first one that raises. *)
Fixpoint run_tasks (ts : list task) : M num G unit :=
  match ts with
  | [] => ret tt
  | t :: rest => run_task t ;;; run_tasks rest
  end.

(** A request to an endpoint that records tasks: the response is what the
    endpoint returned, whatever the tasks do after it. *)
Definition with_background {A : Type} (endpoint : M num G (http (A * list task)))
  : M num G (http A) :=
  fun s =>
    match endpoint s with
    | (Ok (Respond (a, background_tasks)), s1) =>
        (Ok (Respond a), snd (run_tasks background_tasks s1))
    | (Ok (HTTPException status_code detail), s1) =>
        (Ok (HTTPException status_code detail), s1)
    | (Raise e, s1) => (Raise e, s1)
    end.

End Routers.

Arguments query_user_file {num G} file_id user_id _.
Arguments query_chunks_ordered {num G} file_id _.
Arguments query_chunk {num G} chunk_id _.
Arguments query_embedding_of {num G} chunk_id _.
Arguments delete_file_row {num G} file _.
Arguments get_file_chunks {num G} file_id current_user _.
Arguments get_chunk {num G} chunk_id current_user _.
Arguments query_files_of {num G} user_id _.
Arguments file_responses {num G} files response _.
Arguments get_all_files {num G} current_user _.
Arguments get_file_details {num G} file_id current_user _.
Arguments delete_file {num G} file_id current_user _.
Arguments reprocess_file {num G} file_id current_user _.
Arguments process_file_endpoint {num G} path_exists file_id current_user _.
Arguments run_task {num G} embed open_read pdf_pages docx_paragraphs split_text
  count_tokens uuid_source t _.
Arguments run_tasks {num G} embed open_read pdf_pages docx_paragraphs split_text
  count_tokens uuid_source ts _.
Arguments with_background {num G} embed open_read pdf_pages docx_paragraphs
  split_text count_tokens uuid_source {A} endpoint _.

(** ** Concrete users and requests *)

(** The owner of the files of [toy_tables] and [used_tables], and a user who
    owns none of them. *)
Definition toy_owner : User := mkUser 7%N "owner@example.com" "Owner" true false.
Definition toy_stranger : User := mkUser 8%N "other@example.com" "Other" true false.

(** Every stored file is on the disk, the report apart. *)
Definition toy_path_exists (path : string) : bool :=
  negb (String.eqb path "uploads/report.pdf").

(** Requests whose tasks run over the concrete environment. *)
Definition toy_with_background {A : Type}
    (endpoint : M Z nat (http (A * list task))) : M Z nat (http A) :=
  with_background (scripted_provider 9) toy_open_read toy_pdf_pages
    toy_docx_paragraphs toy_split_text toy_count_tokens toy_uuid_source endpoint.

(** * Properties *)

(** *** Strings: when [strip] leaves nothing *)

Lemma rstrip_empty (s : string) :
  rstrip s = EmptyString -> whitespace_only s = true.
Proof.
  induction s as [|c s IH]; simpl; [reflexivity|].
  destruct (rstrip s) eqn:E; [|discriminate].
  destruct (is_space c); [intros _; simpl; now apply IH | discriminate].
Qed.

Lemma whitespace_only_lstrip (s : string) :
  whitespace_only s = true -> lstrip s = EmptyString.
Proof.
  induction s as [|c s IH]; simpl; [reflexivity|].
  destruct (is_space c); simpl; [exact IH | discriminate].
Qed.

Lemma lstrip_whitespace_only (s : string) :
  whitespace_only (lstrip s) = true -> whitespace_only s = true.
Proof.
  induction s as [|c s IH]; simpl; [reflexivity|].
  destruct (is_space c) eqn:E; simpl; [exact IH | now rewrite E].
Qed.

Lemma strip_falsy_iff (s : string) :
  truthy_str (strip s) = false <-> whitespace_only s = true.
Proof.
  unfold strip; split.
  - intros H. apply lstrip_whitespace_only, rstrip_empty.
    destruct (rstrip (lstrip s)); [reflexivity | discriminate].
  - intros H. now rewrite (whitespace_only_lstrip _ H).
Qed.

(** The guard of [get_embedding], [not text or not text.strip()], is the test
    that every character is whitespace. *)
Lemma blank_guard (text : string) :
  negb (truthy_str text) || negb (truthy_str (strip text)) = whitespace_only text.
Proof.
  destruct (whitespace_only text) eqn:W.
  - apply (proj2 (strip_falsy_iff text)) in W. rewrite W. apply orb_true_r.
  - destruct text as [|c t]; [discriminate|]. simpl negb at 1. simpl orb.
    destruct (truthy_str (strip (String c t))) eqn:T; [reflexivity|].
    apply strip_falsy_iff in T. congruence.
Qed.

Lemma str_take_all (n : nat) (s : string) :
  (String.length s <= n)%nat -> str_take n s = s.
Proof.
  revert s; induction n as [|n IH]; intros [|c s]; simpl; intros H;
    try reflexivity; try lia.
  f_equal. apply IH. lia.
Qed.

Local Open Scope R_scope.

(** *** Sums of squares *)

Lemma fold_left_Rplus_acc (l : list R) (a : R) :
  fold_left Rplus l a = a + fold_left Rplus l 0.
Proof.
  revert a; induction l as [|x l IH]; intros a; simpl; [lra|].
  rewrite (IH (a + x)), (IH (0 + x)). lra.
Qed.

Lemma sum_squares_cons (x : R) (v : list R) :
  sum_squares (x :: v) = x ^ 2 + sum_squares v.
Proof.
  unfold sum_squares; simpl. rewrite fold_left_Rplus_acc. lra.
Qed.

Lemma sum_squares_nonneg (v : list R) : 0 <= sum_squares v.
Proof.
  induction v as [|x v IH]; [unfold sum_squares; simpl; lra|].
  rewrite sum_squares_cons. pose proof (pow2_ge_0 x). lra.
Qed.

Lemma sum_squares_scaled (m : R) (v : list R) :
  m <> 0 -> sum_squares (map (fun x => x / m) v) = sum_squares v / m ^ 2.
Proof.
  intros Hm; induction v as [|x v IH].
  - unfold sum_squares; simpl. field. exact Hm.
  - simpl map. rewrite !sum_squares_cons, IH. field. exact Hm.
Qed.

(** Dividing a vector by its magnitude leaves a vector of L2 norm 1. *)
Lemma normalized_unit (v : list R) :
  sqrt (sum_squares v) <> 0 ->
  sqrt (sum_squares (map (fun x => x / sqrt (sum_squares v)) v)) = 1.
Proof.
  intros Hm. rewrite sum_squares_scaled by exact Hm.
  pose proof (sum_squares_nonneg v) as Hs.
  replace (sqrt (sum_squares v) ^ 2) with (sum_squares v)
    by (simpl; rewrite Rmult_1_r, sqrt_sqrt; [reflexivity | exact Hs]).
  assert (sum_squares v <> 0) as Hnz by (intros E; apply Hm; rewrite E; apply sqrt_0).
  replace (sum_squares v / sum_squares v) with 1 by (field; exact Hnz).
  apply sqrt_1.
Qed.

Ltac unfold_get_mock_embedding := unfold get_mock_embedding.
Ltac unfold_fallback := unfold fallback.
Ltac unfold_get_embedding := unfold get_embedding.

Section EmbeddingProviderFacts.

Variable rng : Type.
Variable seed : string -> rng.
Variable uniform : rng -> R * rng.
Variable USE_MOCK_EMBEDDINGS : bool.
Variable openai_embeddings_create : string -> api_result.

Local Notation draws := (draws uniform).
Local Notation get_mock_embedding := (get_mock_embedding seed uniform).
Local Notation fallback := (fallback seed uniform).
Local Notation get_embedding :=
  (get_embedding seed uniform USE_MOCK_EMBEDDINGS openai_embeddings_create).

(** *** The mock embedding *)

Lemma draws_length (n : nat) (g : rng) : length (fst (draws n g)) = n.
Proof.
  revert g; induction n as [|n IH]; intros g; simpl; [reflexivity|].
  destruct (uniform g) as [x g1]. specialize (IH g1).
  destruct (draws n g1) as [xs g2]. simpl in *. now rewrite IH.
Qed.

(** The mock reseeds the generator, so the state it is called in plays no
    part: neither in the vector nor in the state it leaves. *)
Lemma get_mock_embedding_reseeds (text : string) (n : nat) (g1 g2 : rng) :
  get_mock_embedding text n g1 = get_mock_embedding text n g2.
Proof. reflexivity. Qed.

Lemma get_mock_embedding_ok (text : string) (n : nat) (g : rng) :
  sum_squares (fst (draws n (seed text))) <> 0 ->
  exists v, fst (get_mock_embedding text n g) = Ok v
            /\ length v = n /\ sqrt (sum_squares v) = 1.
Proof.
  intros Hnz. unfold_get_mock_embedding.
  pose proof (draws_length n (seed text)) as Hlen.
  destruct (draws n (seed text)) as [v g1]; simpl in Hnz, Hlen.
  assert (sqrt (sum_squares v) <> 0) as Hm.
  { intros E. apply Hnz. apply sqrt_eq_0; [apply sum_squares_nonneg | exact E]. }
  destruct v as [|x v].
  - exfalso. apply Hnz. unfold sum_squares; reflexivity.
  - destruct (Req_dec_T (sqrt (sum_squares (x :: v))) 0) as [E|_]; [contradiction|].
    eexists; split; [reflexivity|]. split.
    + now rewrite length_map.
    + now apply normalized_unit.
Qed.

Lemma get_mock_embedding_raises (text : string) (n : nat) (g : rng) (e : exn) :
  fst (get_mock_embedding text n g) = Raise e ->
  e = ZeroDivisionError /\ sum_squares (fst (draws n (seed text))) = 0.
Proof.
  unfold_get_mock_embedding.
  destruct (draws n (seed text)) as [v g1]; simpl.
  destruct v as [|x v]; [discriminate|].
  destruct (Req_dec_T (sqrt (sum_squares (x :: v))) 0) as [E|_]; [|discriminate].
  intros [= <-]. split; [reflexivity|].
  apply sqrt_eq_0; [apply sum_squares_nonneg | exact E].
Qed.

(** *** [get_embedding] *)

Lemma truncate_take (text : string) : truncate text = str_take 8000 text.
Proof.
  unfold truncate. destruct (8000 <? String.length text)%nat eqn:E; [reflexivity|].
  apply Nat.ltb_ge in E. symmetry. now apply str_take_all.
Qed.

Lemma get_embedding_blank (text : string) (g : rng) :
  whitespace_only text = true -> get_embedding text g = (Ok None, g).
Proof. intros W. unfold_get_embedding. now rewrite blank_guard, W. Qed.




(** *** The claims on the provider *)


Lemma get_embedding_mock_ok (text : string) (g : rng) :
  USE_MOCK_EMBEDDINGS = true ->
  whitespace_only text = false ->
  sum_squares (fst (draws EMBEDDING_DIM (seed (str_take 8000 text)))) <> 0 ->
  exists v : list R,
    fst (get_embedding text g) = Ok (Some v)
    /\ fst (get_mock_embedding (str_take 8000 text) EMBEDDING_DIM g) = Ok v
    /\ length v = 1536%nat
    /\ sqrt (sum_squares v) = 1.
Proof.
  intros Hmock W Hnz.
  destruct (get_mock_embedding_ok (str_take 8000 text) EMBEDDING_DIM g Hnz)
    as (v & Hv & Hlen & Hnorm).
  exists v. split; [|split; [exact Hv | split; [exact Hlen | exact Hnorm]]].
  unfold_get_embedding. rewrite blank_guard, W, Hmock, truncate_take.
  remember (str_take 8000 text) as t eqn:Et. cbv zeta.
  destruct (get_mock_embedding t EMBEDDING_DIM g) as [r g'].
  simpl in Hv. now subst r.
Qed.

(** Under the mock strategy the result is a function of the first 8000
    characters of a text that is not blank. *)
Lemma get_embedding_mock_truncates (text : string) (g : rng) :
  USE_MOCK_EMBEDDINGS = true ->
  whitespace_only text = false ->
  fst (get_embedding text g)
  = match fst (get_mock_embedding (str_take 8000 text) EMBEDDING_DIM g) with
    | Ok v => Ok (Some v)
    | Raise e => Raise e
    end.
Proof.
  intros Hmock W.
  unfold_get_embedding. rewrite blank_guard, W, Hmock, truncate_take.
  remember (str_take 8000 text) as t eqn:Et. cbv zeta.
  destruct (get_mock_embedding t EMBEDDING_DIM g) as [[v|e] g'] eqn:E;
    simpl; [reflexivity|].
  unfold_fallback.
  rewrite (get_mock_embedding_reseeds t EMBEDDING_DIM g' g), E.
  reflexivity.
Qed.

(** C7, as amended. [get_embedding] computes on [text[:8000]]: under the
    deterministic strategy, two texts that are not whitespace-only and have the
    same first 8000 characters get the same result, from whatever states of the
    generator; for a text of more than 8000 characters that result is the mock
    embedding of its first 8000 characters. *)
Theorem get_embedding_same_prefix (t1 t2 : string) (g1 g2 : rng) :
  USE_MOCK_EMBEDDINGS = true ->
  whitespace_only t1 = false ->
  whitespace_only t2 = false ->
  str_take 8000 t1 = str_take 8000 t2 ->
  fst (get_embedding t1 g1) = fst (get_embedding t2 g2)
  /\ fst (get_embedding t1 g1)
     = match fst (get_mock_embedding (str_take 8000 t1) EMBEDDING_DIM g1) with
       | Ok v => Ok (Some v)
       | Raise e => Raise e
       end.
Proof.
  intros Hmock W1 W2 Hpre. split.
  - rewrite !get_embedding_mock_truncates by assumption.
    rewrite Hpre. now rewrite (get_mock_embedding_reseeds _ _ g1 g2).
  - now apply get_embedding_mock_truncates.
Qed.


End EmbeddingProviderFacts.

(** *** The live strategy *)

(** X11. The live strategy of [get_embedding] submits the text cut to its
    first 8000 characters: it returns the vector of the service as it is,
    and when the call fails, in whatever way, it returns what the
    deterministic strategy returns for the same text. *)
Theorem get_embedding_live (rng : Type) (seed : string -> rng)
    (uniform : rng -> R * rng) (api : string -> api_result) (text : string)
    (g : rng) :
  whitespace_only text = false ->
  match api (str_take 8000 text) with
  | ApiEmbedding v => get_embedding seed uniform false api text g = (Ok (Some v), g)
  | ApiAttributeError | ApiFailure =>
      get_embedding seed uniform false api text g
      = get_embedding seed uniform true api text g
  end.
Proof.
  intros W. unfold get_embedding. rewrite blank_guard, W, truncate_take.
  remember (str_take 8000 text) as t eqn:Et. cbv zeta.
  assert (match get_mock_embedding seed uniform t EMBEDDING_DIM g with
          | (Ok mock_result, g') => (Ok (Some mock_result), g')
          | (Raise _, g') => fallback seed uniform t g'
          end = fallback seed uniform t g) as Hmock.
  { unfold fallback.
    destruct (get_mock_embedding seed uniform t EMBEDDING_DIM g) as [[v|e] g'] eqn:E;
      [reflexivity|].
    now rewrite (get_mock_embedding_reseeds rng seed uniform t EMBEDDING_DIM g' g), E. }
  destruct (api t); [reflexivity | now rewrite Hmock ..].
Qed.

(** *** The claims on the provider, at concrete texts *)

Lemma toy_draws_not_all_zero (n g : nat) :
  sum_squares (fst (draws toy_uniform (S n) g)) <> 0.
Proof.
  simpl. destruct (draws toy_uniform n (S g)) as [xs g2]. simpl.
  rewrite sum_squares_cons. pose proof (sum_squares_nonneg xs). lra.
Qed.

Lemma EMBEDDING_DIM_succ : EMBEDDING_DIM = S 1535.
Proof. reflexivity. Qed.


Lemma long_texts_share_prefix :
  (8000 <? String.length long_blank)%nat = true
  /\ (8000 <? String.length long_nonblank)%nat = true
  /\ str_take 8000 long_nonblank = str_take 8000 long_blank
  /\ whitespace_only long_blank = true
  /\ whitespace_only long_nonblank = false.
Proof. repeat split; vm_compute; reflexivity. Qed.

(** C7, as stated, fails: both texts are longer than 8000 characters and
    share their first 8000 (spaces), yet the one that is all whitespace gets
    [None] and the other one a vector. *)
Lemma get_embedding_same_prefix_counterexample :
  (8000 < String.length long_blank)%nat
  /\ (8000 < String.length long_nonblank)%nat
  /\ str_take 8000 long_nonblank = str_take 8000 long_blank
  /\ fst (get_embedding toy_seed toy_uniform true toy_api long_blank 0%nat) = Ok None
  /\ exists v : list R,
      fst (get_embedding toy_seed toy_uniform true toy_api long_nonblank 0%nat)
      = Ok (Some v).
Proof.
  destruct long_texts_share_prefix as (L1 & L2 & Hpre & W1 & W2).
  split; [now apply Nat.ltb_lt|]. split; [now apply Nat.ltb_lt|].
  split; [exact Hpre|]. split.
  - now rewrite get_embedding_blank.
  - destruct (get_embedding_mock_ok nat toy_seed toy_uniform true toy_api
                long_nonblank 0%nat eq_refl W2) as (v & Hv & _).
    + rewrite EMBEDDING_DIM_succ. apply toy_draws_not_all_zero.
    + now exists v.
Qed.

Lemma long_texts_b_c :
  whitespace_only long_text_b = false
  /\ whitespace_only long_text_c = false
  /\ str_take 8000 long_text_b = str_take 8000 long_text_c.
Proof. repeat split; vm_compute; reflexivity. Qed.

(** C7, as amended, at two texts of 8001 characters that differ in the last
    one. *)
Lemma get_embedding_same_prefix_witness :
  fst (get_embedding toy_seed toy_uniform true toy_api long_text_b 0%nat)
  = fst (get_embedding toy_seed toy_uniform true toy_api long_text_c 5%nat)
  /\ fst (get_embedding toy_seed toy_uniform true toy_api long_text_b 0%nat)
     = match fst (get_mock_embedding toy_seed toy_uniform (str_take 8000 long_text_b)
                    EMBEDDING_DIM 0%nat) with
       | Ok v => Ok (Some v)
       | Raise e => Raise e
       end.
Proof.
  apply (get_embedding_same_prefix nat toy_seed toy_uniform true toy_api
           long_text_b long_text_c 0%nat 5%nat eq_refl);
    apply long_texts_b_c.
Defined.


(** ** The pipeline *)

Local Close Scope R_scope.

Ltac unfold_embed_chunk := unfold embed_chunk.
Ltac unfold_all_counted := unfold all_counted.
Ltac unfold_loop_rows := unfold loop_rows.
Ltac unfold_extract := unfold extract_text_from_file.
Ltac unfold_process_file_try := unfold process_file_try.
Ltac unfold_process_file := unfold process_file, try_except.
Ltac unfold_re_process_file_try := unfold re_process_file_try.
Ltac unfold_re_process_file := unfold re_process_file, try_except.

Ltac session_simpl :=
  cbn [view committed faults uuids_drawn provider set_view set_committed
       set_faults set_uuids_drawn set_provider files chunks embeddings
       fst snd] in *.

Lemma uuid_in_In (x : UUID) (xs : list UUID) : uuid_in x xs = true <-> In x xs.
Proof.
  unfold uuid_in. rewrite existsb_exists. split.
  - intros (y & Hy & E). apply N.eqb_eq in E. now subst.
  - intros H. exists x. split; [exact H | apply N.eqb_refl].
Qed.

Lemma filter_all {A : Type} (f : A -> bool) (l : list A) :
  (forall x, In x l -> f x = true) -> filter f l = l.
Proof.
  induction l as [|a l IH]; simpl; intros H; [reflexivity|].
  rewrite (H a (or_introl eq_refl)). f_equal. apply IH. intros x Hx. apply H. now right.
Qed.

Lemma filter_none {A : Type} (f : A -> bool) (l : list A) :
  (forall x, In x l -> f x = false) -> filter f l = [].
Proof.
  induction l as [|a l IH]; simpl; intros H; [reflexivity|].
  rewrite (H a (or_introl eq_refl)). apply IH. intros x Hx. apply H. now right.
Qed.

Lemma existsb_filter_negb {A : Type} (f : A -> bool) (l : list A) :
  existsb f (filter (fun x => negb (f x)) l) = false.
Proof.
  induction l as [|a l IH]; simpl; [reflexivity|].
  destruct (f a) eqn:E; simpl; [exact IH | now rewrite E, IH].
Qed.

Section PipelineFacts.

Variable num : Type.
Variable G : Type.
Variable embed : string -> G -> result (option (list num)) * G.
Variable open_read : string -> result string.
Variable pdf_pages : string -> parsed.
Variable docx_paragraphs : string -> parsed.
Variable split_text : string -> result (list string).
Variable count_tokens : string -> result nat.
Variable uuid_source : nat -> UUID.

Local Notation embed_chunk := (embed_chunk embed count_tokens uuid_source).
Local Notation embed_chunks := (embed_chunks embed count_tokens uuid_source).
Local Notation extract_text_from_file :=
  (extract_text_from_file open_read pdf_pages docx_paragraphs).
Local Notation chunk_text := (chunk_text split_text).
Local Notation all_counted := (all_counted count_tokens).
Local Notation provider_outcomes := (provider_outcomes embed).
Local Notation loop_rows := (loop_rows embed count_tokens uuid_source).
Local Notation process_file_try :=
  (process_file_try embed open_read pdf_pages docx_paragraphs split_text
     count_tokens uuid_source).
Local Notation process_file :=
  (process_file embed open_read pdf_pages docx_paragraphs split_text
     count_tokens uuid_source).
Local Notation re_process_file_try :=
  (re_process_file_try embed open_read pdf_pages docx_paragraphs split_text
     count_tokens uuid_source).
Local Notation re_process_file :=
  (re_process_file embed open_read pdf_pages docx_paragraphs split_text
     count_tokens uuid_source).

Implicit Types (s : Session num G) (t : Tables num) (file_id : UUID).

(** *** Sequencing *)

Lemma bind_ok {A B : Type} (m : M num G A) (k : A -> M num G B) s (a : A) s1 :
  m s = (Ok a, s1) -> bind m k s = k a s1.
Proof. unfold bind. now intros ->. Qed.

Lemma bind_raise {A B : Type} (m : M num G A) (k : A -> M num G B) s (e : exn) s1 :
  m s = (Raise e, s1) -> bind m k s = (Raise e, s1).
Proof. unfold bind. now intros ->. Qed.

(** *** The tables after a deletion or a status change *)

Lemma find_file_mark file_id (status : string) t :
  find_file file_id (mark file_id status t)
  = option_map (with_status file_id status) (find_file file_id t).
Proof.
  unfold find_file, mark; simpl. induction (files t) as [|f l IH]; simpl; [reflexivity|].
  unfold with_status at 1. destruct (N.eqb (f_id f) file_id) eqn:E; simpl; rewrite E.
  - unfold with_status. now rewrite E.
  - exact IH.
Qed.

Lemma status_of_mark file_id (status : string) t (f : File) :
  find_file file_id t = Some f -> status_of file_id (mark file_id status t) = Some status.
Proof.
  intros H. unfold status_of. rewrite find_file_mark, H. simpl.
  unfold with_status. apply find_some in H. destruct H as [_ E]. now rewrite E.
Qed.

Lemma chunks_of_purge file_id t : chunks_of file_id (purge file_id t) = [].
Proof.
  unfold chunks_of, purge; simpl. apply filter_none. intros c Hc.
  apply filter_In in Hc. destruct Hc as [_ Hc]. now apply negb_true_iff in Hc.
Qed.

Lemma orphan_free_purge file_id t :
  orphan_free t = true -> orphan_free (purge file_id t) = true.
Proof.
  unfold orphan_free, purge; simpl. rewrite !forallb_forall. intros H e He.
  apply filter_In in He. destruct He as [He Hout].
  specialize (H e He). apply uuid_in_In in H. apply in_map_iff in H.
  destruct H as (c & Hid & Hc). apply uuid_in_In. apply in_map_iff.
  exists c. split; [exact Hid|]. apply filter_In. split; [exact Hc|].
  apply negb_true_iff. apply negb_true_iff in Hout.
  destruct (N.eqb (c_file_id c) file_id) eqn:E; [|reflexivity].
  exfalso. apply not_true_iff_false in Hout. apply Hout, uuid_in_In.
  rewrite <- Hid. apply in_map. unfold chunks_of. apply filter_In. now split.
Qed.

Lemma purge_no_reference file_id t (e : Embedding num) :
  In e (embeddings (purge file_id t)) ->
  ~ In (e_chunk_id e) (map c_id (chunks_of file_id t)).
Proof.
  unfold purge; simpl. intros He Hin. apply filter_In in He. destruct He as [_ He].
  apply uuid_in_In in Hin. now rewrite Hin in He.
Qed.

(** *** The session's operations when the database does not fail *)

Lemma db_call_quiet s : faults s = [] -> db_call s = (Ok tt, s).
Proof. unfold db_call. now intros ->. Qed.

Lemma query_file_quiet file_id s :
  faults s = [] -> query_file file_id s = (Ok (find_file file_id (view s)), s).
Proof. intros H. unfold query_file. now rewrite (bind_ok _ _ _ _ _ (db_call_quiet s H)). Qed.

Lemma query_chunk_ids_quiet file_id s :
  faults s = [] ->
  query_chunk_ids file_id s = (Ok (map c_id (chunks_of file_id (view s))), s).
Proof.
  intros H. unfold query_chunk_ids. now rewrite (bind_ok _ _ _ _ _ (db_call_quiet s H)).
Qed.

Lemma count_chunks_quiet file_id s :
  faults s = [] ->
  count_chunks file_id s = (Ok (length (chunks_of file_id (view s))), s).
Proof.
  intros H. unfold count_chunks. now rewrite (bind_ok _ _ _ _ _ (db_call_quiet s H)).
Qed.

Lemma commit_quiet s :
  faults s = [] -> commit s = (Ok tt, set_committed (view s) s).
Proof. intros H. unfold commit. now rewrite (bind_ok _ _ _ _ _ (db_call_quiet s H)). Qed.

Lemma delete_embeddings_in_quiet (chunk_ids : list UUID) s :
  faults s = [] ->
  exists n : nat,
    delete_embeddings_in chunk_ids s
    = (Ok n,
       set_view (mkTables (files (view s)) (chunks (view s))
                   (filter (fun e => negb (uuid_in (e_chunk_id e) chunk_ids))
                      (embeddings (view s)))) s).
Proof.
  intros H. unfold delete_embeddings_in.
  rewrite (bind_ok _ _ _ _ _ (db_call_quiet s H)). eexists. reflexivity.
Qed.

(** The database accepts the deletion of a file's chunks when no embedding
    refers to one of them. *)
Lemma delete_chunks_quiet file_id s :
  faults s = [] ->
  existsb (fun e => uuid_in (e_chunk_id e) (map c_id (chunks_of file_id (view s))))
    (embeddings (view s)) = false ->
  exists n : nat,
    delete_chunks file_id s
    = (Ok n,
       set_view (mkTables (files (view s))
                   (filter (fun c => negb (N.eqb (c_file_id c) file_id)) (chunks (view s)))
                   (embeddings (view s))) s).
Proof.
  intros H Hfk. unfold delete_chunks.
  rewrite (bind_ok _ _ _ _ _ (db_call_quiet s H)). rewrite Hfk. eexists. reflexivity.
Qed.

(** While an embedding refers to one of the file's chunks, the database
    refuses to delete them. *)
Lemma delete_chunks_refused file_id s :
  faults s = [] ->
  existsb (fun e => uuid_in (e_chunk_id e) (map c_id (chunks_of file_id (view s))))
    (embeddings (view s)) = true ->
  delete_chunks file_id s = (Raise IntegrityError, s).
Proof.
  intros H Hfk. unfold delete_chunks.
  rewrite (bind_ok _ _ _ _ _ (db_call_quiet s H)). now rewrite Hfk.
Qed.

(** The deletion phase: embeddings first, so that the deletion of the chunks
    is accepted. *)
Lemma delete_existing_quiet file_id s :
  faults s = [] ->
  delete_existing file_id s = (Ok tt, set_view (purge file_id (view s)) s).
Proof.
  intros H. unfold delete_existing.
  rewrite (bind_ok _ _ _ _ _ (query_chunk_ids_quiet file_id s H)).
  destruct (map c_id (chunks_of file_id (view s))) as [|i ids] eqn:Eids.
  - rewrite (bind_ok _ _ s tt s eq_refl).
    destruct (delete_chunks_quiet file_id s H) as [n Hn].
    { rewrite Eids. simpl. now induction (embeddings (view s)). }
    rewrite (bind_ok _ _ _ _ _ Hn). unfold ret. f_equal. f_equal.
    unfold purge. f_equal. rewrite Eids. symmetry. now apply filter_all.
  - destruct (delete_embeddings_in_quiet (i :: ids) s H) as [n Hn].
    rewrite (bind_ok _ _ _ _ _ (bind_ok _ _ _ _ _ Hn)). unfold ret at 1.
    match goal with |- bind _ _ ?s1 = _ => set (s1' := s1) end.
    destruct (delete_chunks_quiet file_id s1') as [m Hm]; [exact H | |].
    { subst s1'; simpl. unfold chunks_of; simpl. fold (chunks_of file_id (view s)).
      rewrite Eids. apply existsb_filter_negb. }
    rewrite (bind_ok _ _ _ _ _ Hm). unfold ret. subst s1'.
    unfold set_view, purge; simpl. unfold chunks_of at 1; simpl.
    fold (chunks_of file_id (view s)). now rewrite Eids.
Qed.

(** *** One chunk, then all of them *)

Lemma select_incl {A : Type} (flags : list bool) (l : list A) (x : A) :
  In x (select flags l) -> In x l.
Proof.
  revert l. induction flags as [|[|] flags IH]; intros [|y l]; simpl; try tauto.
  - intros [H|H]; [now left | right; now apply IH].
  - intros H. right. now apply IH.
Qed.

Lemma select_length {A : Type} (flags : list bool) (l : list A) :
  length (select flags l) <= length l.
Proof.
  revert l. induction flags as [|[|] flags IH]; intros [|y l]; simpl; try lia.
  - specialize (IH l). lia.
  - specialize (IH l). lia.
Qed.

Lemma select_sorted (flags : list bool) (l : list nat) :
  StronglySorted lt l -> StronglySorted lt (select flags l).
Proof.
  revert l. induction flags as [|[|] flags IH]; intros [|y l]; simpl;
    try (intros _; apply SSorted_nil).
  - intros H. inversion H as [|? ? Hl Hy]; subst. constructor; [now apply IH|].
    rewrite Forall_forall in *. intros k Hk. apply Hy. now apply (select_incl flags).
  - intros H. inversion H; subst. now apply IH.
Qed.

Lemma all_counted_In (texts : list string) (text : string) (e : exn) :
  all_counted texts = true -> In text texts -> count_tokens text = Raise e -> False.
Proof.
  unfold_all_counted. rewrite forallb_forall. intros H Hin He.
  specialize (H text Hin). rewrite He in H. discriminate.
Qed.

Lemma not_all_counted (texts : list string) :
  all_counted texts = false ->
  exists (text : string) (e : exn), In text texts /\ count_tokens text = Raise e.
Proof.
  unfold_all_counted. induction texts as [|text rest IH]; simpl; [discriminate|].
  destruct (count_tokens text) as [n|e] eqn:E; simpl.
  - intros H. destruct (IH H) as (t & e & Hin & He). exists t, e. split; [now right | exact He].
  - intros _. exists text, e. split; [now left | exact E].
Qed.

(** The token counter raises on the text: the iteration raises before it
    draws an identifier or adds a row. *)
Lemma embed_chunk_uncounted file_id (i : nat) (text : string) (counters : nat * nat)
    s (e : exn) :
  count_tokens text = Raise e ->
  embed_chunk file_id i text counters s = (Raise e, s).
Proof.
  intros H. destruct counters as [a b]. unfold_embed_chunk. unfold bind at 1.
  now rewrite H.
Qed.

(** One iteration when the database does not fail and the token counter
    returns: the chunk row is added whatever the provider does, with the next
    value of [uuid4], and an embedding row, with the value after it, only when
    the provider gave a vector. *)
Lemma embed_chunk_quiet file_id (i : nat) (text : string) (n a b : nat) s :
  faults s = [] ->
  count_tokens text = Ok n ->
  exists (new_embeddings : list (Embedding num)) s',
    embed_chunk file_id i text (a, b) s
    = (Ok (a + length new_embeddings, b + (1 - length new_embeddings)), s')
    /\ faults s' = []
    /\ committed s' = committed s
    /\ view s'
       = mkTables (files (view s))
           (chunks (view s)
            ++ [mkChunk (uuid_source (uuids_drawn s)) (i + 1) text n file_id])
           (embeddings (view s) ++ new_embeddings)
    /\ uuids_drawn s < uuids_drawn s'
    /\ provider s' = snd (embed text (provider s))
    /\ ((provider_failed (fst (embed text (provider s))) = true
         /\ new_embeddings = [])
        \/ (provider_failed (fst (embed text (provider s))) = false
            /\ exists v : list num,
                new_embeddings
                = [mkEmbedding (uuid_source (S (uuids_drawn s)))
                     (uuid_source (uuids_drawn s)) v ADA_002])).
Proof.
  intros Hq Hn. destruct s as [v c fs d g]. session_simpl. subst fs.
  unfold_embed_chunk. unfold bind at 1. rewrite Hn.
  unfold bind, try_except, uuid4, add_chunk, flush, db_call,
    call_provider, add_embedding, ret. session_simpl.
  destruct (embed text g) as [[[[|x xs]|]|e] g'] eqn:E; session_simpl.
  - exists []. eexists. simpl. rewrite app_nil_r, Nat.add_0_r.
    split; [reflexivity|]. session_simpl.
    repeat (split; [reflexivity|]). split; [lia|]. split; [reflexivity | now left].
  - eexists [_]. eexists. simpl.
    replace (b + 0) with b by lia.
    split; [reflexivity|]. session_simpl.
    repeat (split; [reflexivity|]). split; [lia|]. split; [reflexivity|].
    right. split; [reflexivity | eexists; reflexivity].
  - exists []. eexists. simpl. rewrite app_nil_r, Nat.add_0_r.
    split; [reflexivity|]. session_simpl.
    repeat (split; [reflexivity|]). split; [lia|]. split; [reflexivity | now left].
  - exists []. eexists. simpl. rewrite app_nil_r, Nat.add_0_r.
    split; [reflexivity|]. session_simpl.
    repeat (split; [reflexivity|]). split; [lia|]. split; [reflexivity | now left].
Qed.

Lemma embed_chunks_cons file_id (i : nat) (text : string) (rest : list string)
    (counters : nat * nat) s :
  embed_chunks file_id i (text :: rest) counters s
  = bind (embed_chunk file_id i text counters)
      (fun counters' => embed_chunks file_id (S i) rest counters') s.
Proof. reflexivity. Qed.

(** The whole loop when the database does not fail. It adds the rows of the
    texts up to the first one the token counter raises on, which ends it, and
    of all of them when there is none; the counters then count the embedding
    rows and the chunks without one. *)
Lemma embed_chunks_quiet file_id (texts : list string) :
  forall (i a b : nat) s,
    faults s = [] ->
    exists (new_chunks : list Chunk) (new_embeddings : list (Embedding num))
           (chunk_draws : list nat) (r : result (nat * nat)) s',
      embed_chunks file_id i texts (a, b) s = (r, s')
      /\ faults s' = []
      /\ committed s' = committed s
      /\ view s'
         = mkTables (files (view s)) (chunks (view s) ++ new_chunks)
             (embeddings (view s) ++ new_embeddings)
      /\ loop_rows file_id i texts (provider s) (uuids_drawn s)
           new_chunks new_embeddings chunk_draws
      /\ uuids_drawn s <= uuids_drawn s'
      /\ match r with
         | Ok counters =>
             length new_chunks = length texts
             /\ counters = (a + length new_embeddings,
                            b + (length texts - length new_embeddings))
         | Raise e =>
             exists text : string,
               nth_error texts (length new_chunks) = Some text
               /\ count_tokens text = Raise e
         end.
Proof.
  induction texts as [|text rest IH]; intros i a b s Hq.
  - exists [], [], [], (Ok (a, b)), s. simpl. rewrite !app_nil_r, !Nat.add_0_r.
    split; [reflexivity|]. split; [exact Hq|]. split; [reflexivity|].
    split; [now destruct (view s)|].
    split; [unfold_loop_rows; simpl; repeat split; constructor|].
    split; [lia | now split].
  - destruct (count_tokens text) as [n|e] eqn:Hn.
    + destruct (embed_chunk_quiet file_id i text n a b s Hq Hn)
        as (es & s1 & Hrun & Hq1 & Hc1 & Hv1 & Hd1 & Hg1 & Hes).
      destruct (IH (S i) (a + length es) (b + (1 - length es)) s1 Hq1)
        as (cs & es' & kc & r & s2 & Hrun2 & Hq2 & Hc2 & Hv2 & Hrows & Hd2 & Hr).
      destruct Hrows as (Hnum & Htxt & Hown & Hmod & Hkc & Hke & Hsc & Hfc).
      assert (length es <= 1) as Hles
          by (destruct Hes as [[_ ->]|[_ [v ->]]]; simpl; lia).
      exists (mkChunk (uuid_source (uuids_drawn s)) (i + 1) text n file_id :: cs),
        (es ++ es'), (uuids_drawn s :: kc), r, s2.
      rewrite embed_chunks_cons, (bind_ok _ _ _ _ _ Hrun), Hrun2.
      split; [reflexivity|]. split; [exact Hq2|]. split; [congruence|].
      split. { rewrite Hv2, Hv1. simpl. now rewrite <- !app_assoc. }
      split.
      { unfold_loop_rows. simpl.
        split; [now rewrite Hnum|].
        split; [now rewrite Htxt|].
        split; [constructor; [now split | exact Hown]|].
        split.
        { apply Forall_app. split; [|exact Hmod].
          destruct Hes as [[_ ->]|[_ [v ->]]]; repeat constructor. }
        split; [now rewrite Hkc|].
        split.
        { rewrite map_app, Hke, Hg1.
          destruct Hes as [[-> ->]|[-> [v ->]]]; reflexivity. }
        split.
        { constructor; [exact Hsc|].
          eapply Forall_impl; [|exact Hfc]. simpl; intros; lia. }
        constructor; [lia|].
        eapply Forall_impl; [|exact Hfc]. simpl; intros; lia. }
      split; [lia|].
      destruct r as [counters|e].
      * destruct Hr as [Hlen ->]. split; [simpl; now rewrite Hlen|].
        rewrite length_app.
        change (length (text :: rest)) with (S (length rest)).
        assert (length es' <= length rest) as Hle'.
        { rewrite <- Hlen. apply (f_equal (@length UUID)) in Hke.
          rewrite !length_map in Hke. rewrite Hke.
          apply (f_equal (@length UUID)) in Hkc. rewrite !length_map in Hkc.
          rewrite Hkc. apply select_length. }
        f_equal; lia.
      * simpl. exact Hr.
    + exists [], [], [], (Raise e), s.
      rewrite embed_chunks_cons,
        (bind_raise _ _ _ _ _ (embed_chunk_uncounted file_id i text (a, b) s e Hn)).
      simpl. rewrite !app_nil_r.
      split; [reflexivity|]. split; [exact Hq|]. split; [reflexivity|].
      split; [now destruct (view s)|].
      split; [unfold_loop_rows; simpl; repeat split; constructor|].
      split; [lia|]. exists text. now split.
Qed.

(** When the token counter returns on every text, the loop returns and the
    rows are those of all the texts. *)
Lemma embed_chunks_counted file_id (texts : list string) (i a b : nat) s :
  faults s = [] ->
  all_counted texts = true ->
  exists (new_chunks : list Chunk) (new_embeddings : list (Embedding num))
         (chunk_draws : list nat) s',
    embed_chunks file_id i texts (a, b) s
    = (Ok (a + length new_embeddings, b + (length texts - length new_embeddings)), s')
    /\ faults s' = []
    /\ committed s' = committed s
    /\ view s'
       = mkTables (files (view s)) (chunks (view s) ++ new_chunks)
           (embeddings (view s) ++ new_embeddings)
    /\ loop_rows file_id i texts (provider s) (uuids_drawn s)
         new_chunks new_embeddings chunk_draws
    /\ length new_chunks = length texts
    /\ map c_text new_chunks = texts.
Proof.
  intros Hq Hall.
  destruct (embed_chunks_quiet file_id texts i a b s Hq)
    as (cs & es & kc & r & s' & Hrun & Hq' & Hc & Hv & Hrows & _ & Hr).
  destruct r as [counters|e].
  - destruct Hr as [Hlen ->]. exists cs, es, kc, s'.
    do 6 (split; [assumption|]).
    destruct Hrows as (_ & Htxt & _). rewrite Htxt, Hlen. apply firstn_all.
  - destruct Hr as (text & Hnth & He). exfalso.
    apply (all_counted_In texts text e Hall); [|exact He].
    now apply nth_error_In with (n := length cs).
Qed.

(** What the rows of a loop give: the new embedding rows refer to new chunk
    rows. *)
Lemma loop_rows_refer file_id (i : nat) (texts : list string) (g : G) (d : nat)
    (cs : list Chunk) (es : list (Embedding num)) (kc : list nat) :
  loop_rows file_id i texts g d cs es kc ->
  Forall (fun e => e_embedding_model e = ADA_002 /\ In (e_chunk_id e) (map c_id cs)) es.
Proof.
  unfold_loop_rows. intros (_ & _ & _ & Hmod & Hkc & Hke & _).
  rewrite Forall_forall in *. intros e He. split; [now apply Hmod|].
  assert (In (e_chunk_id e) (map e_chunk_id es)) as Hin by now apply in_map.
  rewrite Hke in Hin. apply in_map_iff in Hin. destruct Hin as (k & <- & Hk).
  rewrite Hkc. apply in_map. now apply (select_incl _ _ _ Hk).
Qed.

Lemma loop_rows_own file_id (i : nat) (texts : list string) (g : G) (d : nat)
    (cs : list Chunk) (es : list (Embedding num)) (kc : list nat) :
  loop_rows file_id i texts g d cs es kc ->
  Forall (fun c => c_file_id c = file_id) cs.
Proof.
  unfold_loop_rows. intros (_ & _ & Hown & _).
  eapply Forall_impl; [|exact Hown]. now intros c [H _].
Qed.

(** *** A whole run when the database does not fail *)

Lemma find_file_purge file_id (other : UUID) t :
  find_file file_id (purge other t) = find_file file_id t.
Proof. reflexivity. Qed.

Lemma process_file_try_start file_id (path : string) s (f : File) :
  faults s = [] ->
  find_file file_id (view s) = Some f ->
  process_file_try file_id path s
  = bind (fun s0 => (extract_text_from_file path, s0))
      (fun text =>
         if startswith "Error:" text
         then bind (set_status file_id "Error") (fun _ => commit)
         else
           bind (fun s0 => (chunk_text text, s0))
             (fun chunks =>
                bind (count_chunks file_id)
                  (fun chunk_count =>
                     bind (if (0 <? chunk_count)%nat
                           then bind (delete_chunks file_id) (fun _ => commit)
                           else ret tt)
                       (fun _ =>
                          bind (embed_chunks file_id 0 chunks (0, 0)%nat)
                            (fun _ =>
                               bind commit
                                 (fun _ => bind (set_status file_id "Embedded")
                                             (fun _ => commit)))))))
      (after_deletion file_id s).
Proof.
  intros Hq Hf. unfold_process_file_try.
  rewrite (bind_ok _ _ _ _ _ (query_file_quiet file_id s Hq)), Hf.
  rewrite (bind_ok (set_status file_id "Processing") _ s tt _ eq_refl).
  match goal with |- bind _ _ ?s0 = _ =>
    rewrite (bind_ok _ _ _ _ _ (commit_quiet s0 Hq)) end.
  match goal with |- bind _ _ ?s0 = _ =>
    rewrite (bind_ok _ _ _ _ _ (delete_existing_quiet file_id s0 Hq)) end.
  reflexivity.
Qed.

Lemma on_exception_quiet file_id s (f : File) :
  faults s = [] ->
  find_file file_id (view s) = Some f ->
  on_exception file_id s
  = (Ok tt, set_committed (mark file_id "Error" (view s))
              (set_view (mark file_id "Error" (view s)) s)).
Proof.
  intros Hq Hf. unfold on_exception.
  rewrite (bind_ok _ _ _ _ _ (query_file_quiet file_id s Hq)), Hf.
  rewrite (bind_ok (set_status file_id "Error") _ s tt _ eq_refl).
  match goal with |- commit ?s0 = _ => now rewrite (commit_quiet s0 Hq) end.
Qed.

Lemma find_file_after_deletion file_id s (f : File) :
  find_file file_id (view s) = Some f ->
  find_file file_id (view (after_deletion file_id s))
  = Some (with_status file_id "Processing" f).
Proof.
  intros Hf. unfold after_deletion; session_simpl.
  now rewrite find_file_purge, find_file_mark, Hf.
Qed.

(** The extraction raised, or gave a text that starts with [Error:]: the run
    ends with the status [Error] and no row of the file. *)
Lemma process_file_error_quiet file_id (path : string) s (f : File) :
  faults s = [] ->
  find_file file_id (view s) = Some f ->
  match extract_text_from_file path with
  | Raise _ => True
  | Ok text => startswith "Error:" text = true
  end ->
  process_file file_id path s = (Ok tt, failed_run file_id s).
Proof.
  intros Hq Hf Hext. unfold_process_file.
  rewrite (process_file_try_start file_id path s f Hq Hf).
  pose proof (find_file_after_deletion file_id s f Hf) as Hf'.
  unfold bind at 1. destruct (extract_text_from_file path) as [text|e].
  - rewrite Hext.
    rewrite (bind_ok (set_status file_id "Error") _ _ tt _ eq_refl).
    match goal with |- context [commit ?s0] => now rewrite (commit_quiet s0 Hq) end.
  - now rewrite (on_exception_quiet file_id (after_deletion file_id s) _ Hq Hf').
Qed.

(** The chunker raises on the text: the handler writes the status [Error],
    and the run ends as it does when the extraction fails. *)
Lemma process_file_chunker_raises_quiet file_id (path text : string) (e : exn) s
    (f : File) :
  faults s = [] ->
  find_file file_id (view s) = Some f ->
  extract_text_from_file path = Ok text ->
  startswith "Error:" text = false ->
  chunk_text text = Raise e ->
  process_file file_id path s = (Ok tt, failed_run file_id s).
Proof.
  intros Hq Hf Hext Hpre Hch. unfold_process_file.
  rewrite (process_file_try_start file_id path s f Hq Hf).
  pose proof (find_file_after_deletion file_id s f Hf) as Hf'.
  unfold bind at 1. rewrite Hext, Hpre. unfold bind at 1. rewrite Hch.
  now rewrite (on_exception_quiet file_id (after_deletion file_id s) _ Hq Hf').
Qed.

(** The session a run ends in when the chunker gave its pieces, in terms of
    the loop: [Embedded] when the loop returns, and [Error], written by the
    handler over the rows the loop had added, when the token counter ends
    it. *)
Lemma process_file_chunked_run file_id (path text : string) (pieces : list string)
    s (f : File) :
  faults s = [] ->
  find_file file_id (view s) = Some f ->
  extract_text_from_file path = Ok text ->
  startswith "Error:" text = false ->
  chunk_text text = Ok pieces ->
  process_file file_id path s
  = (Ok tt,
     let run := embed_chunks file_id 0 pieces (0, 0)%nat (after_deletion file_id s) in
     let status := match fst run with Ok _ => "Embedded" | Raise _ => "Error" end in
     set_committed (mark file_id status (view (snd run)))
       (set_view (mark file_id status (view (snd run))) (snd run))).
Proof.
  intros Hq Hf Hext Hpre Hch. unfold_process_file.
  rewrite (process_file_try_start file_id path s f Hq Hf).
  unfold bind at 1. rewrite Hext, Hpre. unfold bind at 1. rewrite Hch.
  set (s0 := after_deletion file_id s).
  assert (faults s0 = []) as Hq0 by exact Hq.
  rewrite (bind_ok _ _ _ _ _ (count_chunks_quiet file_id s0 Hq0)).
  replace (length (chunks_of file_id (view s0))) with 0%nat
    by (unfold s0, after_deletion; session_simpl; now rewrite chunks_of_purge).
  change (0 <? 0)%nat with false.
  rewrite (bind_ok (ret tt) _ s0 tt s0 eq_refl).
  destruct (embed_chunks_quiet file_id pieces 0 0 0 s0 Hq0)
    as (cs & es & kc & r & s1 & Hrun & Hq1 & _ & Hv1 & _).
  destruct r as [counters|e].
  - rewrite (bind_ok _ _ _ _ _ Hrun).
    rewrite (bind_ok _ _ _ _ _ (commit_quiet s1 Hq1)).
    rewrite (bind_ok (set_status file_id "Embedded") _ _ tt _ eq_refl).
    match goal with |- context [commit ?s2] => rewrite (commit_quiet s2 Hq1) end.
    rewrite Hrun. reflexivity.
  - rewrite (bind_raise _ _ _ _ _ Hrun).
    assert (find_file file_id (view s1) = Some (with_status file_id "Processing" f))
      as Hf1.
    { rewrite Hv1. exact (find_file_after_deletion file_id s f Hf). }
    rewrite (on_exception_quiet file_id s1 _ Hq1 Hf1), Hrun. reflexivity.
Qed.

(** The same, by the rows the run leaves. *)
Lemma process_file_chunked_quiet file_id (path text : string) (pieces : list string)
    s (f : File) :
  faults s = [] ->
  find_file file_id (view s) = Some f ->
  extract_text_from_file path = Ok text ->
  startswith "Error:" text = false ->
  chunk_text text = Ok pieces ->
  exists (new_chunks : list Chunk) (new_embeddings : list (Embedding num))
         (chunk_draws : list nat) (status : string) s',
    process_file file_id path s = (Ok tt, s')
    /\ faults s' = []
    /\ committed s' = view s'
    /\ view s'
       = mark file_id status
           (mkTables (files (view (after_deletion file_id s)))
              (chunks (view (after_deletion file_id s)) ++ new_chunks)
              (embeddings (view (after_deletion file_id s)) ++ new_embeddings))
    /\ loop_rows file_id 0 pieces (provider s) (uuids_drawn s)
         new_chunks new_embeddings chunk_draws
    /\ ((status = "Embedded" /\ length new_chunks = length pieces)
        \/ (status = "Error"
            /\ exists (piece : string) (e : exn),
                nth_error pieces (length new_chunks) = Some piece
                /\ count_tokens piece = Raise e)).
Proof.
  intros Hq Hf Hext Hpre Hch.
  rewrite (process_file_chunked_run file_id path text pieces s f Hq Hf Hext Hpre Hch).
  destruct (embed_chunks_quiet file_id pieces 0 0 0 (after_deletion file_id s) Hq)
    as (cs & es & kc & r & s1 & Hrun & Hq1 & _ & Hv1 & Hrows & _ & Hr).
  cbv zeta. rewrite Hrun. cbn [fst snd].
  exists cs, es, kc, (match r with Ok _ => "Embedded" | Raise _ => "Error" end).
  eexists. split; [reflexivity|]. session_simpl.
  split; [exact Hq1|]. split; [reflexivity|]. split; [now rewrite Hv1|].
  split; [exact Hrows|].
  destruct r as [counters|e].
  - left. split; [reflexivity | apply Hr].
  - right. split; [reflexivity|]. destruct Hr as (piece & Hnth & He).
    now exists piece, e.
Qed.

(** The chunker gave its pieces and the token counter returns on each: the
    run ends with the status [Embedded] and the rows of the loop. *)
Lemma process_file_ok_quiet file_id (path text : string) (pieces : list string)
    s (f : File) :
  faults s = [] ->
  find_file file_id (view s) = Some f ->
  extract_text_from_file path = Ok text ->
  startswith "Error:" text = false ->
  chunk_text text = Ok pieces ->
  all_counted pieces = true ->
  exists (new_chunks : list Chunk) (new_embeddings : list (Embedding num)) s',
    process_file file_id path s = (Ok tt, s')
    /\ faults s' = []
    /\ committed s' = view s'
    /\ view s'
       = mark file_id "Embedded"
           (mkTables (files (view (after_deletion file_id s)))
              (chunks (view (after_deletion file_id s)) ++ new_chunks)
              (embeddings (view (after_deletion file_id s)) ++ new_embeddings))
    /\ map c_chunk_number new_chunks = seq 1 (length pieces)
    /\ map c_text new_chunks = pieces
    /\ Forall (fun c => count_tokens (c_text c) = Ok (c_token_count c)) new_chunks
    /\ Forall (fun c => c_file_id c = file_id) new_chunks
    /\ Forall (fun e => e_embedding_model e = ADA_002
                        /\ In (e_chunk_id e) (map c_id new_chunks))
         new_embeddings.
Proof.
  intros Hq Hf Hext Hpre Hch Hall.
  destruct (process_file_chunked_quiet file_id path text pieces s f Hq Hf Hext Hpre Hch)
    as (cs & es & kc & status & s' & Hrun & Hq' & Hc & Hv & Hrows & Hst).
  destruct Hst as [[-> Hlen] | [_ (piece & e & Hnth & He)]].
  - exists cs, es, s'. do 4 (split; [assumption|]).
    pose proof (loop_rows_refer _ _ _ _ _ _ _ _ Hrows) as Hemb.
    pose proof (loop_rows_own _ _ _ _ _ _ _ _ Hrows) as Hfid.
    destruct Hrows as (Hnum & Htxt & Hown & _).
    split; [now rewrite Hnum, Hlen|].
    split; [rewrite Htxt, Hlen; apply firstn_all|].
    split; [|split; assumption].
    eapply Forall_impl; [|exact Hown]. now intros c [_ H].
  - exfalso. apply (all_counted_In pieces piece e Hall); [|exact He].
    now apply nth_error_In with (n := length cs).
Qed.

(** *** The rows of a file after a run *)

Lemma chunks_of_app file_id (fs : list File) (cs1 cs2 : list Chunk)
    (es : list (Embedding num)) :
  chunks_of file_id (mkTables fs (cs1 ++ cs2) es)
  = chunks_of file_id (mkTables fs cs1 es) ++ chunks_of file_id (mkTables fs cs2 es).
Proof. unfold chunks_of; simpl. apply filter_app. Qed.

Lemma chunks_of_own file_id (fs : list File) (cs : list Chunk)
    (es : list (Embedding num)) :
  Forall (fun c => c_file_id c = file_id) cs ->
  chunks_of file_id (mkTables fs cs es) = cs.
Proof.
  intros H. unfold chunks_of; simpl. apply filter_all. intros c Hc.
  rewrite Forall_forall in H. rewrite (H c Hc). apply N.eqb_refl.
Qed.

Lemma chunks_of_after_run file_id (other : UUID) (status : string) t0
    (fs : list File) (cs : list Chunk) (es : list (Embedding num)) :
  Forall (fun c => c_file_id c = file_id) cs ->
  chunks_of file_id
    (mark other status (mkTables fs (chunks (purge file_id t0) ++ cs) es))
  = cs.
Proof.
  intros H. unfold mark; simpl.
  change (chunks_of file_id (mkTables (map (with_status other status) fs)
                               (chunks (purge file_id t0) ++ cs) es) = cs).
  rewrite chunks_of_app, (chunks_of_own _ _ cs _ H).
  change (chunks_of file_id (purge file_id t0) ++ cs = cs).
  now rewrite chunks_of_purge.
Qed.

Lemma chunks_of_failed_run file_id s :
  chunks_of file_id (view (failed_run file_id s)) = [].
Proof.
  unfold failed_run, after_deletion; session_simpl.
  apply (chunks_of_purge file_id (mark file_id "Processing" (view s))).
Qed.

Lemma status_of_failed_run file_id s (f : File) :
  find_file file_id (view s) = Some f ->
  status_of file_id (view (failed_run file_id s)) = Some "Error".
Proof.
  intros Hf. unfold failed_run; session_simpl.
  exact (status_of_mark _ _ _ _ (find_file_after_deletion file_id s f Hf)).
Qed.

Lemma orphan_free_extend (fs fs' : list File) (cs new_chunks : list Chunk)
    (es new_embeddings : list (Embedding num)) :
  orphan_free (mkTables fs cs es) = true ->
  Forall (fun e => In (e_chunk_id e) (map c_id new_chunks)) new_embeddings ->
  orphan_free (mkTables fs' (cs ++ new_chunks) (es ++ new_embeddings)) = true.
Proof.
  unfold orphan_free; simpl. intros H Hnew. rewrite forallb_app, map_app.
  apply andb_true_intro. split; apply forallb_forall; intros e He; apply uuid_in_In, in_or_app.
  - left. rewrite forallb_forall in H. now apply uuid_in_In, H.
  - right. rewrite Forall_forall in Hnew. now apply Hnew.
Qed.

(** *** The claims on the pipeline *)

(** The part of C1 the code keeps: when the extraction raises, or returns a
    text that starts with [Error:] (an unsupported extension, a parser that
    is not installed), the run ends with the status [Error], committed, and
    the file has no chunk row. *)
Lemma process_file_extraction_error file_id (path : string) s (f : File) :
  faults s = [] ->
  find_file file_id (view s) = Some f ->
  match extract_text_from_file path with
  | Raise _ => True
  | Ok text => startswith "Error:" text = true
  end ->
  exists s',
    process_file file_id path s = (Ok tt, s')
    /\ status_of file_id (committed s') = Some "Error"
    /\ chunks_of file_id (committed s') = []
    /\ chunks_of file_id (view s') = [].
Proof.
  intros Hq Hf Hext. exists (failed_run file_id s).
  split; [now apply (process_file_error_quiet file_id path s f)|].
  split; [now apply (status_of_failed_run file_id s f)|].
  split; apply chunks_of_failed_run.
Qed.

(** What a PDF or DOCX the parser raises on is extracted to: a text that
    does not start with [Error:]. *)
Lemma startswith_error_extracting (rest : string) :
  startswith "Error:" ("Error extracting text from " ++ rest) = false.
Proof. reflexivity. Qed.

(** C4. When the extraction gives a text, the chunker N pieces on each of
    which the token counter returns, and the database does not fail, the
    chunk rows of the file after the run are numbered 1..N in the order of
    the chunker's output. *)
Theorem process_file_numbers_chunks file_id (path text : string)
    (pieces : list string) s (f : File) :
  faults s = [] ->
  find_file file_id (view s) = Some f ->
  extract_text_from_file path = Ok text ->
  startswith "Error:" text = false ->
  chunk_text text = Ok pieces ->
  all_counted pieces = true ->
  exists s',
    process_file file_id path s = (Ok tt, s')
    /\ map c_chunk_number (chunks_of file_id (committed s'))
       = seq 1 (length pieces)
    /\ map c_text (chunks_of file_id (committed s')) = pieces
    /\ length (chunks_of file_id (committed s')) = length pieces.
Proof.
  intros Hq Hf Hext Hpre Hch Hall.
  destruct (process_file_ok_quiet file_id path text pieces s f Hq Hf Hext Hpre Hch Hall)
    as (cs & es & s' & Hrun & _ & Hc & Hv & Hnum & Htxt & _ & Hfid & _).
  exists s'. split; [exact Hrun|]. rewrite Hc, Hv.
  unfold after_deletion; session_simpl.
  rewrite (chunks_of_after_run file_id file_id "Embedded"
             (mark file_id "Processing" (view s)) _ cs _ Hfid).
  split; [exact Hnum|]. split; [exact Htxt|].
  now rewrite <- Htxt, length_map.
Qed.

(** *** Which chunks have an embedding *)

Lemma provider_outcomes_length (texts : list string) (g : G) :
  length (provider_outcomes texts g) = length texts.
Proof.
  revert g. induction texts as [|text rest IH]; intros g; simpl; [reflexivity|].
  now rewrite IH.
Qed.

Lemma select_map {A B : Type} (h : A -> B) (flags : list bool) (l : list A) :
  map h (select flags l) = select flags (map h l).
Proof.
  revert l. induction flags as [|[|] flags IH]; intros [|x l]; simpl;
    try reflexivity; now rewrite IH.
Qed.

Lemma existsb_chunk_id (x : UUID) (es : list (Embedding num)) :
  existsb (fun e => N.eqb (e_chunk_id e) x) es
  = existsb (fun y => N.eqb y x) (map e_chunk_id es).
Proof. induction es as [|e es IH]; simpl; [reflexivity | now rewrite IH]. Qed.

Lemma existsb_uuid_source (k : nat) (l : list nat) :
  (forall a b : nat, uuid_source a = uuid_source b -> a = b) ->
  existsb (fun y => N.eqb y (uuid_source k)) (map uuid_source l)
  = existsb (fun j => Nat.eqb j k) l.
Proof.
  intros Hinj. induction l as [|j l IH]; simpl; [reflexivity|].
  rewrite IH. f_equal.
  destruct (Nat.eqb j k) eqn:E.
  - apply Nat.eqb_eq in E. subst. apply N.eqb_refl.
  - apply N.eqb_neq. intros H. apply Hinj in H. apply Nat.eqb_neq in E. contradiction.
Qed.

(** Among increasing draws, the ones selected are at the positions of the
    flags. *)
Lemma select_flags (kc : list nat) :
  forall flags : list bool,
    StronglySorted lt kc ->
    length flags = length kc ->
    map (fun k => existsb (fun j => Nat.eqb j k) (select flags kc)) kc = flags.
Proof.
  induction kc as [|k kc IH]; intros [|fl flags] Hs Hlen; try discriminate;
    [reflexivity|].
  inversion Hs as [|? ? Hs' Hk]; subst. injection Hlen as Hlen.
  rewrite Forall_forall in Hk.
  assert (existsb (fun j => Nat.eqb j k) (select flags kc) = false) as Hnot.
  { destruct (existsb _ (select flags kc)) eqn:E; [|reflexivity].
    apply existsb_exists in E. destruct E as (j & Hj & E).
    apply Nat.eqb_eq in E. subst j.
    apply select_incl in Hj. specialize (Hk k Hj). lia. }
  assert (map (fun k0 => existsb (fun j => Nat.eqb j k0) (select (fl :: flags) (k :: kc))) kc
          = map (fun k0 => existsb (fun j => Nat.eqb j k0) (select flags kc)) kc) as Htail.
  { apply map_ext_in. intros k0 Hk0. destruct fl; simpl; [|reflexivity].
    replace (Nat.eqb k k0) with false; [reflexivity|].
    symmetry. apply Nat.eqb_neq. specialize (Hk k0 Hk0). lia. }
  cbn [map]. rewrite Htail, (IH flags Hs' Hlen). f_equal.
  destruct fl; simpl; [now rewrite Nat.eqb_refl | exact Hnot].
Qed.

(** The chunks of a loop that have an embedding row are those on which the
    provider gave a vector, when [uuid4] does not repeat a value and no
    embedding that was there refers to a value it had yet to give. *)
Lemma embedded_outcomes file_id (i : nat) (texts : list string) (g : G) (d : nat)
    (cs : list Chunk) (es old : list (Embedding num)) (kc : list nat) :
  loop_rows file_id i texts g d cs es kc ->
  (forall a b : nat, uuid_source a = uuid_source b -> a = b) ->
  (forall (k : nat) e, d <= k -> In e old -> e_chunk_id e <> uuid_source k) ->
  embedded (old ++ es) cs = provider_outcomes (map c_text cs) g.
Proof.
  unfold_loop_rows. intros (_ & _ & _ & _ & Hkc & Hke & Hsc & Hfc) Hinj Hfresh.
  assert (length (provider_outcomes (map c_text cs) g) = length kc) as Hlen.
  { rewrite provider_outcomes_length, length_map.
    apply (f_equal (@length UUID)) in Hkc. now rewrite !length_map in Hkc. }
  rewrite <- (select_flags kc _ Hsc Hlen) at 1.
  unfold embedded.
  rewrite <- (map_map c_id (fun x => existsb (fun e => N.eqb (e_chunk_id e) x) (old ++ es))).
  rewrite Hkc, map_map. apply map_ext_in. intros k Hk.
  rewrite existsb_app.
  replace (existsb (fun e => N.eqb (e_chunk_id e) (uuid_source k)) old) with false.
  - cbn [orb]. rewrite existsb_chunk_id, Hke. now apply existsb_uuid_source.
  - symmetry. destruct (existsb _ old) eqn:E; [|reflexivity].
    apply existsb_exists in E. destruct E as (e & He & E). apply N.eqb_eq in E.
    rewrite Forall_forall in Hfc.
    now destruct (Hfresh k e (Hfc k Hk) He).
Qed.

(** C3. Whatever the provider does for a chunk (a vector, [None], an
    exception), the run goes on. With a database that does not fail and a
    chunker and a token counter that return, every piece of the chunker's
    output is persisted, numbered in order, and the status ends as
    [Embedded]. The embedding rows the run adds are one for each chunk on
    which the provider gave a vector, referring to that chunk, and none for
    the others; and when [uuid4] does not repeat a value and no embedding
    already there refers to a value it has yet to give, the chunks of the
    file that have an embedding row are exactly those. *)
Theorem process_file_survives_provider file_id (path text : string)
    (pieces : list string) s (f : File) :
  faults s = [] ->
  find_file file_id (view s) = Some f ->
  extract_text_from_file path = Ok text ->
  startswith "Error:" text = false ->
  chunk_text text = Ok pieces ->
  all_counted pieces = true ->
  exists s' (new_embeddings : list (Embedding num)),
    process_file file_id path s = (Ok tt, s')
    /\ status_of file_id (committed s') = Some "Embedded"
    /\ map c_text (chunks_of file_id (committed s')) = pieces
    /\ map c_chunk_number (chunks_of file_id (committed s'))
       = seq 1 (length pieces)
    /\ embeddings (committed s')
       = (embeddings (purge file_id (view s)) ++ new_embeddings)%list
    /\ map e_chunk_id new_embeddings
       = select (provider_outcomes pieces (provider s))
           (map c_id (chunks_of file_id (committed s')))
    /\ ((forall a b : nat, uuid_source a = uuid_source b -> a = b) ->
        (forall (k : nat) e,
            uuids_drawn s <= k -> In e (embeddings (view s)) ->
            e_chunk_id e <> uuid_source k) ->
        embedded (embeddings (committed s')) (chunks_of file_id (committed s'))
        = provider_outcomes pieces (provider s)).
Proof.
  intros Hq Hf Hext Hpre Hch Hall.
  destruct (process_file_chunked_quiet file_id path text pieces s f Hq Hf Hext Hpre Hch)
    as (cs & es & kc & status & s' & Hrun & _ & Hc & Hv & Hrows & Hst).
  destruct Hst as [[-> Hlen] | [_ (piece & e & Hnth & He)]].
  2:{ exfalso. apply (all_counted_In pieces piece e Hall); [|exact He].
      now apply nth_error_In with (n := length cs). }
  pose proof (loop_rows_own _ _ _ _ _ _ _ _ Hrows) as Hfid.
  assert (chunks_of file_id (committed s') = cs) as Hchunks.
  { rewrite Hc, Hv.
    exact (chunks_of_after_run file_id file_id "Embedded"
             (mark file_id "Processing" (view s)) _ cs _ Hfid). }
  assert (embeddings (committed s') = (embeddings (purge file_id (view s)) ++ es)%list)
    as Hembs by (rewrite Hc, Hv; reflexivity).
  assert (map c_text cs = pieces) as Htxt.
  { destruct Hrows as (_ & Htxt & _). rewrite Htxt, Hlen. apply firstn_all. }
  exists s', es. split; [exact Hrun|]. rewrite Hchunks, Hembs.
  split.
  { rewrite Hc, Hv. eapply status_of_mark.
    exact (find_file_after_deletion file_id s f Hf). }
  split; [exact Htxt|].
  split. { destruct Hrows as (Hnum & _). now rewrite Hnum, Hlen. }
  split; [reflexivity|].
  split.
  { destruct Hrows as (_ & _ & _ & _ & Hkc & Hke & _).
    now rewrite Hke, Hkc, Htxt, select_map. }
  intros Hinj Hfresh. rewrite <- Htxt.
  apply (embedded_outcomes file_id 0 pieces (provider s) (uuids_drawn s) cs es _ kc
           Hrows Hinj).
  intros k e0 Hk He0. apply (Hfresh k e0 Hk).
  unfold purge in He0; cbn [embeddings] in He0. apply filter_In in He0. tauto.
Qed.

(** C2. Reprocessing a file the database knows, with a database that does not
    fail and tables in which the foreign key holds: the deletion phase removes
    the embeddings of the file's chunks and then the chunks, and the database
    accepts it (it would refuse the chunks while an embedding referred to
    one, see [delete_chunks_refused]); after it no embedding refers to a
    deleted chunk. The run then returns, the foreign key holds again, and the
    chunk rows of the file are numbered 1..N', N' being their number: the
    rows of the chunker's pieces, of all of them when the token counter
    returns on each. *)
Theorem re_process_file_replaces file_id (path : string) s (f : File) :
  faults s = [] ->
  find_file file_id (view s) = Some f ->
  orphan_free (view s) = true ->
  exists s1 s',
    delete_existing file_id s = (Ok tt, s1)
    /\ chunks_of file_id (view s1) = []
    /\ (forall e, In e (embeddings (view s1)) ->
                  ~ In (e_chunk_id e) (map c_id (chunks_of file_id (view s))))
    /\ orphan_free (view s1) = true
    /\ re_process_file file_id path s = (Ok tt, s')
    /\ committed s' = view s'
    /\ orphan_free (view s') = true
    /\ map c_chunk_number (chunks_of file_id (view s'))
       = seq 1 (length (chunks_of file_id (view s')))
    /\ match extract_text_from_file path with
       | Ok text =>
           if startswith "Error:" text then chunks_of file_id (view s') = []
           else
             match chunk_text text with
             | Ok pieces =>
                 map c_text (chunks_of file_id (view s'))
                 = firstn (length (chunks_of file_id (view s'))) pieces
                 /\ (all_counted pieces = true ->
                     map c_text (chunks_of file_id (view s')) = pieces)
             | Raise _ => chunks_of file_id (view s') = []
             end
       | Raise _ => chunks_of file_id (view s') = []
       end.
Proof.
  intros Hq Hf Horph.
  pose (s1 := set_view (purge file_id (view s)) s).
  pose (s2 := set_committed (view s1) s1).
  assert (forall s', process_file file_id path s2 = (Ok tt, s') ->
                     re_process_file file_id path s = (Ok tt, s')) as Hre.
  { intros s' Hrun. unfold_re_process_file. unfold_re_process_file_try.
    rewrite (bind_ok _ _ _ _ _ (query_file_quiet file_id s Hq)), Hf.
    rewrite (bind_ok _ _ _ _ _ (delete_existing_quiet file_id s Hq)).
    rewrite (bind_ok _ _ _ _ _ (commit_quiet s1 Hq)).
    fold s2. now rewrite Hrun. }
  assert (faults s2 = []) as Hq2 by exact Hq.
  assert (find_file file_id (view s2) = Some f) as Hf2 by exact Hf.
  assert (orphan_free (view (after_deletion file_id s2)) = true) as Horph2.
  { unfold after_deletion; session_simpl.
    apply orphan_free_purge.
    change (orphan_free (purge file_id (view s)) = true).
    now apply orphan_free_purge. }
  exists s1.
  assert (exists s',
             process_file file_id path s2 = (Ok tt, s')
             /\ committed s' = view s'
             /\ orphan_free (view s') = true
             /\ map c_chunk_number (chunks_of file_id (view s'))
                = seq 1 (length (chunks_of file_id (view s')))
             /\ match extract_text_from_file path with
                | Ok text =>
                    if startswith "Error:" text then chunks_of file_id (view s') = []
                    else
                      match chunk_text text with
                      | Ok pieces =>
                          map c_text (chunks_of file_id (view s'))
                          = firstn (length (chunks_of file_id (view s'))) pieces
                          /\ (all_counted pieces = true ->
                              map c_text (chunks_of file_id (view s')) = pieces)
                      | Raise _ => chunks_of file_id (view s') = []
                      end
                | Raise _ => chunks_of file_id (view s') = []
                end) as (s' & Hrun & Hc & Ho & Hnum & Htexts).
  { destruct (extract_text_from_file path) as [text|e] eqn:Hext;
      [destruct (startswith "Error:" text) eqn:Hpre;
       [|destruct (chunk_text text) as [pieces|e] eqn:Hch]|].
    - exists (failed_run file_id s2).
      split. { apply (process_file_error_quiet file_id path s2 f Hq2 Hf2).
               now rewrite Hext. }
      split; [reflexivity|]. split; [exact Horph2|].
      rewrite chunks_of_failed_run. now split.
    - destruct (process_file_chunked_quiet file_id path text pieces s2 f Hq2 Hf2
                  Hext Hpre Hch)
        as (cs & es & kc & status & s' & Hrun & _ & Hc & Hv & Hrows & Hst).
      pose proof (loop_rows_refer _ _ _ _ _ _ _ _ Hrows) as Hemb.
      pose proof (loop_rows_own _ _ _ _ _ _ _ _ Hrows) as Hfid.
      assert (chunks_of file_id (view s') = cs) as Hchunks.
      { rewrite Hv.
        exact (chunks_of_after_run file_id file_id status
                 (mark file_id "Processing" (view s2)) _ cs _ Hfid). }
      destruct Hrows as (Hnum & Htxt & _).
      exists s'. split; [exact Hrun|]. split; [exact Hc|]. split.
      + rewrite Hv. unfold mark; cbn [files chunks embeddings].
        apply orphan_free_extend with (fs := files (view (after_deletion file_id s2))).
        * exact Horph2.
        * eapply Forall_impl; [|exact Hemb]. now intros e [_ H].
      + rewrite Hchunks. split; [exact Hnum|]. split; [exact Htxt|].
        intros Hall. destruct Hst as [[_ Hlen] | [_ (piece & e & Hnth & He)]].
        * rewrite Htxt, Hlen. apply firstn_all.
        * exfalso. apply (all_counted_In pieces piece e Hall); [|exact He].
          now apply nth_error_In with (n := length cs).
    - exists (failed_run file_id s2).
      split. { now apply (process_file_chunker_raises_quiet file_id path text e s2 f). }
      split; [reflexivity|]. split; [exact Horph2|].
      rewrite chunks_of_failed_run. now split.
    - exists (failed_run file_id s2).
      split. { apply (process_file_error_quiet file_id path s2 f Hq2 Hf2).
               now rewrite Hext. }
      split; [reflexivity|]. split; [exact Horph2|].
      rewrite chunks_of_failed_run. now split. }
  exists s'. split; [apply (delete_existing_quiet file_id s Hq)|].
  split; [apply chunks_of_purge|].
  split; [intros e He; now apply (purge_no_reference file_id (view s))|].
  split; [now apply orphan_free_purge|].
  split; [now apply Hre|].
  repeat split; assumption.
Qed.

(** *** What every run preserves, failures of the database included *)

Lemma preserves_ret {A : Type} (P : Session num G -> Prop) (a : A) :
  preserves P (ret a).
Proof. intros s r s' H HP. unfold ret in H. now injection H as <- <-. Qed.

Lemma preserves_bind {A B : Type} (P : Session num G -> Prop)
    (m : M num G A) (k : A -> M num G B) :
  preserves P m -> (forall a, preserves P (k a)) -> preserves P (bind m k).
Proof.
  intros Hm Hk s r s' H HP. unfold bind in H.
  destruct (m s) as [[a|e] s1] eqn:E.
  - exact (Hk a s1 r s' H (Hm s _ s1 E HP)).
  - injection H as <- <-. exact (Hm s _ s1 E HP).
Qed.

Lemma preserves_try_except {A : Type} (P : Session num G -> Prop)
    (m : M num G A) (h : exn -> M num G A) :
  preserves P m -> (forall e, preserves P (h e)) -> preserves P (try_except m h).
Proof.
  intros Hm Hh s r s' H HP. unfold try_except in H.
  destruct (m s) as [[a|e] s1] eqn:E.
  - injection H as <- <-. exact (Hm s _ s1 E HP).
  - exact (Hh e s1 r s' H (Hm s _ s1 E HP)).
Qed.

(** A call that does not touch the session. *)
Lemma preserves_pure {A : Type} (P : Session num G -> Prop) (r : result A) :
  preserves P (fun s => (r, s)).
Proof. intros s r0 s' H HP. now injection H as <- <-. Qed.

Section OnlyAda.

Variable old : Embedding num -> Prop.

Lemma only_ada_step s s' :
  (forall e, In e (embeddings (view s')) ->
             In e (embeddings (view s)) \/ e_embedding_model e = ADA_002) ->
  (forall e, In e (embeddings (committed s')) ->
             In e (embeddings (committed s)) \/ In e (embeddings (view s))) ->
  only_ada old s -> only_ada old s'.
Proof.
  intros Hv Hc HP e [He|He].
  - destruct (Hv e He) as [H|H]; [apply HP; now left | now right].
  - destruct (Hc e He) as [H|H]; apply HP; [now right | now left].
Qed.

Ltac same_rows :=
  let e := fresh "e" in let He := fresh "He" in
  apply only_ada_step; session_simpl; intros e He; auto.

Lemma preserves_db_call : preserves (@only_ada num G old) db_call.
Proof.
  intros s r s' H. unfold db_call in H.
  destruct (faults s) as [|[|n] fs]; injection H as <- <-; same_rows.
Qed.

Lemma preserves_query_file file_id : preserves (@only_ada num G old) (query_file file_id).
Proof.
  apply preserves_bind; [apply preserves_db_call|].
  intros _ s r s' H. now injection H as <- <-.
Qed.

Lemma preserves_query_chunk_ids file_id :
  preserves (@only_ada num G old) (query_chunk_ids file_id).
Proof.
  apply preserves_bind; [apply preserves_db_call|].
  intros _ s r s' H. now injection H as <- <-.
Qed.

Lemma preserves_count_chunks file_id : preserves (@only_ada num G old) (count_chunks file_id).
Proof.
  apply preserves_bind; [apply preserves_db_call|].
  intros _ s r s' H. now injection H as <- <-.
Qed.

Lemma preserves_delete_embeddings_in (chunk_ids : list UUID) :
  preserves (@only_ada num G old) (delete_embeddings_in chunk_ids).
Proof.
  apply preserves_bind; [apply preserves_db_call|].
  intros _ s r s' H. injection H as <- <-. same_rows.
  apply filter_In in He. tauto.
Qed.

Lemma preserves_delete_chunks file_id : preserves (@only_ada num G old) (delete_chunks file_id).
Proof.
  apply preserves_bind; [apply preserves_db_call|].
  intros _ s r s' H. cbv beta zeta in H.
  destruct (existsb _ _); injection H as <- <-; [auto | same_rows].
Qed.

Lemma preserves_set_status file_id (status : string) :
  preserves (@only_ada num G old) (set_status file_id status).
Proof. intros s r s' H. injection H as <- <-. same_rows. Qed.

Lemma preserves_add_chunk (c : Chunk) : preserves (@only_ada num G old) (add_chunk c).
Proof. intros s r s' H. injection H as <- <-. same_rows. Qed.

Lemma preserves_add_embedding (e : Embedding num) :
  e_embedding_model e = ADA_002 -> preserves (@only_ada num G old) (add_embedding e).
Proof.
  intros Hm s r s' H. injection H as <- <-. same_rows.
  apply in_app_or in He. destruct He as [He|[<-|[]]]; auto.
Qed.

Lemma preserves_commit : preserves (@only_ada num G old) commit.
Proof.
  apply preserves_bind; [apply preserves_db_call|].
  intros _ s r s' H. injection H as <- <-. same_rows.
Qed.

Lemma preserves_uuid4 : preserves (@only_ada num G old) (uuid4 uuid_source).
Proof. intros s r s' H. injection H as <- <-. same_rows. Qed.

Lemma preserves_call_provider (text : string) :
  preserves (@only_ada num G old) (call_provider embed text).
Proof.
  intros s r s' H. unfold call_provider in H.
  destruct (embed text (provider s)) as [r0 g]. injection H as <- <-. same_rows.
Qed.

Lemma preserves_embed_chunk file_id (i : nat) (text : string) (counters : nat * nat) :
  preserves (@only_ada num G old) (embed_chunk file_id i text counters).
Proof.
  destruct counters as [a b]. unfold_embed_chunk.
  apply preserves_bind; [apply preserves_pure | intros token_count].
  apply preserves_bind; [apply preserves_uuid4 | intros id].
  apply preserves_bind; [apply preserves_add_chunk | intros _].
  apply preserves_bind; [apply preserves_db_call | intros _].
  apply preserves_try_except; [|intros _; apply preserves_ret].
  apply preserves_bind; [apply preserves_call_provider | intros v].
  destruct (truthy_vector v) as [v'|]; [|apply preserves_ret].
  apply preserves_bind; [apply preserves_uuid4 | intros eid].
  apply preserves_bind; [now apply preserves_add_embedding | intros _].
  apply preserves_ret.
Qed.

Lemma preserves_embed_chunks file_id (texts : list string) :
  forall (i : nat) (counters : nat * nat),
    preserves (@only_ada num G old) (embed_chunks file_id i texts counters).
Proof.
  induction texts as [|text rest IH]; intros i counters.
  - apply preserves_ret.
  - intros s r s'. rewrite embed_chunks_cons. revert s r s'.
    apply preserves_bind; [apply preserves_embed_chunk | intros c; apply IH].
Qed.

Lemma preserves_delete_existing file_id :
  preserves (@only_ada num G old) (delete_existing file_id).
Proof.
  unfold delete_existing.
  apply preserves_bind; [apply preserves_query_chunk_ids | intros ids].
  apply preserves_bind.
  - destruct ids; [apply preserves_ret|].
    apply preserves_bind; [apply preserves_delete_embeddings_in|].
    intros _; apply preserves_ret.
  - intros _. apply preserves_bind; [apply preserves_delete_chunks|].
    intros _; apply preserves_ret.
Qed.

Lemma preserves_on_exception file_id : preserves (@only_ada num G old) (on_exception file_id).
Proof.
  unfold on_exception.
  apply preserves_bind; [apply preserves_query_file | intros [f|]];
    [|apply preserves_ret].
  apply preserves_bind; [apply preserves_set_status | intros _; apply preserves_commit].
Qed.

Lemma preserves_process_file file_id (path : string) :
  preserves (@only_ada num G old) (process_file file_id path).
Proof.
  unfold_process_file. fold (@try_except num G unit).
  apply preserves_try_except; [|intros _; apply preserves_on_exception].
  unfold_process_file_try.
  apply preserves_bind; [apply preserves_query_file | intros [f|]];
    [|apply preserves_ret].
  apply preserves_bind; [apply preserves_set_status | intros _].
  apply preserves_bind; [apply preserves_commit | intros _].
  apply preserves_bind; [apply preserves_delete_existing | intros _].
  apply preserves_bind.
  { intros s r s' H. now injection H as <- <-. }
  intros text. destruct (startswith "Error:" text).
  { apply preserves_bind; [apply preserves_set_status | intros _; apply preserves_commit]. }
  apply preserves_bind; [apply preserves_pure | intros pieces].
  apply preserves_bind; [apply preserves_count_chunks | intros n].
  apply preserves_bind.
  { destruct (0 <? n)%nat; [|apply preserves_ret].
    apply preserves_bind; [apply preserves_delete_chunks | intros _; apply preserves_commit]. }
  intros _.
  apply preserves_bind; [apply preserves_embed_chunks | intros _].
  apply preserves_bind; [apply preserves_commit | intros _].
  apply preserves_bind; [apply preserves_set_status | intros _; apply preserves_commit].
Qed.

End OnlyAda.

(** C9. Every embedding row of the session after a run of [process_file],
    pending or committed, either was there before the run or records the
    model name ["text-embedding-ada-002"]: whatever the provider is (the mock
    strategy included, see [mock_embeddings_record_ada]) and whether or not
    the database fails. *)
Theorem persisted_embeddings_record_ada file_id (path : string) s
    (e : Embedding num) :
  In e (embeddings (view (snd (process_file file_id path s))))
  \/ In e (embeddings (committed (snd (process_file file_id path s)))) ->
  (In e (embeddings (view s)) \/ In e (embeddings (committed s)))
  \/ e_embedding_model e = "text-embedding-ada-002".
Proof.
  intros He.
  destruct (process_file file_id path s) as [r s'] eqn:Hrun.
  pose (old := fun x : Embedding num =>
                 In x (embeddings (view s)) \/ In x (embeddings (committed s))).
  assert (only_ada old s) as H0 by (intros x Hx; left; exact Hx).
  exact (preserves_process_file old file_id path s r s' Hrun H0 e He).
Qed.

(** C10. When the database has no row for the file, [process_file] changes
    neither the tables the session sees nor the committed ones, draws no
    identifier and does not call the provider; it returns normally, unless the
    lookup fails and the lookup of the handler fails after it. *)
Theorem process_file_unknown_file file_id (path : string) s :
  find_file file_id (view s) = None ->
  view (snd (process_file file_id path s)) = view s
  /\ committed (snd (process_file file_id path s)) = committed s
  /\ uuids_drawn (snd (process_file file_id path s)) = uuids_drawn s
  /\ provider (snd (process_file file_id path s)) = provider s
  /\ ((forall fs, faults s <> 0%nat :: 0%nat :: fs) ->
      fst (process_file file_id path s) = Ok tt).
Proof.
  intros Hf. unfold_process_file. unfold_process_file_try.
  unfold on_exception, query_file, bind, db_call, ret.
  destruct s as [v c fs d g]. session_simpl.
  destruct fs as [|[|n] fs]; session_simpl; rewrite ?Hf; session_simpl.
  - repeat split; reflexivity.
  - destruct fs as [|[|m] fs]; session_simpl; rewrite ?Hf; session_simpl;
      repeat split; try reflexivity.
    intros H. exfalso. now apply (H fs).
  - repeat split; reflexivity.
Qed.

Lemma db_call_raises s (e : exn) s' :
  db_call s = (Raise e, s') -> e = DatabaseError.
Proof.
  unfold db_call. destruct (faults s) as [|[|n] fs]; intros H;
    try discriminate. now injection H as <- _.
Qed.

Lemma on_exception_raises file_id s (e : exn) s' :
  on_exception file_id s = (Raise e, s') -> e = DatabaseError.
Proof.
  unfold on_exception, query_file, commit, set_status, bind, ret.
  destruct (db_call s) as [[[]|e1] s1] eqn:E1.
  - destruct (find_file file_id (view s1)); [|discriminate].
    match goal with |- context [db_call ?x] => destruct (db_call x) as [[[]|e2] s2] eqn:E2 end.
    + discriminate.
    + intros H. injection H as <- _. exact (db_call_raises _ _ _ E2).
  - intros H. injection H as <- _. exact (db_call_raises _ _ _ E1).
Qed.

(** C5, as amended. An exception leaves [process_file] only when the handler
    raises it: the [try] block raised, and then a database call of the
    handler, its lookup or its commit, failed. When the [try] block raises and
    the database does not fail again, the handler writes the status [Error]
    of the file and commits it, and [process_file] returns. *)
Theorem process_file_raises_only_in_handler file_id (path : string) s :
  (forall (e : exn) s',
      process_file file_id path s = (Raise e, s') ->
      e = DatabaseError
      /\ exists (e0 : exn) s1,
          process_file_try file_id path s = (Raise e0, s1)
          /\ on_exception file_id s1 = (Raise e, s'))
  /\ (forall (e0 : exn) s1 (f : File),
        process_file_try file_id path s = (Raise e0, s1) ->
        faults s1 = [] ->
        find_file file_id (view s1) = Some f ->
        exists s',
          process_file file_id path s = (Ok tt, s')
          /\ status_of file_id (committed s') = Some "Error").
Proof.
  split.
  - intros e s'. unfold_process_file.
    destruct (process_file_try file_id path s) as [[[]|e0] s1]; [discriminate|].
    intros H. split; [exact (on_exception_raises _ _ _ _ H)|].
    now exists e0, s1.
  - intros e0 s1 f Hrun Hq Hf. unfold_process_file. rewrite Hrun.
    rewrite (on_exception_quiet file_id s1 f Hq Hf).
    eexists. split; [reflexivity|]. session_simpl.
    exact (status_of_mark _ _ _ _ Hf).
Qed.

(** *** A parser that raises *)

Lemma extract_pdf_failure (path message : string) :
  lower (snd (splitext path)) = ".pdf" ->
  pdf_pages path = ParseFailure message ->
  extract_text_from_file path = Ok ("Error extracting text from PDF: " ++ message)%string.
Proof. intros Hext Hpdf. unfold_extract. now rewrite Hext, Hpdf. Qed.

Lemma extract_unsupported (path : string) :
  let ext := lower (snd (splitext path)) in
  String.eqb ext ".txt" = false -> String.eqb ext ".pdf" = false ->
  String.eqb ext ".docx" = false -> String.eqb ext ".doc" = false ->
  extract_text_from_file path = Ok ("Error: Unsupported file type " ++ ext)%string.
Proof. intros ext H1 H2 H3 H4. unfold_extract. fold ext. now rewrite H1, H2, H3, H4. Qed.

(** The defect behind C1: a PDF the parser raises on is not an extraction
    failure for [process_file]. The message is chunked and embedded, as a
    text would be, and the status ends as [Embedded]. *)
Lemma process_file_parser_failure file_id (path message : string)
    (pieces : list string) s (f : File) :
  faults s = [] ->
  find_file file_id (view s) = Some f ->
  lower (snd (splitext path)) = ".pdf" ->
  pdf_pages path = ParseFailure message ->
  chunk_text ("Error extracting text from PDF: " ++ message)%string = Ok pieces ->
  all_counted pieces = true ->
  exists s',
    process_file file_id path s = (Ok tt, s')
    /\ status_of file_id (committed s') = Some "Embedded"
    /\ map c_text (chunks_of file_id (committed s')) = pieces.
Proof.
  intros Hq Hf Hext Hpdf Hch Hall.
  pose proof (extract_pdf_failure path message Hext Hpdf) as Hx.
  destruct (process_file_ok_quiet file_id path _ pieces s f Hq Hf Hx
              (startswith_error_extracting _) Hch Hall)
    as (cs & es & s' & Hrun & _ & Hc & Hv & _ & Htxt & _ & Hfid & _).
  exists s'. split; [exact Hrun|]. rewrite Hc, Hv. split.
  - eapply status_of_mark. exact (find_file_after_deletion file_id s f Hf).
  - unfold after_deletion; session_simpl.
    now rewrite (chunks_of_after_run file_id file_id "Embedded"
                   (mark file_id "Processing" (view s)) _ cs _ Hfid).
Qed.

(** *** More on the extraction and on whole runs *)

(** X1. [extract_text_from_file] raises only from reading a [.txt] file: what
    the PDF and DOCX libraries raise, their absence and an unknown extension
    all come back as a returned text. *)
Theorem extract_text_raises_only_on_read (path : string) (e : exn) :
  extract_text_from_file path = Raise e ->
  lower (snd (splitext path)) = ".txt" /\ open_read path = Raise e.
Proof.
  unfold_extract.
  destruct (String.eqb (lower (snd (splitext path))) ".txt") eqn:Etxt.
  { intros H. split; [now apply String.eqb_eq | exact H]. }
  destruct (String.eqb (lower (snd (splitext path))) ".pdf").
  { destruct (pdf_pages path); discriminate. }
  destruct (String.eqb (lower (snd (splitext path))) ".docx"
            || String.eqb (lower (snd (splitext path))) ".doc").
  { destruct (docx_paragraphs path); discriminate. }
  discriminate.
Qed.

(** The failures of the extraction that [process_file] recognises, by their
    cause. *)
Lemma extract_detected_failure (path : string) :
  (let ext := lower (snd (splitext path)) in
   (ext = ".txt" /\ exists e, open_read path = Raise e)
   \/ (ext = ".pdf" /\ pdf_pages path = NotInstalled)
   \/ ((ext = ".docx" \/ ext = ".doc") /\ docx_paragraphs path = NotInstalled)
   \/ (ext <> ".txt" /\ ext <> ".pdf" /\ ext <> ".docx" /\ ext <> ".doc")) ->
  match extract_text_from_file path with
  | Raise _ => True
  | Ok text => startswith "Error:" text = true
  end.
Proof.
  cbv zeta. unfold_extract.
  intros [[E [e He]] | [[E Hp] | [[E Hd] | (N1 & N2 & N3 & N4)]]].
  - rewrite E. simpl. now rewrite He.
  - rewrite E. simpl. now rewrite Hp.
  - destruct E as [E|E]; rewrite E; simpl; now rewrite Hd.
  - apply String.eqb_neq in N1, N2, N3, N4. now rewrite N1, N2, N3, N4.
Qed.

(** X2. The extraction failures [process_file] recognises, by cause: a [.txt]
    file that cannot be read, a PDF or Word file whose library is not
    installed, an extension that is none of [.txt], [.pdf], [.docx], [.doc]
    (compared in lower case). With a database that does not fail, each ends
    the run with the status [Error] committed and no chunk row for the file. *)
Theorem process_file_detected_failure file_id (path : string) s (f : File) :
  faults s = [] ->
  find_file file_id (view s) = Some f ->
  (let ext := lower (snd (splitext path)) in
   (ext = ".txt" /\ exists e, open_read path = Raise e)
   \/ (ext = ".pdf" /\ pdf_pages path = NotInstalled)
   \/ ((ext = ".docx" \/ ext = ".doc") /\ docx_paragraphs path = NotInstalled)
   \/ (ext <> ".txt" /\ ext <> ".pdf" /\ ext <> ".docx" /\ ext <> ".doc")) ->
  exists s',
    process_file file_id path s = (Ok tt, s')
    /\ committed s' = view s'
    /\ status_of file_id (committed s') = Some "Error"
    /\ chunks_of file_id (committed s') = [].
Proof.
  intros Hq Hf Hcause. exists (failed_run file_id s).
  split.
  { apply (process_file_error_quiet file_id path s f Hq Hf).
    now apply extract_detected_failure. }
  split; [reflexivity|].
  split; [now apply (status_of_failed_run file_id s f) | apply chunks_of_failed_run].
Qed.

(** The loop went through all the texts: the token counter returned on
    each. *)
Lemma loop_rows_counted file_id (i : nat) (texts : list string) (g : G) (d : nat)
    (cs : list Chunk) (es : list (Embedding num)) (kc : list nat) :
  loop_rows file_id i texts g d cs es kc ->
  length cs = length texts ->
  all_counted texts = true.
Proof.
  unfold_loop_rows. intros (_ & Htxt & Hown & _) Hlen.
  rewrite Hlen, firstn_all in Htxt.
  unfold_all_counted. rewrite forallb_forall. intros text Hin.
  rewrite <- Htxt in Hin. apply in_map_iff in Hin. destruct Hin as (c & <- & Hc).
  rewrite Forall_forall in Hown. destruct (Hown c Hc) as [_ ->]. reflexivity.
Qed.

(** How a run on a file the database knows ends when the database does not
    fail. *)
Lemma process_file_outcome file_id (path : string) s (f : File) :
  faults s = [] ->
  find_file file_id (view s) = Some f ->
  exists s',
    process_file file_id path s = (Ok tt, s')
    /\ faults s' = []
    /\ committed s' = view s'
    /\ (status_of file_id (committed s') = Some "Error"
        \/ status_of file_id (committed s') = Some "Embedded")
    /\ (status_of file_id (committed s') = Some "Error"
        <-> match extract_text_from_file path with
            | Raise _ => True
            | Ok text =>
                startswith "Error:" text = true
                \/ match chunk_text text with
                   | Raise _ => True
                   | Ok pieces => all_counted pieces = false
                   end
            end).
Proof.
  intros Hq Hf.
  assert (faults (failed_run file_id s) = []) as Hqf by exact Hq.
  pose proof (status_of_failed_run file_id s f Hf) as Hstf.
  destruct (extract_text_from_file path) as [text|e] eqn:Hx;
    [destruct (startswith "Error:" text) eqn:Hpre;
     [|destruct (chunk_text text) as [pieces|e] eqn:Hch]|].
  - exists (failed_run file_id s).
    split. { apply (process_file_error_quiet file_id path s f Hq Hf). now rewrite Hx. }
    split; [exact Hqf|]. split; [reflexivity|]. split; [now left|].
    split; [intros _; now left | intros _; exact Hstf].
  - destruct (process_file_chunked_quiet file_id path text pieces s f Hq Hf Hx Hpre Hch)
      as (cs & es & kc & status & s' & Hrun & Hq' & Hc & Hv & Hrows & Hst).
    assert (status_of file_id (committed s') = Some status) as Hstatus.
    { rewrite Hc, Hv. eapply status_of_mark.
      exact (find_file_after_deletion file_id s f Hf). }
    exists s'. split; [exact Hrun|]. split; [exact Hq'|]. split; [exact Hc|].
    rewrite Hstatus.
    destruct Hst as [[-> Hlen] | [-> (piece & e & Hnth & He)]].
    + split; [now right|]. split; [discriminate|].
      intros [H|H]; [discriminate|].
      rewrite (loop_rows_counted _ _ _ _ _ _ _ _ Hrows Hlen) in H. discriminate.
    + split; [now left|]. split; [|reflexivity]. intros _. right.
      destruct (all_counted pieces) eqn:Hall; [|reflexivity].
      exfalso. apply (all_counted_In pieces piece e Hall); [|exact He].
      now apply nth_error_In with (n := length cs).
  - exists (failed_run file_id s).
    split. { now apply (process_file_chunker_raises_quiet file_id path text e s f). }
    split; [exact Hqf|]. split; [reflexivity|]. split; [now left|].
    split; [intros _; now right | intros _; exact Hstf].
  - exists (failed_run file_id s).
    split. { apply (process_file_error_quiet file_id path s f Hq Hf). now rewrite Hx. }
    split; [exact Hqf|]. split; [reflexivity|]. split; [now left|].
    split; [intros _; exact I | intros _; exact Hstf].
Qed.

(** X3. A run that meets no database failure never leaves the file in
    [Processing]: the committed status is [Error] or [Embedded], and it is
    [Error] exactly when the extraction raised or returned a text that starts
    with [Error:], or the chunker raised on the text, or the token counter
    raised on one of the chunker's pieces. *)
Theorem process_file_final_status file_id (path : string) s (f : File) :
  faults s = [] ->
  find_file file_id (view s) = Some f ->
  exists s',
    process_file file_id path s = (Ok tt, s')
    /\ committed s' = view s'
    /\ (status_of file_id (committed s') = Some "Error"
        \/ status_of file_id (committed s') = Some "Embedded")
    /\ (status_of file_id (committed s') = Some "Error"
        <-> match extract_text_from_file path with
            | Raise _ => True
            | Ok text =>
                startswith "Error:" text = true
                \/ match chunk_text text with
                   | Raise _ => True
                   | Ok pieces => all_counted pieces = false
                   end
            end).
Proof.
  intros Hq Hf.
  destruct (process_file_outcome file_id path s f Hq Hf)
    as (s' & Hrun & _ & Hc & Hst & Hiff).
  exists s'. split; [exact Hrun|]. split; [exact Hc|]. split; [exact Hst | exact Hiff].
Qed.

(** X4. [re_process_file] on an identifier the database has no row for changes
    nothing: the tables, pending and committed, stay as they are, no
    identifier is drawn and the provider is not called. It returns normally
    unless the lookup fails and the lookup of the handler fails after it. *)
Theorem re_process_file_unknown_file file_id (path : string) s :
  find_file file_id (view s) = None ->
  view (snd (re_process_file file_id path s)) = view s
  /\ committed (snd (re_process_file file_id path s)) = committed s
  /\ uuids_drawn (snd (re_process_file file_id path s)) = uuids_drawn s
  /\ provider (snd (re_process_file file_id path s)) = provider s
  /\ ((forall fs, faults s <> 0%nat :: 0%nat :: fs) ->
      fst (re_process_file file_id path s) = Ok tt).
Proof.
  intros Hf. unfold_re_process_file. unfold_re_process_file_try.
  unfold on_exception, query_file, bind, db_call, ret.
  destruct s as [v c fs d g]. session_simpl.
  destruct fs as [|[|n] fs]; session_simpl; rewrite ?Hf; session_simpl.
  - repeat split; reflexivity.
  - destruct fs as [|[|m] fs]; session_simpl; rewrite ?Hf; session_simpl;
      repeat split; try reflexivity.
    intros H. exfalso. now apply (H fs).
  - repeat split; reflexivity.
Qed.

(** *** Reprocessing against processing *)

Lemma filter_idem {A : Type} (p : A -> bool) (l : list A) :
  filter p (filter p l) = filter p l.
Proof.
  apply filter_all. intros x Hx. apply filter_In in Hx. tauto.
Qed.

(** Deleting the rows of a file a second time deletes nothing. *)
Lemma purge_mark_purge file_id (status : string) t :
  purge file_id (mark file_id status (purge file_id t))
  = purge file_id (mark file_id status t).
Proof.
  unfold purge at 1 3. cbn [mark files chunks embeddings purge].
  f_equal.
  - apply filter_idem.
  - change (chunks_of file_id (mark file_id status (purge file_id t)))
      with (chunks_of file_id (purge file_id t)).
    rewrite chunks_of_purge. apply filter_all. reflexivity.
Qed.

(** What is committed plays no part in an iteration of the loop. *)
Lemma embed_chunk_set_committed file_id (i : nat) (text : string)
    (counters : nat * nat) (c : Tables num) s :
  embed_chunk file_id i text counters (set_committed c s)
  = (fst (embed_chunk file_id i text counters s),
     set_committed c (snd (embed_chunk file_id i text counters s))).
Proof.
  destruct counters as [a b]. destruct s as [v c0 fs d g].
  unfold_embed_chunk. unfold bind at 1 3 5.
  destruct (count_tokens text) as [n|e]; [|reflexivity].
  unfold bind, try_except, uuid4, add_chunk, flush, db_call,
    call_provider, add_embedding, ret. session_simpl.
  destruct fs as [|[|k] fs]; session_simpl; try reflexivity;
    destruct (embed text g) as [[[[|x xs]|]|e] g']; reflexivity.
Qed.

Lemma embed_chunks_set_committed file_id (texts : list string) :
  forall (i : nat) (counters : nat * nat) (c : Tables num) s,
    embed_chunks file_id i texts counters (set_committed c s)
    = (fst (embed_chunks file_id i texts counters s),
       set_committed c (snd (embed_chunks file_id i texts counters s))).
Proof.
  induction texts as [|text rest IH]; intros i counters c s; [reflexivity|].
  rewrite !embed_chunks_cons. unfold bind.
  rewrite embed_chunk_set_committed.
  destruct (embed_chunk file_id i text counters s) as [[cnt|e] s1]; simpl;
    [apply IH | reflexivity].
Qed.

(** A run does not depend on what was committed before it, nor on rows of
    the file that a deletion has already removed. *)
Lemma process_file_after_purge file_id (path : string) s (f : File) :
  faults s = [] ->
  find_file file_id (view s) = Some f ->
  process_file file_id path
    (set_committed (purge file_id (view s)) (set_view (purge file_id (view s)) s))
  = process_file file_id path s.
Proof.
  intros Hq Hf.
  set (s2 := set_committed (purge file_id (view s))
               (set_view (purge file_id (view s)) s)).
  assert (faults s2 = []) as Hq2 by exact Hq.
  assert (find_file file_id (view s2) = Some f) as Hf2 by exact Hf.
  assert (after_deletion file_id s2
          = set_committed (mark file_id "Processing" (purge file_id (view s)))
              (after_deletion file_id s)) as Hafter.
  { unfold after_deletion, s2, set_committed, set_view; session_simpl.
    now rewrite purge_mark_purge. }
  destruct (extract_text_from_file path) as [text|e] eqn:Hx;
    [destruct (startswith "Error:" text) eqn:Hpre;
     [|destruct (chunk_text text) as [pieces|e] eqn:Hch]|].
  - rewrite (process_file_error_quiet file_id path s2 f Hq2 Hf2)
      by now rewrite Hx.
    rewrite (process_file_error_quiet file_id path s f Hq Hf) by now rewrite Hx.
    unfold failed_run. now rewrite Hafter.
  - rewrite (process_file_chunked_run file_id path text pieces s2 f Hq2 Hf2 Hx Hpre Hch).
    rewrite (process_file_chunked_run file_id path text pieces s f Hq Hf Hx Hpre Hch).
    cbv zeta. rewrite Hafter, embed_chunks_set_committed. reflexivity.
  - rewrite (process_file_chunker_raises_quiet file_id path text e s2 f Hq2 Hf2 Hx Hpre Hch).
    rewrite (process_file_chunker_raises_quiet file_id path text e s f Hq Hf Hx Hpre Hch).
    unfold failed_run. now rewrite Hafter.
  - rewrite (process_file_error_quiet file_id path s2 f Hq2 Hf2)
      by now rewrite Hx.
    rewrite (process_file_error_quiet file_id path s f Hq Hf) by now rewrite Hx.
    unfold failed_run. now rewrite Hafter.
Qed.

(** A run on a file the database knows returns when the database does not
    fail. *)
Lemma process_file_final_run file_id (path : string) s (f : File) :
  faults s = [] ->
  find_file file_id (view s) = Some f ->
  exists s', process_file file_id path s = (Ok tt, s').
Proof.
  intros Hq Hf.
  destruct (process_file_outcome file_id path s f Hq Hf) as (s' & Hrun & _).
  now exists s'.
Qed.

(** X5. For a file the database knows and a database that does not fail,
    [re_process_file] ends exactly as [process_file] does from the same
    session: the same result, tables, identifiers drawn and provider state.
    The deletion it runs first is the one [process_file] runs anyway. *)
Theorem re_process_file_as_process_file file_id (path : string) s (f : File) :
  faults s = [] ->
  find_file file_id (view s) = Some f ->
  re_process_file file_id path s = process_file file_id path s.
Proof.
  intros Hq Hf.
  pose proof (process_file_after_purge file_id path s f Hq Hf) as Hsame.
  destruct (process_file_final_run file_id path s f Hq Hf) as [s' Hrun].
  unfold_re_process_file. unfold_re_process_file_try.
  rewrite (bind_ok _ _ _ _ _ (query_file_quiet file_id s Hq)), Hf.
  rewrite (bind_ok _ _ _ _ _ (delete_existing_quiet file_id s Hq)).
  rewrite (bind_ok _ _ _ _ _ (commit_quiet (set_view (purge file_id (view s)) s) Hq)).
  cbn [view set_view]. rewrite Hsame, Hrun. reflexivity.
Qed.

(** *** Invariants of the tables, over every run *)

Section RunInvariant.

Variable Q Qc : Tables num -> Prop.
Variable the_file : UUID.

Hypothesis Q_commit : forall t, Q t -> Qc t.
Hypothesis Q_delete_embeddings :
  forall (ids : list UUID) t,
    Q t ->
    Q (mkTables (files t) (chunks t)
         (filter (fun e => negb (uuid_in (e_chunk_id e) ids)) (embeddings t))).
Hypothesis Q_delete_chunks :
  forall t,
    Q t ->
    Q (mkTables (files t)
         (filter (fun c => negb (N.eqb (c_file_id c) the_file)) (chunks t))
         (embeddings t)).
Hypothesis Q_mark :
  forall (status : string) t,
    In status written_statuses -> Q t -> Q (mark the_file status t).
Hypothesis Q_add_chunk :
  forall (c : Chunk) t,
    c_file_id c = the_file ->
    Q t -> Q (mkTables (files t) (chunks t ++ [c]) (embeddings t)).
Hypothesis Q_add_embedding :
  forall (e : Embedding num) t,
    e_embedding_model e = ADA_002 ->
    Q t -> Q (mkTables (files t) (chunks t) (embeddings t ++ [e])).

Local Notation inv := (@on_tables num G Q Qc).

Lemma inv_db_call : preserves inv db_call.
Proof.
  intros s r s' H. unfold db_call in H.
  destruct (faults s) as [|[|n] fs]; injection H as <- <-; auto.
Qed.

Lemma inv_read {A : Type} (read : Session num G -> A) :
  preserves inv (bind db_call (fun _ s => (Ok (read s), s))).
Proof.
  apply preserves_bind; [apply inv_db_call|].
  intros _ s r s' H. now injection H as <- <-.
Qed.

Lemma inv_delete_embeddings_in (ids : list UUID) :
  preserves inv (delete_embeddings_in ids).
Proof.
  apply preserves_bind; [apply inv_db_call|].
  intros _ s r s' H. injection H as <- <-. intros [Hv Hc].
  split; [now apply Q_delete_embeddings | exact Hc].
Qed.

Lemma inv_delete_chunks : preserves inv (delete_chunks the_file).
Proof.
  apply preserves_bind; [apply inv_db_call|].
  intros _ s r s' H. cbv beta zeta in H.
  destruct (existsb _ _); injection H as <- <-; [auto|].
  intros [Hv Hc]. split; [now apply Q_delete_chunks | exact Hc].
Qed.

Lemma inv_set_status (status : string) :
  In status written_statuses -> preserves inv (set_status the_file status).
Proof.
  intros Hin s r s' H. injection H as <- <-. intros [Hv Hc].
  split; [now apply Q_mark | exact Hc].
Qed.

Lemma inv_commit : preserves inv commit.
Proof.
  apply preserves_bind; [apply inv_db_call|].
  intros _ s r s' H. injection H as <- <-. intros [Hv Hc].
  split; [exact Hv | now apply Q_commit].
Qed.

Lemma inv_embed_chunk (i : nat) (text : string) (counters : nat * nat) :
  preserves inv (embed_chunk the_file i text counters).
Proof.
  destruct counters as [a b]. unfold_embed_chunk.
  apply preserves_bind; [apply preserves_pure | intros token_count].
  apply preserves_bind.
  { intros s r s' H. now injection H as <- <-. }
  intros id. apply preserves_bind.
  { intros s r s' H. injection H as <- <-. intros [Hv Hc].
    split; [now apply Q_add_chunk | exact Hc]. }
  intros _. apply preserves_bind; [apply inv_db_call | intros _].
  apply preserves_try_except; [|intros _; apply preserves_ret].
  apply preserves_bind.
  { intros s r s' H. unfold call_provider in H.
    destruct (embed text (provider s)) as [r0 g]. now injection H as <- <-. }
  intros v. destruct (truthy_vector v) as [v'|]; [|apply preserves_ret].
  apply preserves_bind.
  { intros s r s' H. now injection H as <- <-. }
  intros eid. apply preserves_bind; [|intros _; apply preserves_ret].
  intros s r s' H. injection H as <- <-. intros [Hv Hc].
  split; [now apply Q_add_embedding | exact Hc].
Qed.

Lemma inv_embed_chunks (texts : list string) :
  forall (i : nat) (counters : nat * nat),
    preserves inv (embed_chunks the_file i texts counters).
Proof.
  induction texts as [|text rest IH]; intros i counters.
  - apply preserves_ret.
  - intros s r s'. rewrite embed_chunks_cons. revert s r s'.
    apply preserves_bind; [apply inv_embed_chunk | intros c; apply IH].
Qed.

Lemma inv_delete_existing : preserves inv (delete_existing the_file).
Proof.
  unfold delete_existing.
  apply preserves_bind; [apply inv_read | intros ids].
  apply preserves_bind.
  - destruct ids; [apply preserves_ret|].
    apply preserves_bind; [apply inv_delete_embeddings_in|].
    intros _; apply preserves_ret.
  - intros _. apply preserves_bind; [apply inv_delete_chunks|].
    intros _; apply preserves_ret.
Qed.

Lemma inv_on_exception : preserves inv (on_exception the_file).
Proof.
  unfold on_exception.
  apply preserves_bind; [apply inv_read | intros [f|]]; [|apply preserves_ret].
  apply preserves_bind; [|intros _; apply inv_commit].
  apply inv_set_status. simpl; tauto.
Qed.

Lemma inv_process_file (path : string) : preserves inv (process_file the_file path).
Proof.
  unfold_process_file. fold (@try_except num G unit).
  apply preserves_try_except; [|intros _; apply inv_on_exception].
  unfold_process_file_try.
  apply preserves_bind; [apply inv_read | intros [f|]]; [|apply preserves_ret].
  apply preserves_bind; [apply inv_set_status; simpl; tauto | intros _].
  apply preserves_bind; [apply inv_commit | intros _].
  apply preserves_bind; [apply inv_delete_existing | intros _].
  apply preserves_bind.
  { intros s r s' H. now injection H as <- <-. }
  intros text. destruct (startswith "Error:" text).
  { apply preserves_bind; [apply inv_set_status; simpl; tauto|].
    intros _; apply inv_commit. }
  apply preserves_bind; [apply preserves_pure | intros pieces].
  apply preserves_bind; [apply inv_read | intros n].
  apply preserves_bind.
  { destruct (0 <? n)%nat; [|apply preserves_ret].
    apply preserves_bind; [apply inv_delete_chunks | intros _; apply inv_commit]. }
  intros _.
  apply preserves_bind; [apply inv_embed_chunks | intros _].
  apply preserves_bind; [apply inv_commit | intros _].
  apply preserves_bind; [apply inv_set_status; simpl; tauto|].
  intros _; apply inv_commit.
Qed.

Lemma inv_re_process_file (path : string) :
  preserves inv (re_process_file the_file path).
Proof.
  unfold_re_process_file. fold (@try_except num G unit).
  apply preserves_try_except; [|intros _; apply inv_on_exception].
  unfold_re_process_file_try.
  apply preserves_bind; [apply inv_read | intros [f|]]; [|apply preserves_ret].
  apply preserves_bind; [apply inv_delete_existing | intros _].
  apply preserves_bind; [apply inv_commit | intros _].
  apply inv_process_file.
Qed.

End RunInvariant.

(** *** What a run leaves alone *)

Lemma find_file_mark_other file_id (other : UUID) (status : string) t :
  other <> file_id -> find_file other (mark file_id status t) = find_file other t.
Proof.
  intros Hne. unfold find_file, mark; simpl.
  induction (files t) as [|f l IH]; simpl; [reflexivity|].
  assert (f_id (with_status file_id status f) = f_id f) as Hid
      by (unfold with_status; now destruct (N.eqb (f_id f) file_id)).
  rewrite Hid. destruct (N.eqb (f_id f) other) eqn:E'; [|exact IH].
  f_equal. unfold with_status.
  destruct (N.eqb (f_id f) file_id) eqn:E; [|reflexivity].
  apply N.eqb_eq in E, E'. congruence.
Qed.

Lemma chunks_of_delete_other file_id (other : UUID) (fs : list File)
    (cs : list Chunk) (es : list (Embedding num)) :
  other <> file_id ->
  chunks_of other
    (mkTables fs (filter (fun c => negb (N.eqb (c_file_id c) file_id)) cs) es)
  = chunks_of other (mkTables fs cs es).
Proof.
  intros Hne. unfold chunks_of; simpl.
  induction cs as [|c cs IH]; simpl; [reflexivity|].
  destruct (N.eqb (c_file_id c) file_id) eqn:E; simpl.
  - apply N.eqb_eq in E.
    destruct (N.eqb (c_file_id c) other) eqn:E'; [|exact IH].
    apply N.eqb_eq in E'. congruence.
  - destruct (N.eqb (c_file_id c) other); [now rewrite IH | exact IH].
Qed.

Lemma chunks_of_add_other file_id (other : UUID) (fs : list File)
    (cs : list Chunk) (c : Chunk) (es : list (Embedding num)) :
  other <> file_id -> c_file_id c = file_id ->
  chunks_of other (mkTables fs (cs ++ [c]) es) = chunks_of other (mkTables fs cs es).
Proof.
  intros Hne Hc. rewrite chunks_of_app.
  replace (chunks_of other (mkTables fs [c] es)) with (@nil Chunk);
    [apply app_nil_r|].
  unfold chunks_of; simpl. destruct (N.eqb (c_file_id c) other) eqn:E; [|reflexivity].
  apply N.eqb_eq in E. congruence.
Qed.

Lemma untouched_run file_id (other : UUID) s {A : Type} (m : M num G A) :
  other <> file_id ->
  (forall (Q Qc : Tables num -> Prop),
      (forall t, Q t -> Qc t) ->
      (forall ids t, Q t ->
         Q (mkTables (files t) (chunks t)
              (filter (fun e => negb (uuid_in (e_chunk_id e) ids)) (embeddings t)))) ->
      (forall t, Q t ->
         Q (mkTables (files t)
              (filter (fun c => negb (N.eqb (c_file_id c) file_id)) (chunks t))
              (embeddings t))) ->
      (forall status t, In status written_statuses -> Q t -> Q (mark file_id status t)) ->
      (forall c t, c_file_id c = file_id -> Q t ->
         Q (mkTables (files t) (chunks t ++ [c]) (embeddings t))) ->
      (forall e t, e_embedding_model e = ADA_002 -> Q t ->
         Q (mkTables (files t) (chunks t) (embeddings t ++ [e]))) ->
      preserves (on_tables Q Qc) m) ->
  untouched other (view s) (view (snd (m s)))
  /\ (untouched other (view s) (committed (snd (m s)))
      \/ untouched other (committed s) (committed (snd (m s)))).
Proof.
  intros Hne Hpres.
  destruct (m s) as [r s'] eqn:Hrun. cbn [snd].
  apply (Hpres (untouched other (view s))
           (fun t => untouched other (view s) t \/ untouched other (committed s) t))
    with (s := s) (r := r).
  - intros t H. now left.
  - intros ids t H. exact H.
  - intros t [Hc Hf]. split; [|exact Hf].
    rewrite <- Hc. destruct t as [fs cs es]. now apply chunks_of_delete_other.
  - intros status t _ [Hc Hf]. split; [exact Hc|].
    rewrite <- Hf. now apply find_file_mark_other.
  - intros c t Hfid [Hc Hf]. split; [|exact Hf].
    rewrite <- Hc. destruct t as [fs cs es]. now apply (chunks_of_add_other file_id).
  - intros e t _ H. exact H.
  - exact Hrun.
  - split; [split; reflexivity | right; split; reflexivity].
Qed.

(** X6. [process_file] and [re_process_file] leave every other file alone:
    whatever the provider does and wherever the database fails, the row and
    the chunk rows of a file other than the one processed are, in the tables
    the session sees, what they were before; in the committed tables they
    are what was committed or what the session saw. *)
Theorem process_file_other_files file_id (other : UUID) (path : string) s :
  other <> file_id ->
  (untouched other (view s) (view (snd (process_file file_id path s)))
   /\ (untouched other (view s) (committed (snd (process_file file_id path s)))
       \/ untouched other (committed s)
            (committed (snd (process_file file_id path s)))))
  /\ (untouched other (view s) (view (snd (re_process_file file_id path s)))
      /\ (untouched other (view s) (committed (snd (re_process_file file_id path s)))
          \/ untouched other (committed s)
               (committed (snd (re_process_file file_id path s))))).
Proof.
  intros Hne. split; apply (untouched_run file_id other s); try exact Hne.
  - intros Q Qc H1 H2 H3 H4 H5 H6. now apply (inv_process_file Q Qc file_id).
  - intros Q Qc H1 H2 H3 H4 H5 H6. now apply (inv_re_process_file Q Qc file_id).
Qed.

Lemma blank_status_with_status file_id (status : string) (f : File) :
  blank_status (with_status file_id status f) = blank_status f.
Proof. unfold with_status. now destruct (N.eqb (f_id f) file_id). Qed.

Lemma rows_kept_run file_id s {A : Type} (m : M num G A) :
  (forall (Q Qc : Tables num -> Prop),
      (forall t, Q t -> Qc t) ->
      (forall ids t, Q t ->
         Q (mkTables (files t) (chunks t)
              (filter (fun e => negb (uuid_in (e_chunk_id e) ids)) (embeddings t)))) ->
      (forall t, Q t ->
         Q (mkTables (files t)
              (filter (fun c => negb (N.eqb (c_file_id c) file_id)) (chunks t))
              (embeddings t))) ->
      (forall status t, In status written_statuses -> Q t -> Q (mark file_id status t)) ->
      (forall c t, c_file_id c = file_id -> Q t ->
         Q (mkTables (files t) (chunks t ++ [c]) (embeddings t))) ->
      (forall e t, e_embedding_model e = ADA_002 -> Q t ->
         Q (mkTables (files t) (chunks t) (embeddings t ++ [e]))) ->
      preserves (on_tables Q Qc) m) ->
  rows_kept file_id (view s) (view (snd (m s)))
  /\ (rows_kept file_id (view s) (committed (snd (m s)))
      \/ rows_kept file_id (committed s) (committed (snd (m s)))).
Proof.
  intros Hpres.
  destruct (m s) as [r s'] eqn:Hrun. cbn [snd].
  apply (Hpres (rows_kept file_id (view s))
           (fun t => rows_kept file_id (view s) t \/ rows_kept file_id (committed s) t))
    with (s := s) (r := r).
  - intros t H. now left.
  - intros ids t H. exact H.
  - intros t H. exact H.
  - intros status t Hin [Hrows Hst]. split.
    + rewrite <- Hrows. unfold mark; simpl. rewrite map_map.
      apply map_ext. intros f. apply blank_status_with_status.
    + destruct (find_file file_id t) as [f|] eqn:Hf.
      * right. exists status. split; [exact Hin|]. now apply (status_of_mark _ _ _ f).
      * assert (status_of file_id (mark file_id status t) = status_of file_id t) as E.
        { unfold status_of. now rewrite find_file_mark, Hf. }
        rewrite E. exact Hst.
  - intros c t _ H. exact H.
  - intros e t _ H. exact H.
  - exact Hrun.
  - split; [split; [reflexivity | now left]|].
    right. split; [reflexivity | now left].
Qed.

(** X7. The only thing [process_file] and [re_process_file] change in
    [files] is the status of the file processed, and the only statuses they
    write are [Processing], [Error] and [Embedded]: no row is added or
    removed and no other column changes, whatever the provider does and
    wherever the database fails. *)
Theorem process_file_writes_status_only file_id (path : string) s :
  (rows_kept file_id (view s) (view (snd (process_file file_id path s)))
   /\ (rows_kept file_id (view s) (committed (snd (process_file file_id path s)))
       \/ rows_kept file_id (committed s)
            (committed (snd (process_file file_id path s)))))
  /\ (rows_kept file_id (view s) (view (snd (re_process_file file_id path s)))
      /\ (rows_kept file_id (view s) (committed (snd (re_process_file file_id path s)))
          \/ rows_kept file_id (committed s)
               (committed (snd (re_process_file file_id path s))))).
Proof.
  split; apply (rows_kept_run file_id s).
  - intros Q Qc H1 H2 H3 H4 H5 H6. now apply (inv_process_file Q Qc file_id).
  - intros Q Qc H1 H2 H3 H4 H5 H6. now apply (inv_re_process_file Q Qc file_id).
Qed.

(** *** The identifiers and the counters of the loop *)

Lemma strictly_sorted_NoDup (l : list nat) : StronglySorted lt l -> NoDup l.
Proof.
  induction 1 as [|k l Hs IH Hk]; constructor; [|exact IH].
  intros Hin. rewrite Forall_forall in Hk. specialize (Hk k Hin). lia.
Qed.

Lemma NoDup_map_injective {A B : Type} (f : A -> B) (l : list A) :
  (forall x y, f x = f y -> x = y) -> NoDup l -> NoDup (map f l).
Proof.
  intros Hinj. induction 1 as [|x l Hx Hl IH]; simpl; constructor; [|exact IH].
  intros Hin. apply in_map_iff in Hin. destruct Hin as (y & Hy & Hin).
  apply Hinj in Hy. now subst.
Qed.

Lemma filter_key_le_1 {A : Type} (key : A -> UUID) (x : UUID) (l : list A) :
  NoDup (map key l) -> length (filter (fun a => N.eqb (key a) x) l) <= 1.
Proof.
  induction l as [|a l IH]; simpl; intros Hnd; [lia|].
  inversion Hnd as [|k ks Hk Hks]; subst.
  destruct (N.eqb (key a) x) eqn:E; [|now apply IH].
  apply N.eqb_eq in E. simpl.
  rewrite (filter_none (fun a0 => N.eqb (key a0) x) l); [simpl; lia|].
  intros b Hb. apply N.eqb_neq. intros Hbx. apply Hk.
  rewrite E, <- Hbx. now apply in_map.
Qed.

(** The loop adds at most one embedding row for a chunk row. *)
Lemma loop_rows_embeddings_le file_id (i : nat) (texts : list string) (g : G)
    (d : nat) (cs : list Chunk) (es : list (Embedding num)) (kc : list nat) :
  loop_rows file_id i texts g d cs es kc -> length es <= length cs.
Proof.
  unfold_loop_rows. intros (_ & _ & _ & _ & Hkc & Hke & _).
  apply (f_equal (@length UUID)) in Hkc, Hke. rewrite !length_map in Hkc, Hke.
  rewrite Hke, Hkc. apply select_length.
Qed.

(** X8. The unique constraint on [embeddings.chunk_id], over the rows of a
    run: when [uuid4] never repeats a value and none of its values to come
    is referred to by an embedding already there, a run that meets no
    database failure leaves the chunk rows of the file with pairwise distinct
    identifiers and at most one embedding row for each of them. *)
Theorem process_file_one_embedding_per_chunk file_id (path text : string) s
    (f : File) :
  faults s = [] ->
  find_file file_id (view s) = Some f ->
  extract_text_from_file path = Ok text ->
  startswith "Error:" text = false ->
  (forall a b : nat, uuid_source a = uuid_source b -> a = b) ->
  (forall (k : nat) e,
      uuids_drawn s <= k -> In e (embeddings (view s)) ->
      e_chunk_id e <> uuid_source k) ->
  exists s',
    process_file file_id path s = (Ok tt, s')
    /\ NoDup (map c_id (chunks_of file_id (committed s')))
    /\ forall c,
        In c (chunks_of file_id (committed s')) ->
        length (filter (fun e => N.eqb (e_chunk_id e) (c_id c))
                  (embeddings (committed s'))) <= 1.
Proof.
  intros Hq Hf Hx Hpre Hinj Hfresh.
  destruct (chunk_text text) as [pieces|e0] eqn:Hch.
  2:{ exists (failed_run file_id s).
      split; [now apply (process_file_chunker_raises_quiet file_id path text e0 s f)|].
      change (committed (failed_run file_id s)) with (view (failed_run file_id s)).
      rewrite chunks_of_failed_run. split; [constructor | intros c []]. }
  destruct (process_file_chunked_quiet file_id path text pieces s f Hq Hf Hx Hpre Hch)
    as (cs & es & kc & status & s' & Hrun & _ & Hc & Hv & Hrows & _).
  pose proof (loop_rows_own _ _ _ _ _ _ _ _ Hrows) as Hfid.
  destruct Hrows as (_ & _ & _ & _ & Hkc & Hke & Hsc & Hfc).
  exists s'. split; [exact Hrun|]. rewrite Hc, Hv.
  set (s0 := after_deletion file_id s).
  assert (chunks_of file_id
            (mark file_id status
               (mkTables (files (view s0)) (chunks (view s0) ++ cs)
                  (embeddings (view s0) ++ es))) = cs) as Hchunks
      by exact (chunks_of_after_run file_id file_id status
                  (mark file_id "Processing" (view s)) _ cs _ Hfid).
  rewrite Hchunks.
  split.
  - rewrite Hkc. apply NoDup_map_injective; [exact Hinj|].
    now apply strictly_sorted_NoDup.
  - intros c Hc0. unfold mark; cbn [embeddings].
    rewrite filter_app, length_app.
    assert (exists k, uuids_drawn s <= k /\ c_id c = uuid_source k) as (k & Hk & Hid).
    { assert (In (c_id c) (map uuid_source kc)) as Hin
          by (rewrite <- Hkc; now apply in_map).
      apply in_map_iff in Hin. destruct Hin as (k & Hid & Hin).
      exists k. split; [|now symmetry].
      rewrite Forall_forall in Hfc. exact (Hfc k Hin). }
    rewrite (filter_none (fun e => N.eqb (e_chunk_id e) (c_id c))
               (embeddings (view s0))).
    + simpl. apply filter_key_le_1. rewrite Hke.
      apply NoDup_map_injective; [exact Hinj|].
      now apply strictly_sorted_NoDup, select_sorted.
    + intros e He. apply N.eqb_neq. rewrite Hid. apply (Hfresh k e Hk).
      unfold s0, after_deletion, purge in He; session_simpl.
      apply filter_In in He. tauto.
Qed.

(** X9. The accounting of the loop: with a database that does not fail and a
    token counter that returns on every text, the loop over N chunks adds N
    chunk rows and E <= N embedding rows, and the counters it returns have
    grown by E (successful embeddings) and by N - E (failed ones). *)
Theorem embed_chunks_accounting file_id (texts : list string) (i a b : nat) s :
  faults s = [] ->
  all_counted texts = true ->
  exists (successful failed : nat) s',
    embed_chunks file_id i texts (a, b) s = (Ok (successful, failed), s')
    /\ length (chunks (view s')) = length (chunks (view s)) + length texts
    /\ length (embeddings (view s'))
       = length (embeddings (view s)) + (successful - a)
    /\ a <= successful
    /\ successful - a <= length texts
    /\ successful + failed = a + b + length texts.
Proof.
  intros Hq Hall.
  destruct (embed_chunks_counted file_id texts i a b s Hq Hall)
    as (cs & es & kc & s' & Hrun & _ & _ & Hv & Hrows & Hlen & _).
  pose proof (loop_rows_embeddings_le _ _ _ _ _ _ _ _ Hrows) as Hle.
  eexists _, _, s'. split; [exact Hrun|]. rewrite Hv. cbn [chunks embeddings].
  rewrite !length_app. repeat split; lia.
Qed.

(** X10. The rows of a run are consistent with the tokenizer: every
    committed chunk row of the file belongs to the file and records the
    token count of its own text. *)
Theorem process_file_token_counts file_id (path text : string) s (f : File) :
  faults s = [] ->
  find_file file_id (view s) = Some f ->
  extract_text_from_file path = Ok text ->
  startswith "Error:" text = false ->
  exists s',
    process_file file_id path s = (Ok tt, s')
    /\ Forall (fun c => c_file_id c = file_id
                        /\ count_tokens (c_text c) = Ok (c_token_count c))
         (chunks_of file_id (committed s')).
Proof.
  intros Hq Hf Hext Hpre.
  destruct (chunk_text text) as [pieces|e0] eqn:Hch.
  2:{ exists (failed_run file_id s).
      split; [now apply (process_file_chunker_raises_quiet file_id path text e0 s f)|].
      change (committed (failed_run file_id s)) with (view (failed_run file_id s)).
      rewrite chunks_of_failed_run. constructor. }
  destruct (process_file_chunked_quiet file_id path text pieces s f Hq Hf Hext Hpre Hch)
    as (cs & es & kc & status & s' & Hrun & _ & Hc & Hv & Hrows & _).
  pose proof (loop_rows_own _ _ _ _ _ _ _ _ Hrows) as Hfid.
  exists s'. split; [exact Hrun|]. rewrite Hc, Hv.
  unfold after_deletion; session_simpl.
  rewrite (chunks_of_after_run file_id file_id status
             (mark file_id "Processing" (view s)) _ cs _ Hfid).
  now destruct Hrows as (_ & _ & Hown & _).
Qed.

(** *** The routers *)

Variable path_exists : string -> bool.

Ltac unfold_process_file_endpoint := unfold process_file_endpoint.
Ltac unfold_with_background := unfold with_background.
Ltac unfold_run_tasks := unfold run_tasks, run_task.

Local Notation process_file_endpoint := (process_file_endpoint path_exists).
Local Notation run_tasks :=
  (run_tasks embed open_read pdf_pages docx_paragraphs split_text count_tokens
     uuid_source).
Local Notation with_background :=
  (with_background embed open_read pdf_pages docx_paragraphs split_text
     count_tokens uuid_source).

(** Rows in the order of their chunk numbers. *)
Local Notation by_number :=
  (Sorted (fun a b : Chunk => c_chunk_number a <= c_chunk_number b)).

Lemma insert_by_number_perm (c : Chunk) (l : list Chunk) :
  Permutation (insert_by_number c l) (c :: l).
Proof.
  induction l as [|x l IH]; simpl; [reflexivity|].
  destruct (c_chunk_number c <=? c_chunk_number x)%nat; [reflexivity|].
  rewrite IH. apply perm_swap.
Qed.

Lemma order_by_chunk_number_perm (l : list Chunk) :
  Permutation (order_by_chunk_number l) l.
Proof.
  induction l as [|c l IH]; simpl; [reflexivity|].
  rewrite insert_by_number_perm. now constructor.
Qed.

Lemma insert_by_number_sorted (c : Chunk) (l : list Chunk) :
  by_number l -> by_number (insert_by_number c l).
Proof.
  induction l as [|x l IH]; simpl; intros Hs; [repeat constructor|].
  destruct (c_chunk_number c <=? c_chunk_number x)%nat eqn:E.
  - apply Nat.leb_le in E. constructor; [exact Hs | now constructor].
  - apply Nat.leb_gt in E. inversion Hs as [|? ? Hl Hhd]; subst.
    constructor; [now apply IH|].
    destruct l as [|y l]; simpl.
    + constructor. lia.
    + destruct (c_chunk_number c <=? c_chunk_number y)%nat;
        constructor; [lia | now inversion Hhd].
Qed.

Lemma order_by_chunk_number_sorted (l : list Chunk) :
  by_number (order_by_chunk_number l).
Proof.
  induction l as [|c l IH]; simpl; [constructor | now apply insert_by_number_sorted].
Qed.

(** Rows that are in the order of their numbers come back as they are. *)
Lemma order_by_chunk_number_id (l : list Chunk) :
  by_number l -> order_by_chunk_number l = l.
Proof.
  induction 1 as [|c l Hs IH Hhd]; simpl; [reflexivity|].
  rewrite IH. destruct Hhd as [|x l' Hx]; simpl; [reflexivity|].
  apply Nat.leb_le in Hx. now rewrite Hx.
Qed.

Lemma numbered_sorted (l : list Chunk) :
  forall i : nat, map c_chunk_number l = seq i (length l) -> by_number l.
Proof.
  induction l as [|c l IH]; intros i H; [constructor|].
  simpl in H. injection H as Hc Hl.
  constructor; [now apply (IH (S i))|].
  destruct l as [|x l]; constructor.
  simpl in Hl. injection Hl as Hx _. lia.
Qed.

(** A round trip changes no table. *)
Lemma db_call_tables s s1 :
  db_call s = (Ok tt, s1) -> view s1 = view s /\ committed s1 = committed s.
Proof.
  unfold db_call. destruct (faults s) as [|[|n] fs]; intros H;
    try discriminate; injection H as <-; now split.
Qed.

(** X12. [get_file_chunks] answers only the owner of the file or an
    administrator: whenever it returns chunks, the file has a row, the user is
    an administrator or owns it, and the chunks are the chunk rows of the
    file in the order of their numbers; and it changes nothing. *)
Theorem get_file_chunks_authorized file_id (current_user : User) s
    (result_chunks : list Chunk) s' :
  get_file_chunks file_id current_user s = (Ok (Respond result_chunks), s') ->
  (exists file,
      find_file file_id (view s) = Some file
      /\ (u_is_admin current_user = true \/ f_user_id file = u_id current_user))
  /\ Permutation result_chunks (chunks_of file_id (view s))
  /\ by_number result_chunks
  /\ view s' = view s
  /\ committed s' = committed s.
Proof.
  unfold get_file_chunks, query_file, query_chunks_ordered, bind, ret.
  destruct (db_call s) as [[[]|e] s1] eqn:E1; [|discriminate].
  assert (view s1 = view s /\ committed s1 = committed s) as [Hv1 Hc1].
  { now apply db_call_tables. }
  destruct (find_file file_id (view s1)) as [file|] eqn:Hf; [|discriminate].
  destruct (not_authorized current_user file) eqn:Hauth; [discriminate|].
  destruct (db_call s1) as [[[]|e] s2] eqn:E2; [|discriminate].
  assert (view s2 = view s1 /\ committed s2 = committed s1) as [Hv2 Hc2].
  { now apply db_call_tables. }
  intros H. injection H as <- <-. rewrite Hv2, Hc2, Hc1, <- Hv1.
  split.
  { exists file. split; [exact Hf|]. unfold not_authorized in Hauth.
    destruct (u_is_admin current_user); [now left | right].
    simpl in Hauth. apply negb_false_iff, N.eqb_eq in Hauth. exact Hauth. }
  split; [apply order_by_chunk_number_perm|].
  split; [apply order_by_chunk_number_sorted|]. now split.
Qed.

Lemma with_status_user_id file_id (status : string) (f : File) :
  f_user_id (with_status file_id status f) = f_user_id f.
Proof. unfold with_status. now destruct (N.eqb (f_id f) file_id). Qed.

(** X13. What the pipeline stored is what the chunk listing shows: after a
    run of [process_file] that met no database failure, on a text that was
    extracted and that the chunker cut into pieces the token counter returns
    on, [get_file_chunks] gives the owner of the file, or an administrator,
    the pieces of the chunker in its order, numbered 1..N. *)
Theorem get_file_chunks_after_process_file file_id (path text : string)
    (pieces : list string) s (f : File) (current_user : User) :
  faults s = [] ->
  find_file file_id (view s) = Some f ->
  extract_text_from_file path = Ok text ->
  startswith "Error:" text = false ->
  chunk_text text = Ok pieces ->
  all_counted pieces = true ->
  u_is_admin current_user = true \/ f_user_id f = u_id current_user ->
  exists s1 (result_chunks : list Chunk) s2,
    process_file file_id path s = (Ok tt, s1)
    /\ get_file_chunks file_id current_user s1 = (Ok (Respond result_chunks), s2)
    /\ map c_text result_chunks = pieces
    /\ map c_chunk_number result_chunks = seq 1 (length pieces).
Proof.
  intros Hq Hf Hext Hpre Hch Hall Hauth.
  destruct (process_file_ok_quiet file_id path text pieces s f Hq Hf Hext Hpre Hch Hall)
    as (cs & es & s1 & Hrun & Hq1 & _ & Hv & Hnum & Htxt & _ & Hfid & _).
  assert (chunks_of file_id (view s1) = cs) as Hcs.
  { rewrite Hv. unfold after_deletion; session_simpl.
    exact (chunks_of_after_run file_id file_id "Embedded"
             (mark file_id "Processing" (view s)) _ cs _ Hfid). }
  assert (find_file file_id (view s1)
          = Some (with_status file_id "Embedded"
                    (with_status file_id "Processing" f))) as Hf1.
  { rewrite Hv, find_file_mark.
    change (find_file file_id
              (mkTables (files (view (after_deletion file_id s)))
                 (chunks (view (after_deletion file_id s)) ++ cs)
                 (embeddings (view (after_deletion file_id s)) ++ es)))
      with (find_file file_id (view (after_deletion file_id s))).
    now rewrite (find_file_after_deletion file_id s f Hf). }
  exists s1, cs, s1. split; [exact Hrun|]. split; [|split; [exact Htxt | exact Hnum]].
  unfold get_file_chunks.
  rewrite (bind_ok _ _ _ _ _ (query_file_quiet file_id s1 Hq1)), Hf1.
  unfold not_authorized. rewrite !with_status_user_id.
  assert (negb (u_is_admin current_user)
          && negb (N.eqb (f_user_id f) (u_id current_user)) = false) as ->.
  { destruct Hauth as [-> | ->]; [reflexivity|].
    rewrite N.eqb_refl. apply andb_false_r. }
  unfold query_chunks_ordered.
  rewrite (bind_ok _ _ _ _ _ (bind_ok _ _ _ _ _ (db_call_quiet s1 Hq1))).
  unfold ret. rewrite Hcs. f_equal. f_equal. f_equal.
  apply order_by_chunk_number_id. apply (numbered_sorted cs 1).
  rewrite Hnum. f_equal. now rewrite <- Htxt, length_map.
Qed.

(** X14. [get_chunk] answers only the owner of the chunk's file or an
    administrator: whenever it returns, the chunk is the row asked for, its
    file has a row the user may read, and the embedding fields are those of
    an embedding row for that chunk, or empty when there is none; and it
    changes nothing. *)
Theorem get_chunk_authorized (chunk_id : UUID) (current_user : User) s
    (r : ChunkWithEmbedding) s' :
  get_chunk chunk_id current_user s = (Ok (Respond r), s') ->
  (In (cwe_chunk r) (chunks (view s)) /\ c_id (cwe_chunk r) = chunk_id)
  /\ (exists file,
         find_file (c_file_id (cwe_chunk r)) (view s) = Some file
         /\ (u_is_admin current_user = true \/ f_user_id file = u_id current_user))
  /\ match cwe_embedding_id r with
     | Some eid =>
         exists e, In e (embeddings (view s)) /\ e_chunk_id e = chunk_id
                   /\ e_id e = eid
                   /\ cwe_embedding_model r = Some (e_embedding_model e)
     | None =>
         cwe_embedding_model r = None
         /\ forall e, In e (embeddings (view s)) -> e_chunk_id e <> chunk_id
     end
  /\ view s' = view s
  /\ committed s' = committed s.
Proof.
  unfold get_chunk, query_chunk, query_file, query_embedding_of, bind, ret.
  destruct (db_call s) as [[[]|e] s1] eqn:E1; [|discriminate].
  destruct (db_call_tables s s1 E1) as [Hv1 Hc1].
  destruct (find (fun c => N.eqb (c_id c) chunk_id) (chunks (view s1)))
    as [chunk|] eqn:Hchunk; [|discriminate].
  destruct (db_call s1) as [[[]|e] s2] eqn:E2; [|discriminate].
  destruct (db_call_tables s1 s2 E2) as [Hv2 Hc2].
  destruct (find_file (c_file_id chunk) (view s2)) as [file|] eqn:Hf; [|discriminate].
  destruct (not_authorized current_user file) eqn:Hauth; [discriminate|].
  destruct (db_call s2) as [[[]|e] s3] eqn:E3; [|discriminate].
  destruct (db_call_tables s2 s3 E3) as [Hv3 Hc3].
  intros H. injection H as <- <-. cbn [cwe_chunk cwe_embedding_id cwe_embedding_model].
  rewrite Hv3, Hc3, Hv2, Hc2, Hc1 in *. rewrite Hv1 in *.
  apply find_some in Hchunk. destruct Hchunk as [Hin Hid]. apply N.eqb_eq in Hid.
  split; [now split|]. split.
  { exists file. split; [exact Hf|]. unfold not_authorized in Hauth.
    destruct (u_is_admin current_user); [now left | right].
    simpl in Hauth. apply negb_false_iff, N.eqb_eq in Hauth. exact Hauth. }
  split; [|now split].
  rewrite Hid.
  destruct (find (fun e => N.eqb (e_chunk_id e) chunk_id) (embeddings (view s)))
    as [e|] eqn:He; simpl.
  - apply find_some in He. destruct He as [He Hc]. apply N.eqb_eq in Hc.
    exists e. repeat split; assumption.
  - split; [reflexivity|]. intros e Hin' Hc.
    pose proof (find_none _ _ He e Hin') as Hn. simpl in Hn.
    rewrite Hc, N.eqb_refl in Hn. discriminate.
Qed.

(** X15. [get_file_details] answers only the owner of the file, an
    administrator included: whenever it returns, a row of [files] with that
    identifier belongs to the user, the response carries the columns of that
    row, the chunk rows of the file in the order of their numbers, and
    [total_chunks] is their number; and it changes nothing. *)
Theorem get_file_details_owner file_id (current_user : User) s
    (r : FileDetailResponse) s' :
  get_file_details file_id current_user s = (Ok (Respond r), s') ->
  (exists file,
      In file (files (view s)) /\ f_id file = file_id
      /\ f_user_id file = u_id current_user
      /\ fd_file r = file_response file (length (chunks_of file_id (view s))))
  /\ fr_total_chunks (fd_file r) = length (fd_chunks r)
  /\ Permutation (fd_chunks r) (chunks_of file_id (view s))
  /\ by_number (fd_chunks r)
  /\ view s' = view s
  /\ committed s' = committed s.
Proof.
  unfold get_file_details, query_user_file, query_chunks_ordered, bind, ret.
  destruct (db_call s) as [[[]|e] s1] eqn:E1; [|discriminate].
  destruct (db_call_tables s s1 E1) as [Hv1 Hc1].
  destruct (find _ (files (view s1))) as [file|] eqn:Hf; [|discriminate].
  destruct (db_call s1) as [[[]|e] s2] eqn:E2; [|discriminate].
  destruct (db_call_tables s1 s2 E2) as [Hv2 Hc2].
  intros H. injection H as <- <-. cbn [fd_file fd_chunks].
  rewrite Hv2, Hc2, Hc1 in *. rewrite Hv1 in *.
  apply find_some in Hf. destruct Hf as [Hin Hcond].
  apply andb_prop in Hcond. destruct Hcond as [Hid Hu].
  apply N.eqb_eq in Hid, Hu. rewrite Hid.
  pose proof (order_by_chunk_number_perm (chunks_of file_id (view s))) as Hperm.
  split.
  { exists file. repeat split; try assumption.
    f_equal. now apply Permutation_length. }
  split; [reflexivity|]. split; [exact Hperm|].
  split; [apply order_by_chunk_number_sorted | now split].
Qed.

(** A row found with the user's identifier is a row of that identifier. *)
Lemma find_user_file_some file_id (user_id : UUID) (fs : list File) (file : File) :
  find (fun f => N.eqb (f_id f) file_id && N.eqb (f_user_id f) user_id) fs = Some file ->
  In file fs /\ f_id file = file_id /\ f_user_id file = user_id.
Proof.
  intros H. apply find_some in H. destruct H as [Hin Hc].
  apply andb_prop in Hc. destruct Hc as [Hid Hu].
  apply N.eqb_eq in Hid, Hu. now repeat split.
Qed.

Lemma find_file_exists file_id t (file : File) :
  In file (files t) -> f_id file = file_id ->
  exists f, find_file file_id t = Some f.
Proof.
  intros Hin Hid. unfold find_file.
  destruct (find (fun f => N.eqb (f_id f) file_id) (files t)) as [f|] eqn:E;
    [now exists f|].
  pose proof (find_none _ _ E file Hin) as Hn. simpl in Hn.
  rewrite Hid, N.eqb_refl in Hn. discriminate.
Qed.

Lemma find_delete_other file_id (other : UUID) (fs : list File) :
  other <> file_id ->
  find (fun f => N.eqb (f_id f) other)
    (filter (fun f => negb (N.eqb (f_id f) file_id)) fs)
  = find (fun f => N.eqb (f_id f) other) fs.
Proof.
  intros Hne. induction fs as [|f l IH]; [reflexivity|].
  simpl. destruct (N.eqb (f_id f) file_id) eqn:E; simpl.
  - apply N.eqb_eq in E.
    destruct (N.eqb (f_id f) other) eqn:E'; [|exact IH].
    apply N.eqb_eq in E'. congruence.
  - destruct (N.eqb (f_id f) other); [reflexivity | exact IH].
Qed.

(** X16. [delete_file] deletes only for the owner: when no row of [files]
    with the identifier belongs to the user, administrator or not, it changes
    no table, and it answers 404 when the database does not fail. *)
Theorem delete_file_not_owner file_id (current_user : User) s :
  (forall f, In f (files (view s)) -> f_id f = file_id ->
             f_user_id f <> u_id current_user) ->
  view (snd (delete_file file_id current_user s)) = view s
  /\ committed (snd (delete_file file_id current_user s)) = committed s
  /\ (faults s = [] ->
      fst (delete_file file_id current_user s)
      = Ok (HTTPException 404 "File not found")).
Proof.
  intros Hnone.
  assert (find (fun f => N.eqb (f_id f) file_id
                         && N.eqb (f_user_id f) (u_id current_user))
            (files (view s)) = None) as Hfind.
  { destruct (find _ (files (view s))) as [file|] eqn:E; [|reflexivity].
    apply find_user_file_some in E. destruct E as (Hin & Hid & Hu).
    now destruct (Hnone file Hin Hid). }
  unfold delete_file, query_user_file, bind, ret.
  destruct (db_call s) as [[[]|e] s1] eqn:E1.
  - destruct (db_call_tables s s1 E1) as [Hv1 Hc1]. rewrite Hv1, Hfind. cbn [fst snd].
    repeat split; assumption || reflexivity.
  - cbn [fst snd]. unfold db_call in E1.
    destruct (faults s) as [|[|n] fs]; try discriminate.
    injection E1 as <- <-. repeat split. discriminate.
Qed.

(** X17. [delete_file] for the owner, with a database that does not fail. It
    deletes the chunk rows and the row of the file, and never an embedding
    row: when an embedding refers to a chunk of the file, the database
    refuses the deletion of the chunks and nothing is deleted; otherwise the
    file and its chunks are gone, committed, and the rows of every other file
    and all embedding rows are as before. *)
Theorem delete_file_outcome file_id (current_user : User) s (file : File) :
  faults s = [] ->
  find (fun f => N.eqb (f_id f) file_id && N.eqb (f_user_id f) (u_id current_user))
    (files (view s)) = Some file ->
  if existsb (fun e => uuid_in (e_chunk_id e) (map c_id (chunks_of file_id (view s))))
       (embeddings (view s))
  then delete_file file_id current_user s = (Raise IntegrityError, s)
  else
    exists s',
      delete_file file_id current_user s
      = (Ok (Respond "File deleted successfully"), s')
      /\ committed s' = view s'
      /\ find_file file_id (view s') = None
      /\ chunks_of file_id (view s') = []
      /\ embeddings (view s') = embeddings (view s)
      /\ forall other, other <> file_id -> untouched other (view s) (view s').
Proof.
  intros Hq Hfind.
  destruct (find_user_file_some _ _ _ _ Hfind) as (Hin & Hid & Hu).
  unfold delete_file, query_user_file.
  rewrite (bind_ok _ _ _ _ _ (bind_ok _ _ _ _ _ (db_call_quiet s Hq))).
  unfold ret at 1. rewrite Hfind, Hid.
  destruct (existsb _ (embeddings (view s))) eqn:Hfk.
  - now rewrite (bind_raise _ _ _ _ _ (delete_chunks_refused file_id s Hq Hfk)).
  - destruct (delete_chunks_quiet file_id s Hq Hfk) as [n Hn].
    rewrite (bind_ok _ _ _ _ _ Hn).
    rewrite (bind_ok (delete_file_row file) _ _ tt _ eq_refl).
    match goal with |- context [bind commit _ ?s0] =>
      rewrite (bind_ok _ _ _ _ _ (commit_quiet s0 Hq)) end.
    eexists. split; [reflexivity|]. session_simpl. rewrite Hid.
    split; [reflexivity|]. split.
    { unfold find_file; simpl.
      destruct (find _ (filter _ (files (view s)))) as [f|] eqn:E; [|reflexivity].
      apply find_some in E. destruct E as [Hf E].
      apply filter_In in Hf. destruct Hf as [_ Hf]. now rewrite E in Hf. }
    split.
    { unfold chunks_of; simpl. apply filter_none. intros c Hc.
      apply filter_In in Hc. destruct Hc as [_ Hc]. now apply negb_true_iff in Hc. }
    split; [reflexivity|].
    intros other Hne. split.
    + destruct (view s) as [fs cs es].
      pose proof (chunks_of_delete_other file_id other fs cs es Hne) as H.
      unfold chunks_of in *. simpl in *. exact H.
    + unfold find_file; simpl. now apply find_delete_other.
Qed.

(** *** The endpoints that leave a task for after the response *)

(** How a run that meets no database failure ends. *)
Lemma process_file_ends file_id (path : string) s (f : File) :
  faults s = [] ->
  find_file file_id (view s) = Some f ->
  exists s',
    process_file file_id path s = (Ok tt, s')
    /\ faults s' = []
    /\ committed s' = view s'
    /\ (status_of file_id (committed s') = Some "Error"
        \/ status_of file_id (committed s') = Some "Embedded").
Proof.
  intros Hq Hf.
  destruct (process_file_outcome file_id path s f Hq Hf)
    as (s' & Hrun & Hq' & Hc & Hst & _).
  exists s'. now repeat split.
Qed.

Lemma re_process_file_ends file_id (path : string) s (f : File) :
  faults s = [] ->
  find_file file_id (view s) = Some f ->
  exists s',
    re_process_file file_id path s = (Ok tt, s')
    /\ faults s' = []
    /\ committed s' = view s'
    /\ (status_of file_id (committed s') = Some "Error"
        \/ status_of file_id (committed s') = Some "Embedded").
Proof.
  intros Hq Hf.
  pose proof (process_file_after_purge file_id path s f Hq Hf) as Hsame.
  destruct (process_file_ends file_id path s f Hq Hf) as (s' & Hrun & Hrest).
  exists s'. split; [|exact Hrest].
  unfold_re_process_file. unfold_re_process_file_try.
  rewrite (bind_ok _ _ _ _ _ (query_file_quiet file_id s Hq)), Hf.
  rewrite (bind_ok _ _ _ _ _ (delete_existing_quiet file_id s Hq)).
  rewrite (bind_ok _ _ _ _ _ (commit_quiet (set_view (purge file_id (view s)) s) Hq)).
  cbn [view set_view]. rewrite Hsame, Hrun. reflexivity.
Qed.

(** The row of a file is still there after its status is written. *)
Lemma find_file_after_mark file_id (status : string) t (file : File) :
  In file (files t) -> f_id file = file_id ->
  exists f, find_file file_id (mark file_id status t) = Some f.
Proof.
  intros Hin Hid. destruct (find_file_exists file_id t file Hin Hid) as [f Hf].
  exists (with_status file_id status f). now rewrite find_file_mark, Hf.
Qed.

(** X18. [reprocess_file] for the owner, with a database that does not fail.
    The response carries the status [Pending] and the number of chunks the
    file had before: the chunks are replaced only by the task that runs after
    the response, and once it has run the committed status is [Error] or
    [Embedded], never [Pending]. *)
Theorem reprocess_file_then_task file_id (current_user : User) s (file : File) :
  faults s = [] ->
  find (fun f => N.eqb (f_id f) file_id && N.eqb (f_user_id f) (u_id current_user))
    (files (view s)) = Some file ->
  exists s',
    with_background (reprocess_file file_id current_user) s
    = (Ok (Respond
             (mkFileResponse file_id (f_filename file) (f_file_type file)
                (f_file_size file) "Pending"
                (length (chunks_of file_id (view s))))), s')
    /\ committed s' = view s'
    /\ (status_of file_id (committed s') = Some "Error"
        \/ status_of file_id (committed s') = Some "Embedded").
Proof.
  intros Hq Hfind.
  destruct (find_user_file_some _ _ _ _ Hfind) as (Hin & Hid & Hu).
  set (s1 := set_committed (mark file_id "Pending" (view s))
               (set_view (mark file_id "Pending" (view s)) s)).
  assert (faults s1 = []) as Hq1 by exact Hq.
  destruct (find_file_after_mark file_id "Pending" (view s) file Hin Hid) as [f1 Hf1].
  destruct (re_process_file_ends file_id (f_file_path file) s1 f1 Hq1 Hf1)
    as (s' & Hrun & _ & Hc & Hst).
  assert (reprocess_file file_id current_user s
          = (Ok (Respond
                   (mkFileResponse file_id (f_filename file) (f_file_type file)
                      (f_file_size file) "Pending"
                      (length (chunks_of file_id (view s))),
                    [ReProcessFile file_id (f_file_path file)])), s1)) as Hend.
  { unfold reprocess_file, query_user_file.
    rewrite (bind_ok _ _ _ _ _ (bind_ok _ _ _ _ _ (db_call_quiet s Hq))).
    unfold ret at 1. rewrite Hfind, Hid.
    rewrite (bind_ok (set_status file_id "Pending") _ _ tt _ eq_refl).
    match goal with |- context [bind commit _ ?s0] =>
      rewrite (bind_ok _ _ _ _ _ (commit_quiet s0 Hq)) end.
    cbn [view set_view]. fold s1.
    rewrite (bind_ok _ _ _ _ _ (count_chunks_quiet file_id s1 Hq1)).
    unfold ret, file_response, with_status. rewrite Hid, N.eqb_refl. reflexivity. }
  exists s'. split; [|now split].
  unfold_with_background. rewrite Hend. unfold_run_tasks.
  unfold bind. rewrite Hrun. reflexivity.
Qed.

(** X19. [process_file_endpoint] for the owner, with a database that does not
    fail. A file that is not on the disk gives 404 and no change. Otherwise
    the response says [Processing], and the task that runs after it leaves
    the committed status [Error] or [Embedded]: the file does not stay in
    [Processing]. *)
Theorem process_file_endpoint_then_task file_id (current_user : User) s (file : File) :
  faults s = [] ->
  find (fun f => N.eqb (f_id f) file_id && N.eqb (f_user_id f) (u_id current_user))
    (files (view s)) = Some file ->
  if path_exists (f_file_path file)
  then
    exists s',
      with_background (process_file_endpoint file_id current_user) s
      = (Ok (Respond
               (mkProcessingResponse file_id (f_filename file) "Processing"
                  "File processing started in the background")), s')
      /\ committed s' = view s'
      /\ (status_of file_id (committed s') = Some "Error"
          \/ status_of file_id (committed s') = Some "Embedded")
  else
    with_background (process_file_endpoint file_id current_user) s
    = (Ok (HTTPException 404 "File not found on disk"), s).
Proof.
  intros Hq Hfind.
  destruct (find_user_file_some _ _ _ _ Hfind) as (Hin & Hid & Hu).
  destruct (path_exists (f_file_path file)) eqn:Hdisk.
  - set (s1 := set_committed (mark file_id "Processing" (view s))
                 (set_view (mark file_id "Processing" (view s)) s)).
    assert (faults s1 = []) as Hq1 by exact Hq.
    destruct (find_file_after_mark file_id "Processing" (view s) file Hin Hid)
      as [f1 Hf1].
    destruct (process_file_ends file_id (f_file_path file) s1 f1 Hq1 Hf1)
      as (s' & Hrun & _ & Hc & Hst).
    assert (process_file_endpoint file_id current_user s
            = (Ok (Respond
                     (mkProcessingResponse file_id (f_filename file) "Processing"
                        "File processing started in the background",
                      [ProcessFile file_id (f_file_path file)])), s1)) as Hend.
    { unfold_process_file_endpoint. unfold query_user_file.
      rewrite (bind_ok _ _ _ _ _ (bind_ok _ _ _ _ _ (db_call_quiet s Hq))).
      unfold ret at 1. rewrite Hfind, Hdisk, Hid. cbn [negb].
      rewrite (bind_ok (set_status file_id "Processing") _ _ tt _ eq_refl).
      match goal with |- context [bind commit _ ?s0] =>
        rewrite (bind_ok _ _ _ _ _ (commit_quiet s0 Hq)) end.
      reflexivity. }
    exists s'. split; [|now split].
    unfold_with_background. rewrite Hend. unfold_run_tasks.
    unfold bind. rewrite Hrun. reflexivity.
  - unfold_with_background. unfold_process_file_endpoint. unfold query_user_file.
    rewrite (bind_ok _ _ _ _ _ (bind_ok _ _ _ _ _ (db_call_quiet s Hq))).
    unfold ret at 1. rewrite Hfind, Hdisk. reflexivity.
Qed.

(** *** The listing of files *)

Lemma file_responses_ok (fs : list File) (response rs : list FileResponse) s s' :
  file_responses fs response s = (Ok rs, s') ->
  view s' = view s /\ committed s' = committed s
  /\ rs = (response
           ++ map (fun f => file_response f (length (chunks_of (f_id f) (view s)))) fs)%list.
Proof.
  revert response s. induction fs as [|f l IH]; intros response s; simpl.
  - unfold ret. intros H. injection H as <- <-. now rewrite app_nil_r.
  - unfold count_chunks, bind at 1 2.
    destruct (db_call s) as [[[]|e] s1] eqn:E1; [|discriminate].
    destruct (db_call_tables s s1 E1) as [Hv Hc].
    intros H. apply IH in H. destruct H as (Hv' & Hc' & ->).
    rewrite Hv', Hc', Hv, Hc. repeat split. now rewrite <- app_assoc.
Qed.

(** X20. [get_all_files] lists the files of the current user and no other,
    administrator or not: whenever it returns, the response has one entry for
    each row of [files] that belongs to the user, with the number of chunks
    of that file, and the tables are as before. *)
Theorem get_all_files_own (current_user : User) s (rs : list FileResponse) s' :
  get_all_files current_user s = (Ok rs, s') ->
  view s' = view s /\ committed s' = committed s
  /\ rs = map (fun f => file_response f (length (chunks_of (f_id f) (view s))))
            (filter (fun f => N.eqb (f_user_id f) (u_id current_user))
               (files (view s))).
Proof.
  unfold get_all_files, query_files_of, bind at 1 2.
  destruct (db_call s) as [[[]|e] s1] eqn:E1; [|discriminate].
  destruct (db_call_tables s s1 E1) as [Hv Hc].
  intros H. apply file_responses_ok in H. destruct H as (Hv' & Hc' & ->).
  rewrite Hv', Hc', Hv, Hc. now repeat split.
Qed.

End PipelineFacts.

(** ** The claims on the pipeline, at concrete runs *)

(** The scenario of the specification: an unsupported extension ends in
    [Error] with no chunk. *)
Example process_file_unsupported_extension :
  toy_extract "uploads/notes.xyz" = Ok "Error: Unsupported file type .xyz"
  /\ toy_process_file (scripted_provider 9) 3%N "uploads/notes.xyz" (toy_session [])
     = (Ok tt, failed_run 3%N (toy_session []))
  /\ status_of 3%N (committed (failed_run 3%N (toy_session []))) = Some "Error"
  /\ chunks (committed (failed_run 3%N (toy_session []))) = [].
Proof. repeat split; vm_compute; reflexivity. Qed.

(** C1 fails on the code at a corrupt PDF: the parser raises, the extractor
    returns a message that starts with [Error extracting], not with [Error:],
    and the run treats the message as the text of the document. The status
    ends as [Embedded] and a chunk and an embedding of the message are
    committed. *)
Theorem process_file_corrupt_pdf_embedded :
  toy_pdf_pages "uploads/report.pdf" = ParseFailure "EOF marker not found"
  /\ toy_extract "uploads/report.pdf"
     = Ok "Error extracting text from PDF: EOF marker not found"
  /\ fst (toy_process_file (scripted_provider 9) 2%N "uploads/report.pdf"
            (toy_session [])) = Ok tt
  /\ status_of 2%N
       (committed (snd (toy_process_file (scripted_provider 9) 2%N
                          "uploads/report.pdf" (toy_session []))))
     = Some "Embedded"
  /\ map c_text
       (chunks_of 2%N
          (committed (snd (toy_process_file (scripted_provider 9) 2%N
                             "uploads/report.pdf" (toy_session [])))))
     = ["Error extracting text from PDF: EOF marker not found"]
  /\ length
       (embeddings
          (committed (snd (toy_process_file (scripted_provider 9) 2%N
                             "uploads/report.pdf" (toy_session [])))))
     = 1%nat.
Proof. repeat split; vm_compute; reflexivity. Qed.

(** The order of the deletion phase matters: asked to delete the chunks of
    file 1 while the embedding of chunk 10 is there, the database refuses. *)
Example delete_chunks_before_embeddings :
  delete_chunks 1%N used_session = (Raise IntegrityError, used_session)
  /\ delete_existing 1%N used_session
     = (Ok tt, set_view (purge 1%N used_tables) used_session).
Proof. split; vm_compute; reflexivity. Qed.

(** C2 at file 1 of [used_session], which has two chunks and an embedding. *)
Lemma re_process_file_replaces_witness :
  exists s1 s' : Session Z nat,
    delete_existing 1%N used_session = (Ok tt, s1)
    /\ chunks_of 1%N (view s1) = []
    /\ (forall e, In e (embeddings (view s1)) ->
                  ~ In (e_chunk_id e) (map c_id (chunks_of 1%N (view used_session))))
    /\ orphan_free (view s1) = true
    /\ toy_re_process_file (scripted_provider 9) 1%N "uploads/three.txt" used_session
       = (Ok tt, s')
    /\ committed s' = view s'
    /\ orphan_free (view s') = true
    /\ map c_chunk_number (chunks_of 1%N (view s'))
       = seq 1 (length (chunks_of 1%N (view s')))
    /\ match toy_extract "uploads/three.txt" with
       | Ok text =>
           if startswith "Error:" text then chunks_of 1%N (view s') = []
           else
             match toy_split_text text with
             | Ok pieces =>
                 map c_text (chunks_of 1%N (view s'))
                 = firstn (length (chunks_of 1%N (view s'))) pieces
                 /\ (all_counted toy_count_tokens pieces = true ->
                     map c_text (chunks_of 1%N (view s')) = pieces)
             | Raise _ => chunks_of 1%N (view s') = []
             end
       | Raise _ => chunks_of 1%N (view s') = []
       end.
Proof.
  apply (re_process_file_replaces Z nat (scripted_provider 9) toy_open_read
           toy_pdf_pages toy_docx_paragraphs toy_split_text toy_count_tokens
           toy_uuid_source 1%N "uploads/three.txt" used_session
           (toy_file 1%N "three.txt" "Embedded"));
    reflexivity.
Defined.

(** The scenario of the specification: the provider fails on chunk 2 of 3.
    The three chunks are committed, the second without an embedding, and the
    status is [Embedded]. *)
Example second_embedding_fails :
  toy_split_text "one;two;three" = Ok ["one"; "two"; "three"]
  /\ fst (toy_process_file (scripted_provider 1) 1%N "uploads/three.txt"
            (toy_session [])) = Ok tt
  /\ map (fun c => (c_chunk_number c, c_text c))
       (chunks_of 1%N
          (committed (snd (toy_process_file (scripted_provider 1) 1%N
                             "uploads/three.txt" (toy_session [])))))
     = [(1, "one"); (2, "two"); (3, "three")]%nat
  /\ embedded
       (embeddings
          (committed (snd (toy_process_file (scripted_provider 1) 1%N
                             "uploads/three.txt" (toy_session [])))))
       (chunks_of 1%N
          (committed (snd (toy_process_file (scripted_provider 1) 1%N
                             "uploads/three.txt" (toy_session [])))))
     = [true; false; true]
  /\ status_of 1%N
       (committed (snd (toy_process_file (scripted_provider 1) 1%N
                          "uploads/three.txt" (toy_session []))))
     = Some "Embedded".
Proof. repeat split; vm_compute; reflexivity. Qed.

(** C3 at the run of [second_embedding_fails]: the provider fails on the
    second of three chunks, and the second chunk alone has no embedding. *)
Lemma process_file_survives_provider_witness :
  exists (s' : Session Z nat) (new_embeddings : list (Embedding Z)),
    toy_process_file (scripted_provider 1) 1%N "uploads/three.txt" (toy_session [])
    = (Ok tt, s')
    /\ status_of 1%N (committed s') = Some "Embedded"
    /\ map c_text (chunks_of 1%N (committed s')) = ["one"; "two"; "three"]
    /\ map c_chunk_number (chunks_of 1%N (committed s')) = [1; 2; 3]
    /\ embeddings (committed s') = new_embeddings
    /\ map e_chunk_id new_embeddings
       = select [true; false; true] (map c_id (chunks_of 1%N (committed s')))
    /\ embedded (embeddings (committed s')) (chunks_of 1%N (committed s'))
       = [true; false; true].
Proof.
  destruct (process_file_survives_provider Z nat (scripted_provider 1) toy_open_read
              toy_pdf_pages toy_docx_paragraphs toy_split_text toy_count_tokens
              toy_uuid_source 1%N "uploads/three.txt" "one;two;three"
              ["one"; "two"; "three"] (toy_session [])
              (toy_file 1%N "three.txt" "Pending")
              eq_refl eq_refl eq_refl eq_refl eq_refl eq_refl)
    as (s' & es & Hrun & Hst & Htxt & Hnum & Hembs & Hids & Hflags).
  exists s', es. repeat (split; [assumption|]).
  apply Hflags.
  - intros a b H. unfold toy_uuid_source in H. lia.
  - intros k e _ [].
Defined.

(** C4 at a first run on file 1, with a provider that gives no vector. *)
Lemma process_file_numbers_chunks_witness :
  exists s' : Session Z nat,
    toy_process_file none_provider 1%N "uploads/three.txt" (toy_session [])
    = (Ok tt, s')
    /\ map c_chunk_number (chunks_of 1%N (committed s'))
       = seq 1 (length ["one"; "two"; "three"])
    /\ map c_text (chunks_of 1%N (committed s')) = ["one"; "two"; "three"]
    /\ length (chunks_of 1%N (committed s')) = length ["one"; "two"; "three"].
Proof.
  apply (process_file_numbers_chunks Z nat none_provider toy_open_read
           toy_pdf_pages toy_docx_paragraphs toy_split_text toy_count_tokens
           toy_uuid_source 1%N "uploads/three.txt" "one;two;three"
           ["one"; "two"; "three"] (toy_session [])
           (toy_file 1%N "three.txt" "Pending"));
    reflexivity.
Defined.

(** C5, as stated, fails: the database fails on the first lookup and again on
    the lookup of the handler, and the second failure reaches the caller. *)
Lemma process_file_raises_counterexample :
  toy_process_file (scripted_provider 9) 1%N "uploads/three.txt" (toy_session [0; 0]%nat)
  = (Raise DatabaseError, toy_session []).
Proof. vm_compute. reflexivity. Qed.

(** C5, as amended, at a run whose fifth database call fails: the handler
    records the status [Error] and the run returns. *)
Lemma process_file_raises_only_in_handler_witness :
  exists s' : Session Z nat,
    toy_process_file (scripted_provider 9) 1%N "uploads/three.txt" (toy_session [4]%nat)
    = (Ok tt, s')
    /\ status_of 1%N (committed s') = Some "Error".
Proof.
  destruct (process_file_raises_only_in_handler Z nat (scripted_provider 9)
              toy_open_read toy_pdf_pages toy_docx_paragraphs toy_split_text
              toy_count_tokens toy_uuid_source 1%N "uploads/three.txt"
              (toy_session [4]%nat)) as [_ Hcaught].
  apply (Hcaught DatabaseError
           (after_deletion 1%N (toy_session []))
           (toy_file 1%N "three.txt" "Processing"));
    reflexivity.
Defined.

(** C9 at the first embedding row of the run of [second_embedding_fails]. *)
Lemma persisted_embeddings_record_ada_witness :
  (In (mkEmbedding 101%N 100%N [1; 2; 3]%Z ADA_002) (embeddings (view (toy_session [])))
   \/ In (mkEmbedding 101%N 100%N [1; 2; 3]%Z ADA_002)
        (embeddings (committed (toy_session []))))
  \/ e_embedding_model (mkEmbedding 101%N 100%N [1; 2; 3]%Z ADA_002)
     = "text-embedding-ada-002".
Proof.
  apply (persisted_embeddings_record_ada Z nat (scripted_provider 1) toy_open_read
           toy_pdf_pages toy_docx_paragraphs toy_split_text toy_count_tokens
           toy_uuid_source 1%N "uploads/three.txt" (toy_session [])).
  right. vm_compute. left. reflexivity.
Defined.

(** The same under the deterministic strategy of [get_embedding]: the rows
    the pipeline adds record ["text-embedding-ada-002"] although the vectors
    are the mock's. *)
Lemma mock_embeddings_record_ada (rng : Type) (seed : string -> rng)
    (uniform : rng -> R * rng) (api : string -> api_result)
    (open_read : string -> result string) (pdf_pages docx_paragraphs : string -> parsed)
    (split_text : string -> result (list string))
    (count_tokens : string -> result nat)
    (uuid_source : nat -> UUID) (file_id : UUID) (path : string)
    (s : Session R rng) (r : result unit) (s' : Session R rng) (e : Embedding R) :
  process_file (get_embedding seed uniform true api) open_read pdf_pages
    docx_paragraphs split_text count_tokens uuid_source file_id path s = (r, s') ->
  In e (embeddings (committed s')) ->
  In e (embeddings (view s)) \/ In e (embeddings (committed s))
  \/ e_embedding_model e = ADA_002.
Proof.
  intros Hrun He.
  pose (old := fun x : Embedding R =>
                 In x (embeddings (view s)) \/ In x (embeddings (committed s))).
  assert (only_ada old s) as H0 by (intros x Hx; left; exact Hx).
  destruct (preserves_process_file R rng _ open_read pdf_pages docx_paragraphs
              split_text count_tokens uuid_source old file_id path s r s' Hrun H0 e
              (or_intror He)) as [[H|H]|H]; auto.
Qed.

(** C10 at an identifier no row of [used_session] has. *)
Lemma process_file_unknown_file_witness :
  view (snd (toy_process_file (scripted_provider 9) 99%N "uploads/ghost.txt" used_session))
  = view used_session
  /\ committed (snd (toy_process_file (scripted_provider 9) 99%N "uploads/ghost.txt"
                       used_session))
     = committed used_session
  /\ uuids_drawn (snd (toy_process_file (scripted_provider 9) 99%N "uploads/ghost.txt"
                         used_session))
     = uuids_drawn used_session
  /\ provider (snd (toy_process_file (scripted_provider 9) 99%N "uploads/ghost.txt"
                      used_session))
     = provider used_session
  /\ ((forall fs, faults used_session <> 0%nat :: 0%nat :: fs) ->
      fst (toy_process_file (scripted_provider 9) 99%N "uploads/ghost.txt" used_session)
      = Ok tt).
Proof.
  apply (process_file_unknown_file Z nat (scripted_provider 9) toy_open_read
           toy_pdf_pages toy_docx_paragraphs toy_split_text toy_count_tokens
           toy_uuid_source 99%N "uploads/ghost.txt" used_session).
  reflexivity.
Defined.

(** ** Further properties, at concrete runs *)

(** X11 at the text ["hello world"] and a service that answers. *)
Lemma get_embedding_live_witness :
  get_embedding toy_seed toy_uniform false toy_live_api "hello world" 0%nat
  = (Ok (Some [1; 0]%R), 0%nat).
Proof.
  exact (get_embedding_live nat toy_seed toy_uniform toy_live_api "hello world"
           0%nat eq_refl).
Defined.

(** X1 at a [.txt] path that is not among the uploaded files. *)
Lemma extract_text_raises_only_on_read_witness :
  lower (snd (splitext "uploads/ghost.txt")) = ".txt"
  /\ toy_open_read "uploads/ghost.txt" = Raise OSError.
Proof.
  apply (extract_text_raises_only_on_read toy_open_read toy_pdf_pages
           toy_docx_paragraphs "uploads/ghost.txt" OSError).
  reflexivity.
Defined.

(** X2 at file 3, whose extension no branch of the extractor handles. *)
Lemma process_file_detected_failure_witness :
  exists s' : Session Z nat,
    toy_process_file (scripted_provider 9) 3%N "uploads/notes.xyz" (toy_session [])
    = (Ok tt, s')
    /\ committed s' = view s'
    /\ status_of 3%N (committed s') = Some "Error"
    /\ chunks_of 3%N (committed s') = [].
Proof.
  apply (process_file_detected_failure Z nat (scripted_provider 9) toy_open_read
           toy_pdf_pages toy_docx_paragraphs toy_split_text toy_count_tokens
           toy_uuid_source 3%N "uploads/notes.xyz" (toy_session [])
           (toy_file 3%N "notes.xyz" "Pending"));
    [reflexivity | reflexivity |].
  right. right. right. repeat split; vm_compute; discriminate.
Defined.

(** A text with a special token in it: the chunker raises, the handler writes
    [Error], and no chunk is stored. *)
Example special_token_ends_in_error :
  toy_extract "uploads/special.txt" = Ok "one;<|endoftext|>;three"
  /\ toy_split_text "one;<|endoftext|>;three" = Raise ValueError
  /\ fst (toy_process_file (scripted_provider 9) 4%N "uploads/special.txt"
            (toy_session [])) = Ok tt
  /\ status_of 4%N
       (committed (snd (toy_process_file (scripted_provider 9) 4%N
                          "uploads/special.txt" (toy_session []))))
     = Some "Error"
  /\ chunks
       (committed (snd (toy_process_file (scripted_provider 9) 4%N
                          "uploads/special.txt" (toy_session []))))
     = [].
Proof. repeat split; vm_compute; reflexivity. Qed.

(** The same text with a chunker that does not measure its pieces: the token
    counter raises in the loop, on the second piece, and the handler commits
    the status [Error] together with the row of the first. *)
Example token_counter_ends_the_loop :
  unmeasured_split_text "one;<|endoftext|>;three"
  = Ok ["one"; "<|endoftext|>"; "three"]
  /\ toy_count_tokens "<|endoftext|>" = Raise ValueError
  /\ status_of 4%N
       (committed
          (snd (process_file (scripted_provider 9) toy_open_read toy_pdf_pages
                  toy_docx_paragraphs unmeasured_split_text toy_count_tokens
                  toy_uuid_source 4%N "uploads/special.txt" (toy_session []))))
     = Some "Error"
  /\ map c_text
       (chunks
          (committed
             (snd (process_file (scripted_provider 9) toy_open_read toy_pdf_pages
                     toy_docx_paragraphs unmeasured_split_text toy_count_tokens
                     toy_uuid_source 4%N "uploads/special.txt" (toy_session [])))))
     = ["one"].
Proof. repeat split; vm_compute; reflexivity. Qed.

(** X3 at a first run on file 4, whose text the chunker raises on. *)
Lemma process_file_final_status_witness :
  exists s' : Session Z nat,
    toy_process_file (scripted_provider 9) 4%N "uploads/special.txt" (toy_session [])
    = (Ok tt, s')
    /\ committed s' = view s'
    /\ (status_of 4%N (committed s') = Some "Error"
        \/ status_of 4%N (committed s') = Some "Embedded")
    /\ (status_of 4%N (committed s') = Some "Error"
        <-> match toy_extract "uploads/special.txt" with
            | Raise _ => True
            | Ok text =>
                startswith "Error:" text = true
                \/ match toy_split_text text with
                   | Raise _ => True
                   | Ok pieces => all_counted toy_count_tokens pieces = false
                   end
            end).
Proof.
  apply (process_file_final_status Z nat (scripted_provider 9) toy_open_read
           toy_pdf_pages toy_docx_paragraphs toy_split_text toy_count_tokens
           toy_uuid_source 4%N "uploads/special.txt" (toy_session [])
           (toy_file 4%N "special.txt" "Pending"));
    reflexivity.
Defined.

(** X4 at an identifier no row of [used_session] has. *)
Lemma re_process_file_unknown_file_witness :
  view (snd (toy_re_process_file (scripted_provider 9) 99%N "uploads/ghost.txt"
               used_session))
  = view used_session
  /\ committed (snd (toy_re_process_file (scripted_provider 9) 99%N
                       "uploads/ghost.txt" used_session))
     = committed used_session
  /\ uuids_drawn (snd (toy_re_process_file (scripted_provider 9) 99%N
                         "uploads/ghost.txt" used_session))
     = uuids_drawn used_session
  /\ provider (snd (toy_re_process_file (scripted_provider 9) 99%N
                      "uploads/ghost.txt" used_session))
     = provider used_session
  /\ ((forall fs, faults used_session <> 0%nat :: 0%nat :: fs) ->
      fst (toy_re_process_file (scripted_provider 9) 99%N "uploads/ghost.txt"
             used_session)
      = Ok tt).
Proof.
  apply (re_process_file_unknown_file Z nat (scripted_provider 9) toy_open_read
           toy_pdf_pages toy_docx_paragraphs toy_split_text toy_count_tokens
           toy_uuid_source 99%N "uploads/ghost.txt" used_session).
  reflexivity.
Defined.

(** X5 at file 1 of [used_session]. *)
Lemma re_process_file_as_process_file_witness :
  toy_re_process_file (scripted_provider 9) 1%N "uploads/three.txt" used_session
  = toy_process_file (scripted_provider 9) 1%N "uploads/three.txt" used_session.
Proof.
  apply (re_process_file_as_process_file Z nat (scripted_provider 9) toy_open_read
           toy_pdf_pages toy_docx_paragraphs toy_split_text toy_count_tokens
           toy_uuid_source 1%N "uploads/three.txt" used_session
           (toy_file 1%N "three.txt" "Embedded"));
    reflexivity.
Defined.

(** X6 at files 1 and 2 of [used_session]: a run on file 1 leaves file 2 and
    its chunk as they were. *)
Lemma process_file_other_files_witness :
  untouched 2%N (view used_session)
    (view (snd (toy_process_file (scripted_provider 9) 1%N "uploads/three.txt"
                  used_session)))
  /\ untouched 2%N (view used_session)
       (view (snd (toy_re_process_file (scripted_provider 9) 1%N "uploads/three.txt"
                     used_session))).
Proof.
  destruct (process_file_other_files Z nat (scripted_provider 9) toy_open_read
              toy_pdf_pages toy_docx_paragraphs toy_split_text toy_count_tokens
              toy_uuid_source 1%N 2%N "uploads/three.txt" used_session)
    as [[Hp _] [Hr _]]; [discriminate|].
  split; [exact Hp | exact Hr].
Defined.

(** X8 at a first run on file 1: the identifiers of the environment are
    distinct, and no embedding is there before the run. *)
Lemma process_file_one_embedding_per_chunk_witness :
  exists s' : Session Z nat,
    toy_process_file (scripted_provider 9) 1%N "uploads/three.txt" (toy_session [])
    = (Ok tt, s')
    /\ NoDup (map c_id (chunks_of 1%N (committed s')))
    /\ forall c,
        In c (chunks_of 1%N (committed s')) ->
        length (filter (fun e => N.eqb (e_chunk_id e) (c_id c))
                  (embeddings (committed s'))) <= 1.
Proof.
  apply (process_file_one_embedding_per_chunk Z nat (scripted_provider 9)
           toy_open_read toy_pdf_pages toy_docx_paragraphs toy_split_text
           toy_count_tokens toy_uuid_source 1%N "uploads/three.txt" "one;two;three"
           (toy_session []) (toy_file 1%N "three.txt" "Pending"));
    try reflexivity.
  - intros a b H. unfold toy_uuid_source in H. lia.
  - intros k e _ [].
Defined.

(** X9 at three chunks and a provider that fails on the second. *)
Lemma embed_chunks_accounting_witness :
  exists (successful failed : nat) (s' : Session Z nat),
    embed_chunks (scripted_provider 1) toy_count_tokens toy_uuid_source 1%N 0
      ["one"; "two"; "three"] (0, 0)%nat (toy_session [])
    = (Ok (successful, failed), s')
    /\ length (chunks (view s'))
       = length (chunks (view (toy_session []))) + length ["one"; "two"; "three"]
    /\ length (embeddings (view s'))
       = length (embeddings (view (toy_session []))) + (successful - 0)
    /\ 0 <= successful
    /\ successful - 0 <= length ["one"; "two"; "three"]
    /\ successful + failed = 0 + 0 + length ["one"; "two"; "three"].
Proof.
  apply (embed_chunks_accounting Z nat (scripted_provider 1) toy_count_tokens
           toy_uuid_source 1%N ["one"; "two"; "three"] 0%nat 0%nat 0%nat
           (toy_session []));
    reflexivity.
Defined.

(** X10 at a first run on file 1. *)
Lemma process_file_token_counts_witness :
  exists s' : Session Z nat,
    toy_process_file (scripted_provider 9) 1%N "uploads/three.txt" (toy_session [])
    = (Ok tt, s')
    /\ Forall (fun c => c_file_id c = 1%N
                        /\ toy_count_tokens (c_text c) = Ok (c_token_count c))
         (chunks_of 1%N (committed s')).
Proof.
  apply (process_file_token_counts Z nat (scripted_provider 9) toy_open_read
           toy_pdf_pages toy_docx_paragraphs toy_split_text toy_count_tokens
           toy_uuid_source 1%N "uploads/three.txt" "one;two;three" (toy_session [])
           (toy_file 1%N "three.txt" "Pending"));
    reflexivity.
Defined.

(** X12 at the owner's request for the chunks of file 1 of [used_session]. *)
Lemma get_file_chunks_authorized_witness :
  (exists file,
      find_file 1%N (view used_session) = Some file
      /\ (u_is_admin toy_owner = true \/ f_user_id file = u_id toy_owner))
  /\ Permutation [mkChunk 10%N 1 "old one" 7 1%N; mkChunk 11%N 2 "old two" 7 1%N]
       (chunks_of 1%N (view used_session))
  /\ Sorted (fun a b : Chunk => c_chunk_number a <= c_chunk_number b)
       [mkChunk 10%N 1 "old one" 7 1%N; mkChunk 11%N 2 "old two" 7 1%N]
  /\ view (snd (get_file_chunks 1%N toy_owner used_session)) = view used_session
  /\ committed (snd (get_file_chunks 1%N toy_owner used_session))
     = committed used_session.
Proof.
  apply (get_file_chunks_authorized Z nat 1%N toy_owner used_session
           [mkChunk 10%N 1 "old one" 7 1%N; mkChunk 11%N 2 "old two" 7 1%N]
           (snd (get_file_chunks 1%N toy_owner used_session))).
  reflexivity.
Defined.

(** X13 at a first run on file 1, then the owner's request for its chunks. *)
Lemma get_file_chunks_after_process_file_witness :
  exists (s1 : Session Z nat) (result_chunks : list Chunk) (s2 : Session Z nat),
    toy_process_file (scripted_provider 9) 1%N "uploads/three.txt" (toy_session [])
    = (Ok tt, s1)
    /\ get_file_chunks 1%N toy_owner s1 = (Ok (Respond result_chunks), s2)
    /\ map c_text result_chunks = ["one"; "two"; "three"]
    /\ map c_chunk_number result_chunks = seq 1 (length ["one"; "two"; "three"]).
Proof.
  apply (get_file_chunks_after_process_file Z nat (scripted_provider 9)
           toy_open_read toy_pdf_pages toy_docx_paragraphs toy_split_text
           toy_count_tokens toy_uuid_source 1%N "uploads/three.txt" "one;two;three"
           ["one"; "two"; "three"] (toy_session [])
           (toy_file 1%N "three.txt" "Pending") toy_owner);
    try reflexivity.
  right. reflexivity.
Defined.

(** X14 at the owner's request for chunk 10 of [used_session], which has the
    embedding 30. *)
Lemma get_chunk_authorized_witness :
  (In (mkChunk 10%N 1 "old one" 7 1%N) (chunks (view used_session))
   /\ c_id (mkChunk 10%N 1 "old one" 7 1%N) = 10%N)
  /\ (exists file,
         find_file 1%N (view used_session) = Some file
         /\ (u_is_admin toy_owner = true \/ f_user_id file = u_id toy_owner))
  /\ (exists e : Embedding Z,
         In e (embeddings (view used_session)) /\ e_chunk_id e = 10%N
         /\ e_id e = 30%N
         /\ Some ADA_002 = Some (e_embedding_model e))
  /\ view (snd (get_chunk 10%N toy_owner used_session)) = view used_session
  /\ committed (snd (get_chunk 10%N toy_owner used_session)) = committed used_session.
Proof.
  apply (get_chunk_authorized Z nat 10%N toy_owner used_session
           (mkChunkWithEmbedding (mkChunk 10%N 1 "old one" 7 1%N) (Some 30%N)
              (Some ADA_002))
           (snd (get_chunk 10%N toy_owner used_session))).
  reflexivity.
Defined.

(** X15 at the owner's request for the details of file 1 of [used_session]. *)
Lemma get_file_details_owner_witness :
  (exists file,
      In file (files (view used_session)) /\ f_id file = 1%N
      /\ f_user_id file = u_id toy_owner
      /\ mkFileResponse 1%N "three.txt" "text/plain" 42%N "Embedded" 2
         = file_response file (length (chunks_of 1%N (view used_session))))
  /\ 2 = length [mkChunk 10%N 1 "old one" 7 1%N; mkChunk 11%N 2 "old two" 7 1%N]
  /\ Permutation [mkChunk 10%N 1 "old one" 7 1%N; mkChunk 11%N 2 "old two" 7 1%N]
       (chunks_of 1%N (view used_session))
  /\ Sorted (fun a b : Chunk => c_chunk_number a <= c_chunk_number b)
       [mkChunk 10%N 1 "old one" 7 1%N; mkChunk 11%N 2 "old two" 7 1%N]
  /\ view (snd (get_file_details 1%N toy_owner used_session)) = view used_session
  /\ committed (snd (get_file_details 1%N toy_owner used_session))
     = committed used_session.
Proof.
  apply (get_file_details_owner Z nat 1%N toy_owner used_session
           (mkFileDetailResponse
              (mkFileResponse 1%N "three.txt" "text/plain" 42%N "Embedded" 2)
              [mkChunk 10%N 1 "old one" 7 1%N; mkChunk 11%N 2 "old two" 7 1%N])
           (snd (get_file_details 1%N toy_owner used_session))).
  reflexivity.
Defined.

(** X16 at a request of a user who owns no file for the deletion of file 1. *)
Lemma delete_file_not_owner_witness :
  view (snd (delete_file 1%N toy_stranger used_session)) = view used_session
  /\ committed (snd (delete_file 1%N toy_stranger used_session))
     = committed used_session
  /\ (faults used_session = [] ->
      fst (delete_file 1%N toy_stranger used_session)
      = Ok (HTTPException 404 "File not found")).
Proof.
  apply (delete_file_not_owner Z nat 1%N toy_stranger used_session).
  intros f [<-|[<-|[]]] _; discriminate.
Defined.

(** X17 at the owner's deletion of file 3, which has no chunk, ... *)
Lemma delete_file_outcome_witness :
  exists s' : Session Z nat,
    delete_file 3%N toy_owner (toy_session [])
    = (Ok (Respond "File deleted successfully"), s')
    /\ committed s' = view s'
    /\ find_file 3%N (view s') = None
    /\ chunks_of 3%N (view s') = []
    /\ embeddings (view s') = embeddings (view (toy_session []))
    /\ forall other, other <> 3%N -> untouched other (view (toy_session [])) (view s').
Proof.
  apply (delete_file_outcome Z nat 3%N toy_owner (toy_session [])
           (toy_file 3%N "notes.xyz" "Pending"));
    reflexivity.
Defined.

(** ... and of file 1 of [used_session], whose first chunk has an embedding:
    the database refuses. *)
Example delete_file_with_embeddings :
  delete_file 1%N toy_owner used_session = (Raise IntegrityError, used_session).
Proof. vm_compute. reflexivity. Qed.

(** X18 at the owner's request to reprocess file 1 of [used_session]. *)
Lemma reprocess_file_then_task_witness :
  exists s' : Session Z nat,
    toy_with_background (reprocess_file 1%N toy_owner) used_session
    = (Ok (Respond
             (mkFileResponse 1%N "three.txt" "text/plain" 42%N "Pending"
                (length (chunks_of 1%N (view used_session))))), s')
    /\ committed s' = view s'
    /\ (status_of 1%N (committed s') = Some "Error"
        \/ status_of 1%N (committed s') = Some "Embedded").
Proof.
  apply (reprocess_file_then_task Z nat (scripted_provider 9) toy_open_read
           toy_pdf_pages toy_docx_paragraphs toy_split_text toy_count_tokens
           toy_uuid_source 1%N toy_owner used_session
           (toy_file 1%N "three.txt" "Embedded"));
    reflexivity.
Defined.

(** X19 at the owner's request to process file 1, which is on the disk, ... *)
Lemma process_file_endpoint_then_task_witness :
  exists s' : Session Z nat,
    toy_with_background (process_file_endpoint toy_path_exists 1%N toy_owner)
      (toy_session [])
    = (Ok (Respond
             (mkProcessingResponse 1%N "three.txt" "Processing"
                "File processing started in the background")), s')
    /\ committed s' = view s'
    /\ (status_of 1%N (committed s') = Some "Error"
        \/ status_of 1%N (committed s') = Some "Embedded").
Proof.
  apply (process_file_endpoint_then_task Z nat (scripted_provider 9) toy_open_read
           toy_pdf_pages toy_docx_paragraphs toy_split_text toy_count_tokens
           toy_uuid_source toy_path_exists 1%N toy_owner (toy_session [])
           (toy_file 1%N "three.txt" "Pending"));
    reflexivity.
Defined.

(** ... and file 2, which is not. *)
Example process_file_endpoint_not_on_disk :
  toy_with_background (process_file_endpoint toy_path_exists 2%N toy_owner)
    (toy_session [])
  = (Ok (HTTPException 404 "File not found on disk"), toy_session []).
Proof. vm_compute. reflexivity. Qed.

(** X20 at the owner's listing over [used_session], and a stranger's. *)
Lemma get_all_files_own_witness :
  view (snd (get_all_files toy_owner used_session)) = view used_session
  /\ committed (snd (get_all_files toy_owner used_session)) = committed used_session
  /\ [mkFileResponse 1%N "three.txt" "text/plain" 42%N "Embedded" 2;
      mkFileResponse 2%N "report.pdf" "text/plain" 42%N "Embedded" 1]
     = map (fun f => file_response f (length (chunks_of (f_id f) (view used_session))))
         (filter (fun f => N.eqb (f_user_id f) (u_id toy_owner))
            (files (view used_session))).
Proof.
  apply (get_all_files_own Z nat toy_owner used_session
           [mkFileResponse 1%N "three.txt" "text/plain" 42%N "Embedded" 2;
            mkFileResponse 2%N "report.pdf" "text/plain" 42%N "Embedded" 1]
           (snd (get_all_files toy_owner used_session))).
  reflexivity.
Defined.

Example get_all_files_stranger :
  fst (get_all_files toy_stranger used_session) = Ok [].
Proof. reflexivity. Qed.
